(** * Deal monitoring and purchase execution: a shallow embedding

    The development follows the JavaScript sources of the repository:

    - [src/scrapers/scraperManager.js]   (class [ScraperManager]),
    - [src/purchaser/basePurchaser.js]   (class [BasePurchaser], followed in
      the same file by class [PurchaseManager], which [server.js] loads as
      [purchaseManager]),
    - [src/purchaser/automatedPurchaseBot.js] (class [AutomatedPurchaseBot]),
    - [src/utils/testStorage.js], and the Mongoose schemas of [SKU] and
      [Purchase],
    - the classes [BaseScraper] and [TargetScraper] ([scrapeProduct] and
      what it calls) and the class [TargetPurchaser].

    Conventions.  A JavaScript number is the rational it denotes ([Q]);
    the two non-numbers that matter for truthiness ([null]/[undefined] and
    [NaN]) are separate constructors.  [parseFloat] rounds the decimal it
    reads to the nearest double ([JsString.toDouble]); sums, products and
    [toFixed] are the exact operations, which the double operations of the
    code follow up to their rounding, so a statement on their results is a
    statement on values for which the double operation is exact.
    A [Date] is its millisecond count ([Z]).  The
    wall clock, [Math.random()] and the outcome of every call that leaves the
    process (a scraper, a purchaser, the id generator of the database) are
    inputs of the function that consumes them.  A database operation fails
    only where the schema refuses the document (validation, the unique
    [_id]); a [save] of a stored document writes the paths that were
    modified in memory, as Mongoose does, so that a call which works on a
    copy it fetched earlier overwrites these paths only.  The item and
    the user of a purchase exist when a query populates them.  The calls of
    the purchase executor interleave where one of them awaits the purchaser
    ([executePurchase], which drives a browser for seconds or minutes): an
    event of [PurchaseManager] is a call from its start, or from the return
    of its purchaser, up to the next such wait or to its end, and the
    database round trips and the mail inside it are part of the event.  The
    module [MailAwait] cuts these events once more, at the wait for the
    mail service inside the two handlers, where a handler has saved the
    outcome and [processPurchase] has not yet reached its [finally]; the
    lemma [settle_in_two_stretches] relates the two.
    Logging to the console or to files is kept only where a function needs an
    observable trace of the branch it took. *)

From Stdlib Require Import ZArith QArith Qround Qpower Lia Lqa Ascii.
From stdpp Require Import base option list strings gmap sorting.

Set Default Proof Using "Type".

(* ===================================================================== *)
(** ** JavaScript values used by the code                                 *)
(* ===================================================================== *)

Module Js.

(** A [Date] / [Date.now()] value, in milliseconds. *)
Definition Time := Z.

(** The value of a numeric property such as [result.price]: absent
    ([null] or [undefined]), [NaN], or a number. *)
Inductive num : Type :=
| Null
| NaN
| Num (q : Q).

#[global] Instance Q_eq_dec : EqDecision Q.
Proof. solve_decision. Defined.

#[global] Instance num_eq_dec : EqDecision num.
Proof. solve_decision. Defined.

(** [ToBoolean] on such a value: only a number different from zero is
    truthy. *)
Definition truthy (v : num) : bool :=
  match v with
  | Num q => negb (Qeq_bool q 0)
  | _ => false
  end.

(** [v <= t] for a number [t]: [null] converts to [0], any comparison
    with [NaN] is false. *)
Definition le (v : num) (t : Q) : bool :=
  match v with
  | Null => Qle_bool 0 t
  | NaN => false
  | Num q => Qle_bool q t
  end.

(** [v > t]. *)
Definition gt (v : num) (t : Q) : bool :=
  match v with
  | Null => negb (Qle_bool 0 t)
  | NaN => false
  | Num q => negb (Qle_bool q t)
  end.

(** [v * n] for a number [n]. *)
Definition mul (v : num) (n : Q) : num :=
  match v with
  | Null => Num 0
  | NaN => NaN
  | Num q => Num (q * n)
  end.

(** [ToBoolean] on a string-or-null parameter. *)
Definition truthy_str (s : option string) : bool :=
  match s with
  | Some s => negb (bool_decide (s = ""))
  | None => false
  end.

(** [s.split(sep)] for a one-character separator. *)
Fixpoint split (sep : ascii) (s : string) : list string :=
  match s with
  | EmptyString => [EmptyString]
  | String c s' =>
      if bool_decide (c = sep) then EmptyString :: split sep s'
      else match split sep s' with
           | [] => [String c EmptyString]
           | w :: ws => String c w :: ws
           end
  end.

(** A [Map] with string keys.  Iteration follows insertion order and
    [set] on a present key keeps its position, so the entries are an
    association list. *)
Abbreviation Map V := (list (string * V)) (only parsing).

Fixpoint Map_set {V} (k : string) (v : V) (m : Map V) : Map V :=
  match m with
  | [] => [(k, v)]
  | (k', v') :: m' =>
      if bool_decide (k' = k) then (k, v) :: m'
      else (k', v') :: Map_set k v m'
  end.

Fixpoint Map_get {V} (k : string) (m : Map V) : option V :=
  match m with
  | [] => None
  | (k', v') :: m' => if bool_decide (k' = k) then Some v' else Map_get k m'
  end.

Definition Map_delete {V} (k : string) (m : Map V) : Map V :=
  filter (fun kv => kv.1 ≠ k) m.

Definition Map_keys {V} (m : Map V) : list string := m.*1.

End Js.

(* ===================================================================== *)
(** ** Identifiers and the retailer enumeration                            *)
(* ===================================================================== *)

(** A MongoDB [ObjectId]; its [toString()] is its hexadecimal form. *)
Inductive hexdigit : Type :=
| X0 | X1 | X2 | X3 | X4 | X5 | X6 | X7
| X8 | X9 | Xa | Xb | Xc | Xd | Xe | Xf.

Definition hexdigit_char (d : hexdigit) : ascii :=
  match d with
  | X0 => "0" | X1 => "1" | X2 => "2" | X3 => "3"
  | X4 => "4" | X5 => "5" | X6 => "6" | X7 => "7"
  | X8 => "8" | X9 => "9" | Xa => "a" | Xb => "b"
  | Xc => "c" | Xd => "d" | Xe => "e" | Xf => "f"
  end%char.

Definition ObjectId := list hexdigit.

Fixpoint ObjectId_toString (o : ObjectId) : string :=
  match o with
  | [] => EmptyString
  | d :: o' => String (hexdigit_char d) (ObjectId_toString o')
  end.

#[global] Instance hexdigit_eq_dec : EqDecision hexdigit.
Proof. solve_decision. Defined.

(** The [enum] of [website.name] in both schemas. *)
Inductive WebsiteName : Type :=
| target | bestbuy | walmart | samsclub | gamestop | costco | pokemoncenter.

#[global] Instance WebsiteName_eq_dec : EqDecision WebsiteName.
Proof. solve_decision. Defined.

Definition WebsiteName_str (w : WebsiteName) : string :=
  match w with
  | target => "target"
  | bestbuy => "bestbuy"
  | walmart => "walmart"
  | samsclub => "samsclub"
  | gamestop => "gamestop"
  | costco => "costco"
  | pokemoncenter => "pokemoncenter"
  end.

(* ===================================================================== *)
(** ** Documents: users, tracked items, probe results, purchases           *)
(* ===================================================================== *)

(** The part of a populated [createdBy] user that the managers read. *)
Record User : Type := mkUser {
  email : string;
  emailNotifications : bool          (* settings.emailNotifications *)
}.

(** [models/SKU]: a tracked item. *)
Module SKU.

Inductive Priority : Type := high | medium | low.
Inductive Status : Type := active | inactive | paused.

Record Website : Type := mkWebsite {
  name : WebsiteName;
  url : string;
  isActive : bool
}.

Record PurchaseSettings : Type := mkSettings {
  maxQuantity : nat;
  autoPurchase : bool;
  requireConfirmation : bool
}.

Record t : Type := mk {
  _id : ObjectId;
  title : string;                  (* name *)
  targetPrice : Q;
  maxPrice : Q;
  priority : Priority;
  websites : list Website;
  purchaseSettings : PurchaseSettings;
  status : Status;
  createdBy : option User          (* populate('createdBy'); null when gone *)
}.

#[global] Instance Priority_eq_dec : EqDecision Priority.
Proof. solve_decision. Defined.

End SKU.

(** What [scraper.scrapeProduct] resolves to. *)
Module ScrapeResult.

Record t : Type := mk {
  success : bool;
  price : Js.num;
  inStock : bool;
  title : string;
  website : string;                (* the scraper's own label *)
  url : string;
  error : string;
  scrapedAt : Js.Time
}.

(** [{ ...result, website: w }] *)
Definition with_website (r : t) (w : string) : t :=
  {| success := success r; price := price r; inStock := inStock r;
     title := title r; website := w; url := url r; error := error r;
     scrapedAt := scrapedAt r |}.

End ScrapeResult.

(** [models/Purchase]: a ledger entry. *)
Module Purchase.

Inductive Status : Type := pending | processing | success | failed | cancelled.
Inductive Severity : Type := low | medium | high | critical.
Inductive PaymentStatus : Type :=
  pay_pending | authorized | captured | pay_failed | refunded.
Inductive NotificationType : Type := n_success | n_failure | n_attempt.

#[global] Instance Status_eq_dec : EqDecision Status.
Proof. solve_decision. Defined.

Record Website : Type := mkWebsite { name : WebsiteName; url : string }.

Record Details : Type := mkDetails {
  price : Js.num;
  quantity : nat;
  totalAmount : Js.num
}.

Record OrderInfo : Type := mkOrderInfo {
  orderId : option string;
  confirmationNumber : option string;
  trackingNumber : option string;
  estimatedDelivery : option Js.Time
}.

Record AttemptInfo : Type := mkAttemptInfo {
  attemptNumber : nat;
  lastAttempt : Js.Time;
  maxAttempts : nat
}.

Record ErrorRecord : Type := mkError {
  message : string;
  timestamp : Js.Time;
  errorCode : string;
  severity : Severity
}.

Record PaymentInfo : Type := mkPaymentInfo {
  transactionId : option string;
  paymentStatus : PaymentStatus
}.

Record Notifications : Type := mkNotifications {
  emailSent : bool;
  emailTimestamp : option Js.Time;
  notificationType : option NotificationType
}.

Record t : Type := mk {
  _id : ObjectId;
  sku : ObjectId;
  website : Website;
  status : Status;
  purchaseDetails : Details;
  orderInfo : option OrderInfo;
  attemptInfo : AttemptInfo;
  errors : list ErrorRecord;
  paymentInfo : PaymentInfo;
  notifications : Notifications;
  createdBy : option User;
  createdAt : Js.Time
}.

#[global] Instance OrderInfo_eq_dec : EqDecision OrderInfo.
Proof. solve_decision. Defined.

#[global] Instance PaymentStatus_eq_dec : EqDecision PaymentStatus.
Proof. solve_decision. Defined.

#[global] Instance NotificationType_eq_dec : EqDecision NotificationType.
Proof. solve_decision. Defined.

(** The document with one path set to a value. *)
Definition with_status (s : Status) (p : t) : t :=
  mk (_id p) (sku p) (website p) s (purchaseDetails p) (orderInfo p)
     (attemptInfo p) (errors p) (paymentInfo p) (notifications p)
     (createdBy p) (createdAt p).

Definition with_purchaseDetails (d : Details) (p : t) : t :=
  mk (_id p) (sku p) (website p) (status p) d (orderInfo p)
     (attemptInfo p) (errors p) (paymentInfo p) (notifications p)
     (createdBy p) (createdAt p).

Definition with_orderInfo (o : option OrderInfo) (p : t) : t :=
  mk (_id p) (sku p) (website p) (status p) (purchaseDetails p) o
     (attemptInfo p) (errors p) (paymentInfo p) (notifications p)
     (createdBy p) (createdAt p).

Definition with_attemptInfo (a : AttemptInfo) (p : t) : t :=
  mk (_id p) (sku p) (website p) (status p) (purchaseDetails p) (orderInfo p)
     a (errors p) (paymentInfo p) (notifications p)
     (createdBy p) (createdAt p).

Definition with_errors (e : list ErrorRecord) (p : t) : t :=
  mk (_id p) (sku p) (website p) (status p) (purchaseDetails p) (orderInfo p)
     (attemptInfo p) e (paymentInfo p) (notifications p)
     (createdBy p) (createdAt p).

Definition with_paymentInfo (i : PaymentInfo) (p : t) : t :=
  mk (_id p) (sku p) (website p) (status p) (purchaseDetails p) (orderInfo p)
     (attemptInfo p) (errors p) i (notifications p)
     (createdBy p) (createdAt p).

Definition with_notifications (n : Notifications) (p : t) : t :=
  mk (_id p) (sku p) (website p) (status p) (purchaseDetails p) (orderInfo p)
     (attemptInfo p) (errors p) (paymentInfo p) n
     (createdBy p) (createdAt p).

Definition with_totalAmount (v : Js.num) (p : t) : t :=
  with_purchaseDetails
    (mkDetails (price (purchaseDetails p)) (quantity (purchaseDetails p)) v) p.

Definition with_lastAttempt (now : Js.Time) (p : t) : t :=
  with_attemptInfo
    (mkAttemptInfo (attemptNumber (attemptInfo p)) now
                   (maxAttempts (attemptInfo p))) p.

Definition with_attemptNumber (n : nat) (p : t) : t :=
  with_attemptInfo
    (mkAttemptInfo n (lastAttempt (attemptInfo p))
                   (maxAttempts (attemptInfo p))) p.

Definition with_transactionId (i : option string) (p : t) : t :=
  with_paymentInfo (mkPaymentInfo i (paymentStatus (paymentInfo p))) p.

Definition with_paymentStatus (s : PaymentStatus) (p : t) : t :=
  with_paymentInfo (mkPaymentInfo (transactionId (paymentInfo p)) s) p.

Definition with_emailSent (b : bool) (p : t) : t :=
  with_notifications
    (mkNotifications b (emailTimestamp (notifications p))
                     (notificationType (notifications p))) p.

Definition with_emailTimestamp (now : option Js.Time) (p : t) : t :=
  with_notifications
    (mkNotifications (emailSent (notifications p)) now
                     (notificationType (notifications p))) p.

Definition with_notificationType (n : option NotificationType) (p : t) : t :=
  with_notifications
    (mkNotifications (emailSent (notifications p))
                     (emailTimestamp (notifications p)) n) p.

(** [new Purchase({ sku, website, purchaseDetails, createdBy })]: the
    paths that are not given take the schema defaults. *)
Definition new (id : ObjectId) (now : Js.Time) (sku : ObjectId)
    (w : Website) (d : Details) (by_ : option User) : t :=
  {| _id := id; sku := sku; website := w;
     status := pending;
     purchaseDetails := d;
     orderInfo := None;
     attemptInfo := mkAttemptInfo 1 now 3;
     errors := [];
     paymentInfo := mkPaymentInfo None pay_pending;
     notifications := mkNotifications false None None;
     createdBy := by_;
     createdAt := now |}.

Definition is_number (v : Js.num) : bool :=
  match v with Js.Num _ => true | _ => false end.

(** The schema validation that runs before a document is written:
    [required] paths and [min: 1] on the quantity. *)
Definition validate (p : t) : bool :=
  negb (bool_decide (url (website p) = ""))
  && is_number (price (purchaseDetails p))
  && bool_decide (1 <= quantity (purchaseDetails p))
  && is_number (totalAmount (purchaseDetails p))
  && bool_decide (is_Some (createdBy p)).

(** The collection, in creation order ([createdAt] ascending). *)
Abbreviation Collection := (list t) (only parsing).

(** A document in memory: its values, and the update that the next
    [save] sends to the collection.  Mongoose tracks the paths that were
    assigned a different value since the document was loaded or saved and
    writes these paths only; an array [push] is sent as a push.  The
    update is kept as the function it applies to the stored document. *)
Record Doc : Type := mkDoc {
  doc : t;
  update : t -> t
}.

(** A document as a query returns it. *)
Definition loaded (p : t) : Doc := mkDoc p (fun q => q).

(** [doc.path = v]: the path is marked modified when [v] differs from
    the value in memory. *)
Definition assign {A : Type} (same : A -> A -> bool) (get : t -> A)
    (set : A -> t -> t) (v : A) (d : Doc) : Doc :=
  if same (get (doc d)) v then d
  else mkDoc (set v (doc d)) (fun q => set v (update d q)).

(** [doc.path = new Date()].  The fresh date is written; with a clock
    that does not run backwards this is what the comparison of Mongoose
    gives as well. *)
Definition stamp {A : Type} (set : A -> t -> t) (now : A) (d : Doc) : Doc :=
  mkDoc (set now (doc d)) (fun q => set now (update d q)).

(** [doc.errors.push(e)] *)
Definition push_error (e : ErrorRecord) (d : Doc) : Doc :=
  mkDoc (with_errors (errors (doc d) ++ [e]) (doc d))
        (fun q => let q := update d q in with_errors (errors q ++ [e]) q).

Definition same_num (a b : Js.num) : bool :=
  match a, b with
  | Js.Num x, Js.Num y => Qeq_bool x y
  | Js.Null, Js.Null => true
  | Js.NaN, Js.NaN => true
  | _, _ => false
  end.

(** [purchaseSchema.pre('save', ...)]: recompute the total. *)
Definition preSave (d : Doc) : Doc :=
  let details := purchaseDetails (doc d) in
  if Js.truthy (price details) && negb (bool_decide (quantity details = 0)) then
    assign same_num (fun p => totalAmount (purchaseDetails p)) with_totalAmount
      (Js.mul (price details) (inject_Z (Z.of_nat (quantity details)))) d
  else d.

(** [doc.save()] on a document that is stored: the update goes to the
    stored document with the [_id] of the one in memory.  The result is the
    document in memory and the collection. *)
Definition save (d : Doc) (c : Collection) : t * Collection :=
  let d := preSave d in
  (doc d,
   (fun q => if bool_decide (_id q = _id (doc d)) then update d q else q) <$> c).

(** [doc.save()] on a new document: validation, the hook, and the
    insertion, which the unique index on [_id] refuses for an id that is
    in the collection. *)
Definition insert (p : t) (c : Collection) : option Collection :=
  if validate p && bool_decide (_id p ∉ _id <$> c)
  then Some (c ++ [doc (preSave (loaded p))])
  else None.

(** [Purchase.findById(id)]; the id arrives as a string. *)
Definition findById (id : string) (c : Collection) : option t :=
  head (filter (fun q => ObjectId_toString (_id q) = id) c).

End Purchase.

(* ===================================================================== *)
(** ** [ScraperManager]: result cache, decision, purchase intents          *)
(* ===================================================================== *)

Module ScraperManager.

(** A value of [this.results]: [{ ...result, sku, website, timestamp }]. *)
Record CacheEntry : Type := mkEntry {
  fields : ScrapeResult.t;
  sku : ObjectId;
  timestamp : Js.Time
}.

(** [sendPriceAlert(userEmail, sku, { currentPrice, website, inStock })] *)
Record PriceAlert : Type := mkAlert {
  alert_to : string;
  alert_sku : ObjectId;
  alert_currentPrice : Js.num;
  alert_website : WebsiteName;
  alert_inStock : bool
}.

(** The [logger] calls of [processScrapingResult] and
    [triggerAutoPurchase], one constructor per call site. *)
Inductive LogLine : Type :=
| LogPriceAlert (sku : ObjectId) (price : Js.num)
| LogTriggering (sku : ObjectId) (w : WebsiteName)
| LogPurchaseQueued (purchase : ObjectId)
| LogErrorTriggering
| LogScraped (sku : ObjectId) (price : Js.num) (w : WebsiteName) (inStock : bool).

#[global] Instance LogLine_eq_dec : EqDecision LogLine.
Proof. solve_decision. Defined.

(** What the methods below read and write: the cache of the manager,
    the [Purchase] collection, the mail that was handed to the e-mail
    service and the log. *)
Record Env : Type := mkEnv {
  results : Js.Map CacheEntry;
  purchases : Purchase.Collection;
  mailbox : list PriceAlert;
  log : list LogLine
}.

Definition with_results (r : Js.Map CacheEntry) (e : Env) : Env :=
  mkEnv r (purchases e) (mailbox e) (log e).
Definition with_purchases (c : Purchase.Collection) (e : Env) : Env :=
  mkEnv (results e) c (mailbox e) (log e).
Definition send (a : PriceAlert) (e : Env) : Env :=
  mkEnv (results e) (purchases e) (mailbox e ++ [a]) (log e).
Definition info (l : LogLine) (e : Env) : Env :=
  mkEnv (results e) (purchases e) (mailbox e) (log e ++ [l]).

(** [`${sku._id}_${website.name}`] *)
Definition cacheKey (skuId : ObjectId) (w : WebsiteName) : string :=
  ObjectId_toString skuId +:+ "_" +:+ WebsiteName_str w.

(** [triggerAutoPurchase(sku, website, scrapingResult)].  [newId] is the
    [_id] the new document receives. *)
Definition triggerAutoPurchase (sku : SKU.t) (website : SKU.Website)
    (scrapingResult : ScrapeResult.t) (newId : ObjectId) (now : Js.Time)
    (e : Env) : Env :=
  let e := info (LogTriggering (SKU._id sku) (SKU.name website)) e in
  let maxQuantity := SKU.maxQuantity (SKU.purchaseSettings sku) in
  let purchase :=
    Purchase.new newId now (SKU._id sku)
      (Purchase.mkWebsite (SKU.name website) (SKU.url website))
      (Purchase.mkDetails
         (ScrapeResult.price scrapingResult)
         maxQuantity
         (Js.mul (ScrapeResult.price scrapingResult)
                 (inject_Z (Z.of_nat maxQuantity))))
      (SKU.createdBy sku) in
  match Purchase.insert purchase (purchases e) with
  | Some c => info (LogPurchaseQueued newId) (with_purchases c e)
  | None => info LogErrorTriggering e
  end.

(** The two conditions of [processScrapingResult]. *)
Definition priceMeetsTarget (sku : SKU.t) (result : ScrapeResult.t) : bool :=
  Js.truthy (ScrapeResult.price result)
  && Js.le (ScrapeResult.price result) (SKU.targetPrice sku)
  && ScrapeResult.inStock result.

Definition autoPurchaseEnabled (sku : SKU.t) : bool :=
  SKU.autoPurchase (SKU.purchaseSettings sku)
  && negb (SKU.requireConfirmation (SKU.purchaseSettings sku)).

(** [processScrapingResult(sku, website, result)] *)
Definition processScrapingResult (sku : SKU.t) (website : SKU.Website)
    (result : ScrapeResult.t) (newId : ObjectId) (now : Js.Time)
    (e : Env) : Env :=
  let e :=
    with_results
      (Js.Map_set (cacheKey (SKU._id sku) (SKU.name website))
         (mkEntry
            (ScrapeResult.with_website result (WebsiteName_str (SKU.name website)))
            (SKU._id sku) now)
         (results e)) e in
  let e :=
    if priceMeetsTarget sku result then
      let e := info (LogPriceAlert (SKU._id sku) (ScrapeResult.price result)) e in
      let e :=
        match SKU.createdBy sku with
        | Some u =>
            send (mkAlert (email u) (SKU._id sku) (ScrapeResult.price result)
                          (SKU.name website) (ScrapeResult.inStock result)) e
        | None => e
        end in
      if autoPurchaseEnabled sku then
        triggerAutoPurchase sku website result newId now e
      else e
    else e in
  info (LogScraped (SKU._id sku) (ScrapeResult.price result)
                   (SKU.name website) (ScrapeResult.inStock result)) e.

(** What the call of [scraper.scrapeProduct] does. *)
Inductive ProbeOutcome : Type :=
| Resolved (result : ScrapeResult.t)
| Rejected (message : string).

(** [{ success: false, error: error.message }]; the properties that the
    object lacks read as null, false or the empty string. *)
Definition failure (message : string) : ScrapeResult.t :=
  ScrapeResult.mk false Js.Null false "" "" "" message 0%Z.

(** [scrapeSingleProduct(sku, website)].  Every [website.name] of the
    schema has a scraper, so the lookup in [this.scrapers] succeeds. *)
Definition scrapeSingleProduct (sku : SKU.t) (website : SKU.Website)
    (probe : ProbeOutcome) (newId : ObjectId) (now : Js.Time)
    (e : Env) : ScrapeResult.t * Env :=
  match probe with
  | Resolved result =>
      if ScrapeResult.success result then
        (result, processScrapingResult sku website result newId now e)
      else (result, e)
  | Rejected message => (failure message, e)
  end.

(** [getResults(skuId, websiteName = null)] *)
Definition matches (skuId : ObjectId) (websiteName : option string)
    (key : string) : bool :=
  let parts := Js.split "_" key in
  let resultSkuId := parts !! 0 in
  let resultWebsite := parts !! 1 in
  bool_decide (resultSkuId = Some (ObjectId_toString skuId))
  && (negb (Js.truthy_str websiteName)
      || bool_decide (resultWebsite = websiteName)).

Fixpoint getResults (m : Js.Map CacheEntry) (skuId : ObjectId)
    (websiteName : option string) : list CacheEntry :=
  match m with
  | [] => []
  | (key, result) :: m' =>
      if matches skuId websiteName key
      then result :: getResults m' skuId websiteName
      else getResults m' skuId websiteName
  end.

(** [cleanup()]: drop what is older than one day. *)
Definition oneDay : Z := 24 * 60 * 60 * 1000.

Definition cleanup (now : Js.Time) (m : Js.Map CacheEntry) : Js.Map CacheEntry :=
  filter (fun kv => ¬ (timestamp kv.2 < now - oneDay)%Z) m.

(** *** The scheduler of the manager

    [start()] registers four cron jobs and one timer; node-cron invokes
    the callback of a job at each of its due times, and the callback
    calls the [async] method without awaiting it.  An invocation of
    [scrapeByPriority] that passed its guard stays in flight until its
    probes have settled. *)
Inductive Job : Type :=
| ScrapeJob (p : SKU.Priority)
| CleanupJob.

#[global] Instance Job_eq_dec : EqDecision Job.
Proof. solve_decision. Defined.

Record Scheduler : Type := mkScheduler {
  isRunning : bool;
  cronJobs : list Job;
  inFlight : list SKU.Priority;    (* running [scrapeByPriority] calls *)
  cache : Js.Map CacheEntry
}.

Definition created : Scheduler := mkScheduler false [] [] [].

(** [start()] *)
Definition start (s : Scheduler) : Scheduler :=
  if isRunning s then s
  else mkScheduler true
         [ScrapeJob SKU.high; ScrapeJob SKU.medium; ScrapeJob SKU.low; CleanupJob]
         (inFlight s) (cache s).

(** [stop()]: the flag is cleared and the jobs are destroyed; the calls
    that are running are not awaited.  The browsers of the scrapers, which
    [stop] closes as well, are not part of this state. *)
Definition stop (s : Scheduler) : Scheduler :=
  mkScheduler false [] (inFlight s) (cache s).

(** The first statement of [scrapeByPriority(priority)] and the entry
    into its body. *)
Definition scrapeByPriority (priority : SKU.Priority) (s : Scheduler) : Scheduler :=
  if negb (isRunning s) then s
  else mkScheduler (isRunning s) (cronJobs s) (inFlight s ++ [priority]) (cache s).

(** The callback of a cron job. *)
Definition fire (j : Job) (now : Js.Time) (s : Scheduler) : Scheduler :=
  match j with
  | ScrapeJob p => scrapeByPriority p s
  | CleanupJob =>
      mkScheduler (isRunning s) (cronJobs s) (inFlight s) (cleanup now (cache s))
  end.

Inductive Event : Type :=
| Start
| Stop
| Due (j : Job) (now : Js.Time)    (* a due time of job [j] arrives *)
| InitialScrape                    (* the [setTimeout] of [start] expires *)
| Settled (i : nat).               (* the i-th running call returns *)

Definition step (s : Scheduler) (ev : Event) : Scheduler :=
  match ev with
  | Start => start s
  | Stop => stop s
  | Due j now => if bool_decide (j ∈ cronJobs s) then fire j now s else s
  | InitialScrape => scrapeByPriority SKU.high s
  | Settled i =>
      mkScheduler (isRunning s) (cronJobs s) (delete i (inFlight s)) (cache s)
  end.

Definition run (evs : list Event) (s : Scheduler) : Scheduler :=
  foldl step s evs.

(** The number of calls for one tier that are running at the same time. *)
Definition running (p : SKU.Priority) (s : Scheduler) : nat :=
  length (filter (fun q => q = p) (inFlight s)).

End ScraperManager.

(* ===================================================================== *)
(** ** [BasePurchaser]: one browser session per retailer                   *)
(* ===================================================================== *)

(** A method either returns or throws an [Error] with a message. *)
Inductive Completion (A : Type) : Type :=
| Return (a : A)
| Throw (message : string).
Arguments Return {A} a.
Arguments Throw {A} message.

Module BasePurchaser.

(** [this.browser]: [null], a launched browser, or one that was closed. *)
Inductive Browser : Type := NoBrowser | Launched | Closed.

Record t : Type := mk {
  websiteName : string;
  browser : Browser;
  isCancelled : bool
}.

(** [constructor(websiteName)] *)
Definition create (websiteName : string) : t := mk websiteName NoBrowser false.

(** [initBrowser()], when the launch succeeds. *)
Definition initBrowser (p : t) : t := mk (websiteName p) Launched (isCancelled p).

(** [closeBrowser()] *)
Definition closeBrowser (p : t) : t :=
  match browser p with
  | NoBrowser => p
  | _ => mk (websiteName p) Closed (isCancelled p)
  end.

(** [cancel()] *)
Definition cancel (p : t) : t :=
  closeBrowser (mk (websiteName p) (browser p) true).

Definition cancelledMessage : string := "Purchase cancelled".

(** [randomDelay(min, max)]; the sleep itself has no effect on the
    state. *)
Definition randomDelay (p : t) : Completion unit :=
  if isCancelled p then Throw cancelledMessage else Return tt.

(** The page operations of a method are an input: [None] when they go
    through, [Some message] when one of them throws. *)
Definition PageOutcome := option string.

(** [fillField(selector, value, options)] *)
Definition fillField (p : t) (page : PageOutcome) : Completion unit :=
  if isCancelled p then Throw cancelledMessage
  else match page with
       | Some message => Throw message
       | None => randomDelay p
       end.

(** [waitForNavigation(timeout)]: a navigation timeout is swallowed. *)
Definition waitForNavigation (p : t) (page : PageOutcome) : Completion unit :=
  if isCancelled p then Throw cancelledMessage else Return tt.

(** The loop of [navigateWithRetry(url, maxRetries)] and of
    [clickWithRetry(selector, maxRetries)]: [remaining] iterations are
    left, [page attempt] is what the page does in iteration [attempt].
    The result [None] is the [undefined] of a loop that ran out. *)
Fixpoint retryLoop (p : t) (page : nat -> PageOutcome) (maxRetries remaining : nat)
    : Completion (option bool) :=
  match remaining with
  | 0 => Return None
  | S k =>
      let attempt := S (maxRetries - remaining) in
      let body : Completion unit :=
        if isCancelled p then Throw cancelledMessage
        else match page attempt with
             | Some message => Throw message
             | None => randomDelay p
             end in
      match body with
      | Return _ => Return (Some true)
      | Throw error =>
          if bool_decide (attempt = maxRetries) then Throw error
          else match randomDelay p with
               | Throw e => Throw e
               | Return _ => retryLoop p page maxRetries k
               end
      end
  end.

Definition navigateWithRetry (p : t) (page : nat -> PageOutcome) (maxRetries : nat) :=
  retryLoop p page maxRetries maxRetries.

Definition clickWithRetry (p : t) (page : nat -> PageOutcome) (maxRetries : nat) :=
  retryLoop p page maxRetries maxRetries.

End BasePurchaser.

(* ===================================================================== *)
(** ** [PurchaseManager]: the purchase executor                            *)
(* ===================================================================== *)

Module PurchaseManager.

(** [this.purchasers]: one purchaser object per supported retailer. *)
Record Purchasers : Type := mkPurchasers {
  p_target : BasePurchaser.t;
  p_bestbuy : BasePurchaser.t;
  p_pokemoncenter : BasePurchaser.t
}.

(** [this.purchasers[websiteName]] *)
Definition purchaserOf (ps : Purchasers) (w : WebsiteName) : option BasePurchaser.t :=
  match w with
  | target => Some (p_target ps)
  | bestbuy => Some (p_bestbuy ps)
  | pokemoncenter => Some (p_pokemoncenter ps)
  | _ => None
  end.

(** A method call on the object [this.purchasers[w]]. *)
Definition onPurchaser (f : BasePurchaser.t -> BasePurchaser.t)
    (w : WebsiteName) (ps : Purchasers) : Purchasers :=
  match w with
  | target => mkPurchasers (f (p_target ps)) (p_bestbuy ps) (p_pokemoncenter ps)
  | bestbuy => mkPurchasers (p_target ps) (f (p_bestbuy ps)) (p_pokemoncenter ps)
  | pokemoncenter => mkPurchasers (p_target ps) (p_bestbuy ps) (f (p_pokemoncenter ps))
  | _ => ps
  end.

(** What the [try] block of [processPurchase] ends with: the purchaser
    resolved with [success: true], or it resolved with an error, or a
    statement of the block threw (no credit card, a rejected promise). *)
Record PurchaseResult : Type := mkResult {
  r_orderId : option string;
  r_confirmationNumber : option string;
  r_trackingNumber : option string;
  r_estimatedDelivery : option Js.Time;
  r_transactionId : option string
}.

Inductive Outcome : Type :=
| Succeeded (result : PurchaseResult)
| Failed (error : string).

(** A call of [processPendingPurchases] or [retryFailedPurchases] that
    is under way: the documents it fetched and has not reached yet, and
    the document whose [executePurchase] it awaits.  The documents are
    the copies the query returned. *)
Inductive RunKind : Type := PendingRun | RetryRun.

Record Run : Type := mkRun {
  kind : RunKind;
  current : option Purchase.t;
  todo : list Purchase.t
}.

(** The manager, the [Purchase] collection it works on, and its calls
    that are under way.  A value of [activePurchases] is a reference to one
    of the three purchaser objects, given by its key in [this.purchasers].
    The cron jobs and the timer of [start()] are the events
    [ProcessPending] and [RetryFailed] below. *)
Record t : Type := mk {
  isRunning : bool;
  purchasers : Purchasers;
  activePurchases : gmap string WebsiteName;
  database : Purchase.Collection;
  runs : list Run
}.

Definition maxConcurrentPurchases : nat := 3.

(** [constructor()], with an empty collection. *)
Definition created : t :=
  mk false
     (mkPurchasers (BasePurchaser.create "Target")
                   (BasePurchaser.create "BestBuy")
                   (BasePurchaser.create "Pokemon Center"))
     ∅ [] [].

Definition with_database (c : Purchase.Collection) (m : t) : t :=
  mk (isRunning m) (purchasers m) (activePurchases m) c (runs m).
Definition with_active (a : gmap string WebsiteName) (m : t) : t :=
  mk (isRunning m) (purchasers m) a (database m) (runs m).
Definition with_purchasers (ps : Purchasers) (m : t) : t :=
  mk (isRunning m) ps (activePurchases m) (database m) (runs m).
Definition with_runs (rs : list Run) (m : t) : t :=
  mk (isRunning m) (purchasers m) (activePurchases m) (database m) rs.

(** [start()] *)
Definition start (m : t) : t :=
  if isRunning m then m
  else mk true (purchasers m) (activePurchases m) (database m) (runs m).

(** [stop()]: every purchaser of an active purchase is cancelled and the
    map is cleared; the calls that are under way are not awaited. *)
Definition stop (m : t) : t :=
  let ps :=
    foldr (fun kv ps => onPurchaser BasePurchaser.cancel kv.2 ps)
          (purchasers m) (map_to_list (activePurchases m)) in
  mk false ps ∅ (database m) (runs m).

Definition same {A : Type} `{EqDecision A} (a b : A) : bool := bool_decide (a = b).

(** [handlePurchaseSuccess(purchase, result)]; its two [save] calls
    follow each other and are the one [save] of the caller below.  The
    e-mail service catches its own errors; the card statistics depend on
    [paymentInfo.cardUsed], which no code path sets. *)
Definition handlePurchaseSuccess (purchase : Purchase.Doc)
    (result : PurchaseResult) (now : Js.Time) : Purchase.Doc :=
  let d := Purchase.assign same Purchase.status Purchase.with_status
             Purchase.success purchase in
  let d :=
    Purchase.assign same Purchase.orderInfo Purchase.with_orderInfo
      (Some (Purchase.mkOrderInfo (r_orderId result) (r_confirmationNumber result)
                                  (r_trackingNumber result) (r_estimatedDelivery result)))
      d in
  let d :=
    Purchase.assign same (fun p => Purchase.transactionId (Purchase.paymentInfo p))
      Purchase.with_transactionId (r_transactionId result) d in
  let d :=
    Purchase.assign same (fun p => Purchase.paymentStatus (Purchase.paymentInfo p))
      Purchase.with_paymentStatus Purchase.captured d in
  match Purchase.createdBy (Purchase.doc d) with
  | Some u =>
      if emailNotifications u then
        let d :=
          Purchase.assign same (fun p => Purchase.emailSent (Purchase.notifications p))
            Purchase.with_emailSent true d in
        let d := Purchase.stamp Purchase.with_emailTimestamp (Some now) d in
        Purchase.assign same
          (fun p => Purchase.notificationType (Purchase.notifications p))
          Purchase.with_notificationType (Some Purchase.n_success) d
      else d
  | None => d
  end.

(** [handlePurchaseError(purchase, errorMessage)]; again its two [save]
    calls are the one [save] of the caller. *)
Definition handlePurchaseError (purchase : Purchase.Doc)
    (errorMessage : string) (now : Js.Time) : Purchase.Doc :=
  let d :=
    Purchase.push_error
      (Purchase.mkError errorMessage now "PURCHASE_FAILED" Purchase.high)
      purchase in
  let d :=
    Purchase.assign same (fun p => Purchase.attemptNumber (Purchase.attemptInfo p))
      Purchase.with_attemptNumber
      (Purchase.attemptNumber (Purchase.attemptInfo (Purchase.doc d)) + 1) d in
  let d :=
    if bool_decide (Purchase.maxAttempts (Purchase.attemptInfo (Purchase.doc d))
                    < Purchase.attemptNumber (Purchase.attemptInfo (Purchase.doc d)))
    then Purchase.assign same Purchase.status Purchase.with_status Purchase.failed d
    else Purchase.assign same Purchase.status Purchase.with_status Purchase.pending d in
  match Purchase.createdBy (Purchase.doc d) with
  | Some u =>
      if emailNotifications u then
        let d :=
          Purchase.assign same (fun p => Purchase.emailSent (Purchase.notifications p))
            Purchase.with_emailSent true d in
        let d := Purchase.stamp Purchase.with_emailTimestamp (Some now) d in
        Purchase.assign same
          (fun p => Purchase.notificationType (Purchase.notifications p))
          Purchase.with_notificationType (Some Purchase.n_failure) d
      else d
  | None => d
  end.

(** The query of [processPendingPurchases]. *)
Definition findPending (limit : nat) (c : Purchase.Collection) : list Purchase.t :=
  take limit
    (filter (fun p =>
               Purchase.status p = Purchase.pending
               ∧ Purchase.attemptNumber (Purchase.attemptInfo p) <= 3) c).

(** The query of [retryFailedPurchases]. *)
Definition tenMinutes : Z := 10 * 60 * 1000.

Definition findRetry (now : Js.Time) (c : Purchase.Collection) : list Purchase.t :=
  filter (fun p =>
            Purchase.status p = Purchase.pending
            ∧ (2 <= Purchase.attemptNumber (Purchase.attemptInfo p)
               ∧ Purchase.attemptNumber (Purchase.attemptInfo p) <= 3)
            ∧ (Purchase.lastAttempt (Purchase.attemptInfo p) < now - tenMinutes)%Z) c.

(** [processPendingPurchases()] up to the first [await] of its loop. *)
Definition processPendingPurchases (now : Js.Time) (m : t) : t :=
  if negb (isRunning m) then m
  else if bool_decide (maxConcurrentPurchases <= size (activePurchases m)) then m
  else
    let pendingPurchases :=
      findPending (maxConcurrentPurchases - size (activePurchases m)) (database m) in
    match pendingPurchases with
    | [] => m
    | _ => with_runs (runs m ++ [mkRun PendingRun None pendingPurchases]) m
    end.

(** [retryFailedPurchases()] up to the first [await] of its loop. *)
Definition retryFailedPurchases (now : Js.Time) (m : t) : t :=
  if negb (isRunning m) then m
  else
    match findRetry now (database m) with
    | [] => m
    | retryPurchases => with_runs (runs m ++ [mkRun RetryRun None retryPurchases]) m
    end.

Definition idOf (p : Purchase.t) : string := ObjectId_toString (Purchase._id p).

(** [processPurchase(purchase)] up to [await purchaser.executePurchase]:
    the status update, the time stamp and the entry in
    [activePurchases].  [Throw] is the missing purchaser. *)
Definition beginPurchase (purchase : Purchase.t) (now : Js.Time) (m : t)
    : Completion (Purchase.t * t) :=
  let websiteName := Purchase.name (Purchase.website purchase) in
  match purchaserOf (purchasers m) websiteName with
  | None =>
      Throw ("No purchaser found for website: " +:+ WebsiteName_str websiteName)
  | Some _ =>
      let d := Purchase.loaded purchase in
      let d := Purchase.assign same Purchase.status Purchase.with_status
                 Purchase.processing d in
      let d := Purchase.stamp Purchase.with_lastAttempt now d in
      let '(purchase, c) := Purchase.save d (database m) in
      let m := with_database c m in
      let m := with_active (<[idOf purchase := websiteName]> (activePurchases m)) m in
      Return (purchase, m)
  end.

(** [processPurchase(purchase)] from the result of the [try] block to
    its [finally]. *)
Definition endPurchase (purchase : Purchase.t) (o : Outcome) (now : Js.Time)
    (m : t) : t :=
  let d :=
    match o with
    | Succeeded result => handlePurchaseSuccess (Purchase.loaded purchase) result now
    | Failed error => handlePurchaseError (Purchase.loaded purchase) error now
    end in
  let '(purchase, c) := Purchase.save d (database m) in
  let m := with_database c m in
  with_active (delete (idOf purchase) (activePurchases m)) m.

(** One iteration of the loop of a call that is under way, from the
    loop head to the next [await executePurchase]. *)
Definition resume (r : Run) (now : Js.Time) (m : t) : Run * t :=
  match current r, todo r with
  | Some _, _ => (r, m)
  | None, [] => (r, m)
  | None, purchase :: rest =>
      match kind r with
      | PendingRun =>
          match beginPurchase purchase now m with
          | Return (purchase, m) => (mkRun PendingRun (Some purchase) rest, m)
          | Throw message =>
              let d := handlePurchaseError (Purchase.loaded purchase) message now in
              (mkRun PendingRun None rest,
               with_database (Purchase.save d (database m)).2 m)
          end
      | RetryRun =>
          if bool_decide (size (activePurchases m) < maxConcurrentPurchases) then
            match beginPurchase purchase now m with
            | Return (purchase, m) => (mkRun RetryRun (Some purchase) rest, m)
            | Throw _ => (mkRun RetryRun None [], m)
            end
          else (mkRun RetryRun None rest, m)
      end
  end.

(** The awaited [executePurchase] of a call returns. *)
Definition settle (r : Run) (o : Outcome) (now : Js.Time) (m : t) : Run * t :=
  match current r with
  | Some purchase => (mkRun (kind r) None (todo r), endPurchase purchase o now m)
  | None => (r, m)
  end.

(** [cancelPurchase(purchaseId)] *)
Definition cancelPurchase (purchaseId : string) (m : t)
    : Completion Purchase.t * t :=
  match Purchase.findById purchaseId (database m) with
  | None => (Throw "Purchase not found", m)
  | Some purchase =>
      if bool_decide (Purchase.status purchase = Purchase.success
                      ∨ Purchase.status purchase = Purchase.cancelled)
      then (Throw "Cannot cancel completed or already cancelled purchase", m)
      else
        let d := Purchase.assign same Purchase.status Purchase.with_status
                   Purchase.cancelled (Purchase.loaded purchase) in
        let '(purchase, c) := Purchase.save d (database m) in
        let m := with_database c m in
        let m :=
          match activePurchases m !! purchaseId with
          | Some w =>
              with_active (delete purchaseId (activePurchases m))
                (with_purchasers (onPurchaser BasePurchaser.cancel w (purchasers m)) m)
          | None => m
          end in
        (Return purchase, m)
  end.

(** [manualPurchase(skuId, websiteName, userId)]; [sku] and [user] are
    what the two [findById] calls return. *)
Definition manualPurchase (sku : option SKU.t) (websiteName : WebsiteName)
    (user : option User) (newId : ObjectId) (now : Js.Time) (m : t)
    : Completion Purchase.t * t :=
  match sku, user with
  | Some sku, Some u =>
      match head (filter (fun w => SKU.name w = websiteName) (SKU.websites sku)) with
      | None => (Throw "Website not configured for this SKU", m)
      | Some website =>
          let maxQuantity := SKU.maxQuantity (SKU.purchaseSettings sku) in
          let purchase :=
            Purchase.new newId now (SKU._id sku)
              (Purchase.mkWebsite websiteName (SKU.url website))
              (Purchase.mkDetails
                 (Js.Num (SKU.targetPrice sku)) maxQuantity
                 (Js.Num (SKU.targetPrice sku * inject_Z (Z.of_nat maxQuantity))))
              (Some u) in
          match Purchase.insert purchase (database m) with
          | Some c =>
              (Return (Purchase.doc (Purchase.preSave (Purchase.loaded purchase))),
               with_database c m)
          | None => (Throw "Purchase validation failed", m)
          end
      end
  | _, _ => (Throw "SKU or User not found", m)
  end.

(** *** Executions of the manager

    The method calls that reach the manager, in the order in which the
    event loop runs them.  [Resume i] and [Settle i] continue the i-th
    call of [processPendingPurchases] / [retryFailedPurchases]. *)
Inductive Event : Type :=
| Start
| Stop
| AutoPurchase (sku : SKU.t) (website : SKU.Website)
               (result : ScrapeResult.t) (newId : ObjectId) (now : Js.Time)
| ManualPurchase (sku : option SKU.t) (websiteName : WebsiteName)
                 (user : option User) (newId : ObjectId) (now : Js.Time)
| ProcessPending (now : Js.Time)
| RetryFailed (now : Js.Time)
| Resume (i : nat) (now : Js.Time)
| Settle (i : nat) (o : Outcome) (now : Js.Time)
| CancelPurchase (purchaseId : string).

Definition onRun (i : nat) (f : Run -> t -> Run * t) (m : t) : t :=
  match runs m !! i with
  | None => m
  | Some r => let '(r', m') := f r m in with_runs (<[i := r']> (runs m')) m'
  end.

Definition step (m : t) (ev : Event) : t :=
  match ev with
  | Start => start m
  | Stop => stop m
  | AutoPurchase sku website result newId now =>
      with_database
        (ScraperManager.purchases
           (ScraperManager.triggerAutoPurchase sku website result newId now
              (ScraperManager.mkEnv [] (database m) [] [])))
        m
  | ManualPurchase sku websiteName user newId now =>
      (manualPurchase sku websiteName user newId now m).2
  | ProcessPending now => processPendingPurchases now m
  | RetryFailed now => retryFailedPurchases now m
  | Resume i now => onRun i (fun r m => resume r now m) m
  | Settle i o now => onRun i (fun r m => settle r o now m) m
  | CancelPurchase purchaseId => (cancelPurchase purchaseId m).2
  end.

Definition run (evs : list Event) (m : t) : t := foldl step m evs.

(** The purchases whose stored status is [processing]. *)
Definition processingCount (m : t) : nat :=
  length (filter (fun p => Purchase.status p = Purchase.processing) (database m)).

End PurchaseManager.

(* ===================================================================== *)
(** ** [testStorage] and [AutomatedPurchaseBot]                            *)
(* ===================================================================== *)

Module TestStorage.

(** An element of [testSKUs]. *)
Record SKU : Type := mkSKU {
  sku_id : ObjectId;
  sku_name : string;
  sku_code : option string;            (* sku.sku *)
  sku_category : option string;
  sku_targetPrice : Q;
  sku_maxPrice : Q;
  sku_monitoredWebsites : option (list string)
}.

(** An element of [testCreditCards]. *)
Record CreditCard : Type := mkCard {
  cardName : string;
  isDefault : bool
}.

(** One entry of [metadata.priceHistory]. *)
Record PricePoint : Type := mkPricePoint {
  pp_timestamp : Js.Time;
  pp_price : Js.num;
  pp_source : string;
  pp_dataSource : string;
  pp_realScraping : bool;
  pp_inStock : bool
}.

(** An element of [testPurchases], as [executeAutomatedPurchase] builds
    it.  The free-text [purchaseReason] and the constant [botVersion]
    are left out. *)
Record Purchase : Type := mkPurchase {
  _id : option ObjectId;               (* set by [addTestPurchase] *)
  createdAt : option Js.Time;
  updatedAt : option Js.Time;
  createdBy : ObjectId;
  sku : ObjectId;
  sku_title : string;
  sku_label : string;                  (* sku.sku || sku.name *)
  category : string;
  website_name : string;
  website_url : string;
  directProductUrl : option string;
  searchUrl : option string;
  status : string;
  price : Js.num;
  quantity : nat;
  total : Js.num;
  creditCardUsed : string;
  automatedPurchase : bool;
  checkType : string;
  priceHistory : list PricePoint;
  purchaseTrigger : string;
  targetPrice : Q;
  maxPrice : Q;
  realScraping : bool
}.

(** [addTestPurchase(purchase)] on the array [testPurchases]; the write
    to the JSON file mirrors the array. *)
Definition addTestPurchase (purchase : Purchase) (newId : ObjectId)
    (now : Js.Time) (testPurchases : list Purchase)
    : Purchase * list Purchase :=
  let purchase :=
    mkPurchase (Some newId) (Some now) (Some now)
      (createdBy purchase) (sku purchase) (sku_title purchase)
      (sku_label purchase) (category purchase) (website_name purchase)
      (website_url purchase) (directProductUrl purchase) (searchUrl purchase)
      (status purchase) (price purchase) (quantity purchase) (total purchase)
      (creditCardUsed purchase) (automatedPurchase purchase)
      (checkType purchase) (priceHistory purchase) (purchaseTrigger purchase)
      (targetPrice purchase) (maxPrice purchase) (realScraping purchase) in
  (purchase, testPurchases ++ [purchase]).

End TestStorage.

Module AutomatedPurchaseBot.

(** What [getMarketPrice] returns. *)
Record MarketData : Type := mkMarketData {
  price : Js.num;
  inStock : bool;
  realData : bool;
  source : string;
  scrapedAt : Js.Time;
  simulated : bool
}.

(** [parseFloat(x.toFixed(2))], on exact rationals. *)
Definition toFixed2 (x : Q) : Q :=
  Qmake (Qfloor (x * 100 + (1 # 2))%Q) 100.

(** [simulateMarketPrice(targetPrice, maxPrice)]; [r1] and [r2] are the
    two values [Math.random()] returns. *)
Definition simulateMarketPrice (targetPrice maxPrice : Q) (r1 r2 : Q) : Q :=
  let isGoodDeal := negb (Qle_bool (7 # 10) r1) in
  if isGoodDeal then
    toFixed2 (r2 * (targetPrice - targetPrice * (8 # 10)) + targetPrice * (8 # 10))%Q
  else
    toFixed2 (r2 * (maxPrice - targetPrice) + targetPrice)%Q.

(** [simulateMarketData(targetPrice, maxPrice, website)]; [r3] is the
    third value of [Math.random()]. *)
Definition simulateMarketData (targetPrice maxPrice : Q) (website : string)
    (r1 r2 r3 : Q) (now : Js.Time) : MarketData :=
  let price := simulateMarketPrice targetPrice maxPrice r1 r2 in
  let inStock := negb (Qle_bool r3 (2 # 10)) in
  mkMarketData (Js.Num price) inStock false website now true.

(** What [liveTestingSystem.scrapeRealPrice] does. *)
Record RealPrice : Type := mkRealPrice {
  rp_success : bool;
  rp_price : Js.num;
  rp_inStock : bool
}.

Inductive ScrapeOutcome : Type :=
| Scraped (r : RealPrice)
| ScrapeThrew.

(** [getMarketPrice(sku, website)] *)
Definition getMarketPrice (realScrapingEnabled : bool) (sku : TestStorage.SKU)
    (website : string) (scrape : ScrapeOutcome) (r1 r2 r3 : Q)
    (now : Js.Time) : MarketData :=
  let simulation :=
    simulateMarketData (TestStorage.sku_targetPrice sku)
      (TestStorage.sku_maxPrice sku) website r1 r2 r3 now in
  if realScrapingEnabled then
    match scrape with
    | Scraped scrapingResult =>
        if rp_success scrapingResult && Js.truthy (rp_price scrapingResult) then
          mkMarketData (rp_price scrapingResult) (rp_inStock scrapingResult)
                       true website now false
        else simulation
    | ScrapeThrew => simulation
    end
  else simulation.

(** What [liveTestingSys.generateWebsiteUrl] returns. *)
Inductive UrlData : Type :=
| UrlObject (productUrl : string) (displayUrl : option string)
            (searchUrl : option string)
| UrlString (url : string)
| UrlOther
| UrlThrew.

Definition orElse (s : option string) (d : string) : string :=
  match s with
  | Some s => if bool_decide (s = "") then d else s
  | None => d
  end.

(** [executeAutomatedPurchase(user, sku, creditCards, website, price,
    checkType, marketData)]; the result [None] is the [false] of the
    [catch] block. *)
Definition executeAutomatedPurchase (user : ObjectId) (sku : TestStorage.SKU)
    (creditCards : list TestStorage.CreditCard) (website : string)
    (price : Js.num) (checkType : string) (marketData : option MarketData)
    (urlData : UrlData) (newId : ObjectId) (now : Js.Time)
    (testPurchases : list TestStorage.Purchase)
    : option TestStorage.Purchase * list TestStorage.Purchase :=
  let defaultCard :=
    match head (filter (fun card => TestStorage.isDefault card = true) creditCards) with
    | Some card => Some card
    | None => head creditCards
    end in
  let realData :=
    match marketData with Some d => realData d | None => false end in
  let dataSource := if realData then "scraped" else "simulated" in
  let urls : option (string * option string * option string) :=
    match urlData with
    | UrlThrew => None
    | UrlObject productUrl displayUrl searchUrl =>
        if bool_decide (productUrl = "") then
          Some ("https://www." +:+ website +:+ ".com", None, None)
        else Some (orElse displayUrl productUrl, Some productUrl, searchUrl)
    | UrlString url => Some (url, None, None)
    | UrlOther => Some ("https://www." +:+ website +:+ ".com", None, None)
    end in
  match urls, defaultCard with
  | Some (websiteUrl, directProductUrl, searchUrl), Some card =>
      let label := orElse (TestStorage.sku_code sku) (TestStorage.sku_name sku) in
      let purchaseData :=
        TestStorage.mkPurchase None None None
          user (TestStorage.sku_id sku) (TestStorage.sku_name sku) label
          (orElse (TestStorage.sku_category sku) "Pokemon Cards")
          website websiteUrl directProductUrl searchUrl
          "success"
          price 1 price
          (TestStorage.cardName card) true checkType
          [TestStorage.mkPricePoint now price website dataSource realData true]
          "automated_bot"
          (TestStorage.sku_targetPrice sku) (TestStorage.sku_maxPrice sku)
          realData in
      let '(purchase, testPurchases) :=
        TestStorage.addTestPurchase purchaseData newId now testPurchases in
      (Some purchase, testPurchases)
  | _, _ => (None, testPurchases)
  end.

(** The state of the bot together with the storage it writes. *)
Record t : Type := mk {
  isRunning : bool;
  realScrapingEnabled : bool;
  purchaseAttempts : Js.Map Js.Time;
  testPurchases : list TestStorage.Purchase
}.

Definition attemptKey (sku : TestStorage.SKU) (website : string) : string :=
  ObjectId_toString (TestStorage.sku_id sku) +:+ "-" +:+ website.

Definition cooldown : Z := 300000.

(** The body of the loop of [checkSKUForPurchase] for one website. *)
Definition checkWebsite (user : ObjectId) (sku : TestStorage.SKU)
    (creditCards : list TestStorage.CreditCard) (checkType : string)
    (website : string) (scrape : ScrapeOutcome) (r1 r2 r3 : Q)
    (urlData : UrlData) (newId : ObjectId) (now : Js.Time) (b : t) : t :=
  let marketData :=
    getMarketPrice (realScrapingEnabled b) sku website scrape r1 r2 r3 now in
  let marketPrice := price marketData in
  if Js.le marketPrice (TestStorage.sku_targetPrice sku) && inStock marketData then
    let recent :=
      match Js.Map_get (attemptKey sku website) (purchaseAttempts b) with
      | Some lastAttempt =>
          negb (bool_decide (lastAttempt = 0%Z))
          && bool_decide (now - lastAttempt < cooldown)%Z
      | None => false
      end in
    if recent then b
    else
      match executeAutomatedPurchase user sku creditCards website marketPrice
              checkType (Some marketData) urlData newId now (testPurchases b) with
      | (Some _, ps) =>
          mk (isRunning b) (realScrapingEnabled b)
             (Js.Map_set (attemptKey sku website) now (purchaseAttempts b)) ps
      | (None, ps) =>
          mk (isRunning b) (realScrapingEnabled b) (purchaseAttempts b) ps
      end
  else b.

End AutomatedPurchaseBot.

(* ===================================================================== *)
(** ** Vocabulary of the statements                                        *)
(* ===================================================================== *)

(** The character [c] occurs in [s]. *)
Fixpoint occurs (c : ascii) (s : string) : bool :=
  match s with
  | EmptyString => false
  | String c' s' => bool_decide (c' = c) || occurs c s'
  end.

(** Two versions of a purchase that differ at most in the purchase
    details. *)
Definition unchanged_but_details (p q : Purchase.t) : Prop :=
  Purchase._id p = Purchase._id q
  /\ Purchase.sku p = Purchase.sku q
  /\ Purchase.website p = Purchase.website q
  /\ Purchase.status p = Purchase.status q
  /\ Purchase.attemptInfo p = Purchase.attemptInfo q
  /\ Purchase.errors p = Purchase.errors q
  /\ Purchase.createdBy p = Purchase.createdBy q.

Module CacheSpec.
Import ScraperManager.

(** The caches that the manager can hold: it starts empty, and only
    [scrapeSingleProduct] and [cleanup] write to it. *)
Inductive Reachable : Env -> Prop :=
| reach_created c : Reachable (mkEnv [] c [] [])
| reach_scrape sku website probe newId now e :
    Reachable e ->
    Reachable (scrapeSingleProduct sku website probe newId now e).2
| reach_cleanup now e :
    Reachable e ->
    Reachable (with_results (cleanup now (results e)) e).

(** Every key is the key of one (item, retailer) pair and occurs once. *)
Definition well_keyed (m : Js.Map CacheEntry) : Prop :=
  NoDup (Js.Map_keys m)
  /\ Forall (fun k => exists i r, k = cacheKey i r) (Js.Map_keys m).

(** The entry that [processScrapingResult] stores for a result. *)
Definition entryOf (sku : SKU.t) (website : SKU.Website)
    (result : ScrapeResult.t) (now : Js.Time) : CacheEntry :=
  mkEntry (ScrapeResult.with_website result (WebsiteName_str (SKU.name website)))
          (SKU._id sku) now.

(** [put] and [get] of the cache contract, as the manager implements
    them. *)
Definition put (sku : SKU.t) (website : SKU.Website) (result : ScrapeResult.t)
    (newId : ObjectId) (now : Js.Time) (e : Env) : Env :=
  processScrapingResult sku website result newId now e.

Definition get (sku : SKU.t) (website : SKU.Website) (e : Env) : list CacheEntry :=
  getResults (results e) (SKU._id sku) (Some (WebsiteName_str (SKU.name website))).

End CacheSpec.

Module DecisionSpec.
Import ScraperManager.

(** The lines a call appended to the log. *)
Definition newLines (e e' : Env) : list LogLine :=
  drop (length (log e)) (log e').

(** The verdict [buy] of one probe: [scrapeSingleProduct] reached
    [triggerAutoPurchase]. *)
Definition buys (sku : SKU.t) (website : SKU.Website) (probe : ProbeOutcome)
    (newId : ObjectId) (now : Js.Time) (e : Env) : Prop :=
  LogTriggering (SKU._id sku) (SKU.name website)
  ∈ newLines e (scrapeSingleProduct sku website probe newId now e).2.

(** The probe succeeded with this result. *)
Definition succeeded (probe : ProbeOutcome) (result : ScrapeResult.t) : Prop :=
  probe = Resolved result /\ ScrapeResult.success result = true.

(** The condition of the decision contract. *)
Definition contract (sku : SKU.t) (result : ScrapeResult.t) : Prop :=
  ScrapeResult.inStock result = true
  /\ Js.le (ScrapeResult.price result) (SKU.targetPrice sku) = true
  /\ SKU.autoPurchase (SKU.purchaseSettings sku) = true
  /\ SKU.requireConfirmation (SKU.purchaseSettings sku) = false.

(** The purchases of one (item, retailer) pair that are not terminal. *)
Definition openFor (skuId : ObjectId) (w : WebsiteName)
    (c : Purchase.Collection) : list Purchase.t :=
  filter (fun p =>
            Purchase.sku p = skuId
            /\ Purchase.name (Purchase.website p) = w
            /\ (Purchase.status p = Purchase.pending
                \/ Purchase.status p = Purchase.processing)) c.

(** Sample data: an item with target 25.00 and maximum 35.00, bought
    automatically and without confirmation. *)
Definition alice : User := mkUser "alice@example.com" true.

Definition targetSite : SKU.Website :=
  SKU.mkWebsite target "https://www.target.com/p/booster" true.

Definition booster : SKU.t :=
  SKU.mk [X5; Xf; X1] "Booster Pack" 25 35 SKU.high [targetSite]
         (SKU.mkSettings 1 true false) SKU.active (Some alice).

Definition probeAt (price : Q) : ScrapeResult.t :=
  ScrapeResult.mk true (Js.Num price) true "Booster Pack" "target"
                  "https://www.target.com/p/booster" "" 0%Z.

Definition emptyEnv : Env := mkEnv [] [] [] [].

End DecisionSpec.

Module SchedulerSpec.
Import ScraperManager.

(** What [start] registers. *)
Definition registered : list Job :=
  [ScrapeJob SKU.high; ScrapeJob SKU.medium; ScrapeJob SKU.low; CleanupJob].

(** The jobs are registered exactly while the manager runs. *)
Definition jobs_follow_flag (s : Scheduler) : Prop :=
  cronJobs s = if isRunning s then registered else [].

End SchedulerSpec.

Module BotSpec.
Import AutomatedPurchaseBot.

(** Real scraping produced no usable price. *)
Definition scrapeFailed (o : ScrapeOutcome) : Prop :=
  o = ScrapeThrew
  \/ exists r, o = Scraped r
               /\ (rp_success r = false \/ Js.truthy (rp_price r) = false).

(** A record as the bot writes it: born successful, one unit. *)
Definition bornSuccessful (p : TestStorage.Purchase) : Prop :=
  TestStorage.status p = "success"
  /\ TestStorage.quantity p = 1
  /\ TestStorage.total p = TestStorage.price p
  /\ TestStorage.automatedPurchase p = true
  /\ TestStorage.purchaseTrigger p = "automated_bot".

End BotSpec.

Module ExecutorSpec.
Import PurchaseManager.

(** A stored purchase has the ceiling of three attempts it was created
    with, and its attempt number is at most one past the ceiling. *)
Definition stored_ok (q : Purchase.t) : Prop :=
  Purchase.maxAttempts (Purchase.attemptInfo q) = 3
  /\ Purchase.attemptNumber (Purchase.attemptInfo q)
     <= Purchase.maxAttempts (Purchase.attemptInfo q) + 1.

(** The copies a call holds.  Both queries return attempt numbers up to
    3; what a call has not reached yet is [pending] as the query returned
    it, what it executes is [processing] as [processPurchase] left it. *)
Definition copy_ok (p : Purchase.t) : Prop :=
  Purchase.attemptNumber (Purchase.attemptInfo p) <= 3.

Definition run_ok (r : Run) : Prop :=
  Forall (fun p => copy_ok p /\ Purchase.status p = Purchase.pending) (todo r)
  /\ (forall p, current r = Some p ->
                copy_ok p /\ Purchase.status p = Purchase.processing).

Definition ledger_ok (m : t) : Prop :=
  Forall stored_ok (database m) /\ Forall run_ok (runs m).

(** The ids of the collection are distinct, and every copy a call holds
    is the copy of a stored purchase of the same retailer. *)
Definition copies (r : Run) : list Purchase.t :=
  todo r ++ option_list (current r).

Definition counterpart (c : Purchase.Collection) (p : Purchase.t) : Prop :=
  exists q, q ∈ c
            /\ Purchase._id q = Purchase._id p
            /\ Purchase.website q = Purchase.website p.

Definition run_linked (c : Purchase.Collection) (r : Run) : Prop :=
  Forall (counterpart c) (copies r).

Definition linked (m : t) : Prop :=
  NoDup (Purchase._id <$> database m)
  /\ Forall (run_linked (database m)) (runs m).

(** A [save] that leaves the id and the retailer of what it updates. *)
Definition keeps_identity (d : Purchase.Doc) : Prop :=
  forall q,
    Purchase._id (Purchase.update (Purchase.preSave d) q) = Purchase._id q
    /\ Purchase.website (Purchase.update (Purchase.preSave d) q)
       = Purchase.website q.

(** What every write of the executor does to the collection. *)
Definition advances (c c' : Purchase.Collection) : Prop :=
  (Forall stored_ok c -> Forall stored_ok c')
  /\ (NoDup (Purchase._id <$> c) -> NoDup (Purchase._id <$> c'))
  /\ (forall p, counterpart c p -> counterpart c' p).

(** The document [processPurchase] saves at the pickup, and the one
    [cancelPurchase] saves. *)
Definition pickup (purchase : Purchase.t) (now : Js.Time) : Purchase.Doc :=
  Purchase.stamp Purchase.with_lastAttempt now
    (Purchase.assign same Purchase.status Purchase.with_status
       Purchase.processing (Purchase.loaded purchase)).

Definition cancellation (purchase : Purchase.t) : Purchase.Doc :=
  Purchase.assign same Purchase.status Purchase.with_status
    Purchase.cancelled (Purchase.loaded purchase).

(** The stored document with a given id. *)
Definition stored (id : string) (m : t) : option Purchase.t :=
  Purchase.findById id (database m).

(** Sample executions.  All purchases are for the item [booster] at the
    retailer Target. *)
Definition intent (id : ObjectId) (now : Js.Time) : Event :=
  AutoPurchase DecisionSpec.booster DecisionSpec.targetSite
               (DecisionSpec.probeAt 20) id now.

(** One purchase that fails three times. *)
Definition threeFailures : list Event :=
  [Start; intent [Xa] 0%Z;
   ProcessPending 30000%Z; Resume 0 30001%Z;
   Settle 0 (Failed "Navigation timeout") 50000%Z;
   ProcessPending 60000%Z; Resume 1 60001%Z;
   Settle 1 (Failed "Navigation timeout") 80000%Z;
   ProcessPending 90000%Z; Resume 2 90001%Z;
   Settle 2 (Failed "Navigation timeout") 110000%Z].

(** One purchase that fails once and is picked up by the next tick. *)
Definition failedOnce : list Event :=
  [Start; intent [Xa] 0%Z;
   ProcessPending 30000%Z; Resume 0 30001%Z;
   Settle 0 (Failed "Navigation timeout") 50000%Z].

Definition pickedUpAgain : list Event :=
  failedOnce ++ [ProcessPending 60000%Z; Resume 1 60001%Z].

(** Five purchases and two cancellations.  The first tick fetches [a] and
    [b] and starts [a]; [b] is cancelled while it waits, and [c], [d], [e]
    arrive.  The next two ticks start [c] and [d].  Then [a] is cancelled,
    which frees its slot while its execution has not returned yet, and the
    following tick starts [e].  When the execution of [a] returns, the
    first call goes on to the copy of [b] it fetched. *)
Definition overCapacity : list Event :=
  [Start; intent [Xa] 0%Z; intent [Xb] 1000%Z;
   ProcessPending 30000%Z; Resume 0 30001%Z;
   CancelPurchase "b";
   intent [Xc] 40000%Z; intent [Xd] 41000%Z; intent [Xe] 42000%Z;
   ProcessPending 60000%Z; Resume 1 60001%Z;
   ProcessPending 90000%Z; Resume 2 90001%Z;
   CancelPurchase "a";
   ProcessPending 120000%Z; Resume 3 120001%Z;
   Settle 0 (Failed "Purchase cancelled") 125000%Z;
   Resume 0 125001%Z].

End ExecutorSpec.

Module CancelSpec.
Import PurchaseManager.

(** The purchasers of [ps'] are those of [ps], and none of them has lost
    its cancellation flag. *)
Definition purchasers_le (ps ps' : Purchasers) : Prop :=
  forall w b, purchaserOf ps w = Some b ->
    exists b', purchaserOf ps' w = Some b'
               /\ (BasePurchaser.isCancelled b = true ->
                   BasePurchaser.isCancelled b' = true).

Definition invalidState : string :=
  "Cannot cancel completed or already cancelled purchase".

End CancelSpec.

Module HandlerSpec.
Import PurchaseManager.

(** The assignments of [handlePurchaseError] and [handlePurchaseSuccess]
    up to the block that records the notification. *)
Definition failureCore (purchase : Purchase.Doc) (errorMessage : string)
    (now : Js.Time) : Purchase.Doc :=
  let d :=
    Purchase.push_error
      (Purchase.mkError errorMessage now "PURCHASE_FAILED" Purchase.high)
      purchase in
  let d :=
    Purchase.assign same (fun p => Purchase.attemptNumber (Purchase.attemptInfo p))
      Purchase.with_attemptNumber
      (Purchase.attemptNumber (Purchase.attemptInfo (Purchase.doc d)) + 1) d in
  if bool_decide (Purchase.maxAttempts (Purchase.attemptInfo (Purchase.doc d))
                  < Purchase.attemptNumber (Purchase.attemptInfo (Purchase.doc d)))
  then Purchase.assign same Purchase.status Purchase.with_status Purchase.failed d
  else Purchase.assign same Purchase.status Purchase.with_status Purchase.pending d.

Definition successCore (purchase : Purchase.Doc) : Purchase.Doc :=
  Purchase.assign same Purchase.status Purchase.with_status
    Purchase.success purchase.

(** The status a failure at this attempt number leads to. *)
Definition statusAfterFailure (purchase : Purchase.t) : Purchase.Status :=
  if bool_decide (Purchase.maxAttempts (Purchase.attemptInfo purchase)
                  < Purchase.attemptNumber (Purchase.attemptInfo purchase) + 1)
  then Purchase.failed else Purchase.pending.

End HandlerSpec.

(* ===================================================================== *)
(** ** [PurchaseManager]: the wait for the mail inside a handler           *)
(* ===================================================================== *)

(** [handlePurchaseSuccess] and [handlePurchaseError] save the purchase,
    await the e-mail service when the owner wants mail, set the
    notification paths and save again; only then does [processPurchase]
    reach its [finally].  The event [Settle] of [PurchaseManager] takes
    all of this as one stretch.  Here the stretch is cut at the wait for
    the mail, so that another call can run while the handler waits.
    Every event is a stretch that the event loop can run without
    interruption, so an execution of this module is an execution of the
    code; the waits for the database inside a stretch are not cut, so the
    code has executions that this module does not have. *)
Module MailAwait.
Import PurchaseManager.

(** [purchase.createdBy && purchase.createdBy.settings.emailNotifications] *)
Definition wantsMail (purchase : Purchase.t) : bool :=
  match Purchase.createdBy purchase with
  | Some u => emailNotifications u
  | None => false
  end.

(** A handler up to its first [await purchase.save()]. *)
Definition beforeMail (purchase : Purchase.Doc) (o : Outcome) (now : Js.Time)
    : Purchase.Doc :=
  match o with
  | Succeeded result =>
      let d := Purchase.assign same Purchase.status Purchase.with_status
                 Purchase.success purchase in
      let d :=
        Purchase.assign same Purchase.orderInfo Purchase.with_orderInfo
          (Some (Purchase.mkOrderInfo (r_orderId result)
                   (r_confirmationNumber result) (r_trackingNumber result)
                   (r_estimatedDelivery result)))
          d in
      let d :=
        Purchase.assign same
          (fun p => Purchase.transactionId (Purchase.paymentInfo p))
          Purchase.with_transactionId (r_transactionId result) d in
      Purchase.assign same
        (fun p => Purchase.paymentStatus (Purchase.paymentInfo p))
        Purchase.with_paymentStatus Purchase.captured d
  | Failed errorMessage =>
      let d :=
        Purchase.push_error
          (Purchase.mkError errorMessage now "PURCHASE_FAILED" Purchase.high)
          purchase in
      let d :=
        Purchase.assign same
          (fun p => Purchase.attemptNumber (Purchase.attemptInfo p))
          Purchase.with_attemptNumber
          (Purchase.attemptNumber (Purchase.attemptInfo (Purchase.doc d)) + 1) d in
      if bool_decide (Purchase.maxAttempts (Purchase.attemptInfo (Purchase.doc d))
                      < Purchase.attemptNumber (Purchase.attemptInfo (Purchase.doc d)))
      then Purchase.assign same Purchase.status Purchase.with_status
             Purchase.failed d
      else Purchase.assign same Purchase.status Purchase.with_status
             Purchase.pending d
  end.

(** The notification that the handler of an outcome records. *)
Definition notificationOf (o : Outcome) : Purchase.NotificationType :=
  match o with
  | Succeeded _ => Purchase.n_success
  | Failed _ => Purchase.n_failure
  end.

(** A handler from the return of the e-mail service to its second
    [await purchase.save()]. *)
Definition afterMail (purchase : Purchase.Doc)
    (n : Purchase.NotificationType) (now : Js.Time) : Purchase.Doc :=
  let d :=
    Purchase.assign same (fun p => Purchase.emailSent (Purchase.notifications p))
      Purchase.with_emailSent true purchase in
  let d := Purchase.stamp Purchase.with_emailTimestamp (Some now) d in
  Purchase.assign same
    (fun p => Purchase.notificationType (Purchase.notifications p))
    Purchase.with_notificationType (Some n) d.

(** The manager together with the calls whose handler waits for the mail:
    for such a call, [current] is the document the handler holds, as its
    first [save] left it, and [mailing] has the notification it is about
    to record. *)
Record t : Type := mk {
  manager : PurchaseManager.t;
  mailing : gmap nat Purchase.NotificationType
}.

Definition created : t := mk PurchaseManager.created ∅.

(** [Call ev] is an event of the manager as before; it does nothing when
    it is for a call that waits for the mail.  [Handled i o now]: the
    [executePurchase] that call [i] awaits returns [o], and the handler
    runs up to the wait for the mail; this is for a purchase whose owner
    wants mail, a handler without mail runs to its end in [Settle].
    [Mailed i now]: the e-mail service returns to call [i], whose handler
    and [processPurchase] run to the end of the [finally]. *)
Inductive Event : Type :=
| Call (ev : PurchaseManager.Event)
| Handled (i : nat) (o : Outcome) (now : Js.Time)
| Mailed (i : nat) (now : Js.Time).

(** The call that an event of the manager continues, if any. *)
Definition callOf (ev : PurchaseManager.Event) : option nat :=
  match ev with
  | Resume i _ => Some i
  | Settle i _ _ => Some i
  | _ => None
  end.

Definition handled (i : nat) (o : Outcome) (now : Js.Time) (s : t) : t :=
  let m := manager s in
  match mailing s !! i, runs m !! i with
  | None, Some r =>
      match current r with
      | Some purchase =>
          if wantsMail purchase then
            let d := beforeMail (Purchase.loaded purchase) o now in
            let '(purchase, c) := Purchase.save d (database m) in
            let m := with_database c m in
            let m :=
              with_runs (<[i := mkRun (kind r) (Some purchase) (todo r)]> (runs m))
                        m in
            mk m (<[i := notificationOf o]> (mailing s))
          else s
      | None => s
      end
  | _, _ => s
  end.

Definition mailed (i : nat) (now : Js.Time) (s : t) : t :=
  let m := manager s in
  match mailing s !! i, runs m !! i with
  | Some n, Some r =>
      match current r with
      | Some purchase =>
          let d := afterMail (Purchase.loaded purchase) n now in
          let '(purchase, c) := Purchase.save d (database m) in
          let m := with_database c m in
          let m := with_active (delete (idOf purchase) (activePurchases m)) m in
          let m :=
            with_runs (<[i := mkRun (kind r) None (todo r)]> (runs m)) m in
          mk m (delete i (mailing s))
      | None => s
      end
  | _, _ => s
  end.

Definition step (s : t) (ev : Event) : t :=
  match ev with
  | Call ev =>
      match callOf ev with
      | Some i =>
          if bool_decide (is_Some (mailing s !! i)) then s
          else mk (PurchaseManager.step (manager s) ev) (mailing s)
      | None => mk (PurchaseManager.step (manager s) ev) (mailing s)
      end
  | Handled i o now => handled i o now s
  | Mailed i now => mailed i now s
  end.

Definition run (evs : list Event) (s : t) : t := foldl step s evs.

End MailAwait.

Module MailAwaitSpec.
Import PurchaseManager MailAwait.

(** One purchase whose first attempt is under way. *)
Definition underWay : list PurchaseManager.Event :=
  [Start; ExecutorSpec.intent [Xa] 0%Z;
   ProcessPending 30000%Z; Resume 0 30001%Z].

(** One purchase whose first attempt fails.  While its handler waits for
    the failure mail, the next tick finds the purchase [pending], starts
    the second attempt and registers it; then the mail of the first
    attempt returns and the [finally] of the first call removes the
    registration of the second. *)
Definition overtaken : list Event :=
  [Call Start; Call (ExecutorSpec.intent [Xa] 0%Z);
   Call (ProcessPending 30000%Z); Call (Resume 0 30001%Z);
   Handled 0 (Failed "Navigation timeout") 59500%Z;
   Call (ProcessPending 60000%Z); Call (Resume 1 60001%Z);
   Mailed 0 60900%Z].

End MailAwaitSpec.

(** The two writes of a handler in closed form, to compare the stretches
    of [MailAwait] with the event [Settle]. *)
Module MailParts.
Import PurchaseManager MailAwait.

(** What the assignments after the mail write, for a document whose
    values in memory are [x]. *)
Definition mailUpdate (x : Purchase.t) (n : Purchase.NotificationType)
    (now : Js.Time) (q : Purchase.t) : Purchase.t :=
  let q :=
    if bool_decide (Purchase.emailSent (Purchase.notifications x) = true) then q
    else Purchase.with_emailSent true q in
  let q := Purchase.with_emailTimestamp (Some now) q in
  if bool_decide (Purchase.notificationType (Purchase.notifications x) = Some n)
  then q
  else Purchase.with_notificationType (Some n) q.

(** What the hook of [save] writes, for a document whose values in memory
    are [x]. *)
Definition totalUpdate (x q : Purchase.t) : Purchase.t :=
  let details := Purchase.purchaseDetails x in
  let total :=
    Js.mul (Purchase.price details)
           (inject_Z (Z.of_nat (Purchase.quantity details))) in
  if Js.truthy (Purchase.price details)
     && negb (bool_decide (Purchase.quantity details = 0))
     && negb (Purchase.same_num (Purchase.totalAmount details) total)
  then Purchase.with_totalAmount total q
  else q.

End MailParts.

(* ===================================================================== *)
(** ** Vocabulary of the further properties                                *)
(* ===================================================================== *)

Module ResultsSpec.
Import ScraperManager.

(** An entry of the cache is filed under the key of its own item and of
    the retailer it names. *)
Definition filed (kv : string * CacheEntry) : Prop :=
  exists w, kv.1 = cacheKey (sku kv.2) w
            /\ ScrapeResult.website (fields kv.2) = WebsiteName_str w.

(** The price alert of a result that met the target. *)
Definition alertOf (u : User) (sku : SKU.t) (website : SKU.Website)
    (result : ScrapeResult.t) : PriceAlert :=
  mkAlert (email u) (SKU._id sku) (ScrapeResult.price result)
          (SKU.name website) (ScrapeResult.inStock result).

End ResultsSpec.

Module LedgerSpec.
Import PurchaseManager.

(** What identifies an order: its id, the item, the retailer, the owner,
    the time of creation, the price and the quantity. *)
Definition orderKey (p : Purchase.t)
    : ObjectId * ObjectId * Purchase.Website * option User * Js.Time
      * Js.num * nat :=
  (Purchase._id p, Purchase.sku p, Purchase.website p, Purchase.createdBy p,
   Purchase.createdAt p, Purchase.price (Purchase.purchaseDetails p),
   Purchase.quantity (Purchase.purchaseDetails p)).

(** A [save] that leaves the order of what it updates. *)
Definition keeps_order (d : Purchase.Doc) : Prop :=
  forall q, orderKey (Purchase.update d q) = orderKey q.


(** A purchase is cancelled while its attempt is in flight. *)
Definition cancelledInFlight : list Event :=
  [Start; ExecutorSpec.intent [Xa] 0%Z;
   ProcessPending 30000%Z; Resume 0 30001%Z;
   CancelPurchase "a"].

End LedgerSpec.

Module RetrySpec.

(** A page that fails twice and then loads. *)
Definition thirdTime (attempt : nat) : BasePurchaser.PageOutcome :=
  if bool_decide (attempt = 3) then None else Some "Navigation timeout".

End RetrySpec.

Module BotRunSpec.
Import AutomatedPurchaseBot.

(** Sample data of the bot: an item with target 25.00, one card, and a
    simulated good deal that is in stock. *)
Definition pack : TestStorage.SKU :=
  TestStorage.mkSKU [X5; Xf; X1] "Booster Pack" None None 25 35 None.

Definition box : TestStorage.SKU :=
  TestStorage.mkSKU [X5; Xf; X2] "Trainer Box" None None 40 55 None.

Definition visa : TestStorage.CreditCard := TestStorage.mkCard "Visa" false.
Definition backup : TestStorage.CreditCard := TestStorage.mkCard "Backup" true.

Definition idle : t := mk true false [] [].

Definition bought : t :=
  checkWebsite [Xa] pack [visa] "quick" "target" ScrapeThrew 0 0 1 UrlOther
    [Xb; X1] 1000%Z idle.

End BotRunSpec.

(* ===================================================================== *)
(** ** [BaseScraper] and [TargetScraper]                                   *)
(* ===================================================================== *)

(** Strings as the scrapers use them.  A text is the sequence of its
    characters; [toLowerCase] is given for ASCII text. *)
Module JsString.

Definition isDigit (c : ascii) : bool :=
  match c with
  | "0" | "1" | "2" | "3" | "4" | "5" | "6" | "7" | "8" | "9" => true
  | _ => false
  end%char.

Definition digitValue (c : ascii) : Z :=
  match c with
  | "1"%char => 1 | "2"%char => 2 | "3"%char => 3 | "4"%char => 4
  | "5"%char => 5 | "6"%char => 6 | "7"%char => 7 | "8"%char => 8
  | "9"%char => 9
  | _ => 0
  end%Z.

Fixpoint takeWhile (f : ascii -> bool) (s : string) : string :=
  match s with
  | EmptyString => EmptyString
  | String c t => if f c then String c (takeWhile f t) else EmptyString
  end.

Fixpoint dropWhile (f : ascii -> bool) (s : string) : string :=
  match s with
  | EmptyString => EmptyString
  | String c t => if f c then dropWhile f t else s
  end.

(** [s.replace(/c/g, '')] for one character. *)
Fixpoint removeAll (c : ascii) (s : string) : string :=
  match s with
  | EmptyString => EmptyString
  | String c' t =>
      if bool_decide (c' = c) then removeAll c t else String c' (removeAll c t)
  end.

(** The number that a string of decimal digits denotes. *)
Fixpoint digitsValue (acc : Z) (s : string) : Z :=
  match s with
  | EmptyString => acc
  | String c t => digitsValue (10 * acc + digitValue c) t
  end.

(** The value of a decimal numeral with the digits [int] before the dot
    and [frac] after it. *)
Definition decimal (int frac : string) : Q :=
  (inject_Z (digitsValue 0 int)
   + inject_Z (digitsValue 0 frac)
     / inject_Z (10 ^ Z.of_nat (String.length frac)))%Q.

(** Rounding to the nearest integer, a tie to the even one. *)
Definition roundHalfEven (q : Q) : Z :=
  let n := Qfloor q in
  match (q - inject_Z n ?= 1 # 2)%Q with
  | Lt => n
  | Gt => (n + 1)%Z
  | Eq => if Z.even n then n else (n + 1)%Z
  end.

(** The exponent [e] with [2 ^ e <= q < 2 ^ (e + 1)], for [0 < q]. *)
Definition binade (q : Q) : Z :=
  let e := (Z.log2 (Qnum q) - Z.log2 (Z.pos (Qden q)))%Z in
  if Qle_bool (2 ^ e) q then e else (e - 1)%Z.

(** The Number value for a rational that is not negative: the nearest
    number with a significand of 53 bits, a tie to the even significand,
    and with steps of [2 ^ -1074] at the bottom of the range.  A Number
    is given by its exact value.  Where the code has [Infinity], from
    [2 ^ 1024 - 2 ^ 970] on, this is a number above every other Number. *)
Definition toDouble (q : Q) : Q :=
  if Qle_bool q 0 then 0%Q
  else
    let e := Z.max (binade q - 52) (-1074) in
    (inject_Z (roundHalfEven (q / 2 ^ e)) * 2 ^ e)%Q.

(** [parseFloat(s)] for a string that starts with a digit, a dot or
    nothing else that a number can start with, and in which no exponent
    follows the digits (the strings that [extractPrice] passes hold digits
    and dots only): the longest prefix of the form digits, dot, digits is
    read, and there is no number when it has no digit.  The result is the
    Number value of the numeral, the nearest double as V8 computes it. *)
Definition parseFloat (s : string) : Js.num :=
  let int := takeWhile isDigit s in
  let frac :=
    match dropWhile isDigit s with
    | String "." t => takeWhile isDigit t
    | _ => EmptyString
    end in
  if bool_decide (int = EmptyString) && bool_decide (frac = EmptyString) then Js.NaN
  else Js.Num (toDouble (decimal int frac)).

Definition lower (c : ascii) : ascii :=
  match c with
  | "A" => "a" | "B" => "b" | "C" => "c" | "D" => "d" | "E" => "e"
  | "F" => "f" | "G" => "g" | "H" => "h" | "I" => "i" | "J" => "j"
  | "K" => "k" | "L" => "l" | "M" => "m" | "N" => "n" | "O" => "o"
  | "P" => "p" | "Q" => "q" | "R" => "r" | "S" => "s" | "T" => "t"
  | "U" => "u" | "V" => "v" | "W" => "w" | "X" => "x" | "Y" => "y"
  | "Z" => "z"
  | _ => c
  end%char.

Fixpoint toLowerCase (s : string) : string :=
  match s with
  | EmptyString => EmptyString
  | String c t => String (lower c) (toLowerCase t)
  end.

Fixpoint startsWith (s sub : string) {struct sub} : bool :=
  match sub, s with
  | EmptyString, _ => true
  | String c sub', String d s' => bool_decide (d = c) && startsWith s' sub'
  | String _ _, EmptyString => false
  end.

(** [s.includes(sub)] *)
Fixpoint includes (s sub : string) : bool :=
  startsWith s sub
  || match s with
     | EmptyString => false
     | String _ t => includes t sub
     end.

End JsString.

Module BaseScraper.
Import JsString.

(** A character of the class [[0-9,]]. *)
Definition isPriceChar (c : ascii) : bool :=
  isDigit c || bool_decide (c = ","%char).

(** The pattern of [extractPrice] is an optional dollar sign followed by
    group 1: one or more characters of the class (digits and commas), an
    optional dot, and any number of digits.  This is group 1 where [s]
    starts with a character of the class: every quantifier is greedy and
    what follows the first one may match nothing, so each takes all it
    can. *)
Definition group1 (s : string) : string :=
  let run := takeWhile isPriceChar s in
  match dropWhile isPriceChar s with
  | String "." t => run +:+ String "." (takeWhile isDigit t)
  | _ => run
  end.

(** The pattern at the start of [s]. *)
Definition matchHere (s : string) : option string :=
  match s with
  | EmptyString => None
  | String c t =>
      if bool_decide (c = "$"%char) then
        match t with
        | String c' _ => if isPriceChar c' then Some (group1 t) else None
        | EmptyString => None
        end
      else if isPriceChar c then Some (group1 s)
      else None
  end.

(** [priceText.match(pattern)]: group 1 of the leftmost match. *)
Fixpoint priceMatch (s : string) : option string :=
  match matchHere s with
  | Some g => Some g
  | None =>
      match s with
      | EmptyString => None
      | String _ t => priceMatch t
      end
  end.

(** [extractPrice(priceText)] *)
Definition extractPrice (priceText : option string) : Js.num :=
  match priceText with
  | None => Js.Null
  | Some s =>
      if bool_decide (s = EmptyString) then Js.Null
      else match priceMatch s with
           | Some g => parseFloat (removeAll "," g)
           | None => Js.Null
           end
  end.

Definition stockKeywords : list string :=
  ["in stock"; "available"; "add to cart"; "buy now"; "purchase"].

Definition outOfStockKeywords : list string :=
  ["out of stock"; "unavailable"; "sold out"; "notify me"].

(** [keywords.some(keyword => text.includes(keyword))] *)
Definition some_included (text : string) (keywords : list string) : bool :=
  existsb (includes text) keywords.

(** [isInStock(availabilityText)] *)
Definition isInStock (availabilityText : option string) : bool :=
  match availabilityText with
  | None => false
  | Some s =>
      if bool_decide (s = EmptyString) then false
      else
        let text := toLowerCase s in
        if some_included text outOfStockKeywords then false
        else if some_included text stockKeywords then true
        else false
  end.

(** The loop of [navigateWithRetry(url, maxRetries)]; [page attempt] is
    what [page.goto] does in iteration [attempt]. *)
Fixpoint retryLoop (page : nat -> option string) (maxRetries remaining : nat)
    : Completion (option bool) :=
  match remaining with
  | 0 => Return None
  | S k =>
      let attempt := S (maxRetries - remaining) in
      match page attempt with
      | None => Return (Some true)
      | Some error =>
          if bool_decide (attempt = maxRetries) then Throw error
          else retryLoop page maxRetries k
      end
  end.

Definition navigateWithRetry (page : nat -> option string) (maxRetries : nat) :=
  retryLoop page maxRetries maxRetries.

(** [handleCaptcha()]; [captcha] is what [page.$] finds. *)
Definition handleCaptcha (captcha : Completion bool) : Completion bool :=
  match captcha with
  | Return captchaExists => Return (negb captchaExists)
  | Throw error => Throw error
  end.

End BaseScraper.

Module TargetScraper.

(** What [page.evaluate] extracts from the product page. *)
Record ProductData : Type := mkProductData {
  title : option string;
  priceText : option string;
  availabilityText : option string;
  url : string
}.

(** What the browser does during one call of [scrapeProduct]: the launch
    (when no browser is there yet), [page.goto] in each attempt, the
    CAPTCHA probe, the wait for the title and the evaluation. *)
Record Page : Type := mkPage {
  launch : option string;
  goto : nat -> option string;
  captcha : Completion bool;
  productTitle : option string;
  evaluate : Completion ProductData
}.

Definition failed (url message : string) (now : Js.Time) : ScrapeResult.t :=
  ScrapeResult.mk false Js.Null false "" "target" url message now.

Definition orEmpty (s : option string) : string :=
  match s with Some s => s | None => "" end.

(** [scrapeProduct(url, customSelectors)].  [hasBrowser] tells whether
    [this.browser] is set. *)
Definition scrapeProduct (hasBrowser : bool) (url : string) (page : Page)
    (now : Js.Time) : ScrapeResult.t :=
  match (if hasBrowser then None else launch page) with
  | Some error => failed url error now
  | None =>
      match BaseScraper.navigateWithRetry (goto page) 3 with
      | Throw error => failed url error now
      | Return _ =>
          match BaseScraper.handleCaptcha (captcha page) with
          | Throw error => failed url error now
          | Return false =>
              ScrapeResult.mk false Js.Null false "" "" "" "CAPTCHA detected" 0%Z
          | Return true =>
              match productTitle page with
              | Some error => failed url error now
              | None =>
                  match evaluate page with
                  | Throw error => failed url error now
                  | Return productData =>
                      let price := BaseScraper.extractPrice (priceText productData) in
                      let inStock :=
                        BaseScraper.isInStock (availabilityText productData) in
                      ScrapeResult.mk true price inStock
                        (orEmpty (title productData)) "target"
                        (TargetScraper.url productData) "" now
                  end
              end
          end
      end
  end.

End TargetScraper.

Module ScrapeSpec.
Import JsString.

(** Every character of [s] satisfies [f]. *)
Fixpoint allChars (f : ascii -> bool) (s : string) : bool :=
  match s with
  | EmptyString => true
  | String c t => f c && allChars f t
  end.

(** [s] does not begin with a character that satisfies [f]. *)
Definition stopsAt (f : ascii -> bool) (s : string) : bool :=
  match s with
  | EmptyString => true
  | String c _ => negb (f c)
  end.

(** The page went through and [page.evaluate] returned [productData]. *)
Definition scraped (hasBrowser : bool) (page : TargetScraper.Page)
    (productData : TargetScraper.ProductData) : Prop :=
  (hasBrowser = true \/ TargetScraper.launch page = None)
  /\ (exists k, 1 <= k <= 3 /\ TargetScraper.goto page k = None)
  /\ TargetScraper.captcha page = Return false
  /\ TargetScraper.productTitle page = None
  /\ TargetScraper.evaluate page = Return productData.

End ScrapeSpec.

(* ===================================================================== *)
(** ** [ScraperManager]: [getAllResults] and [manualScrape]                *)
(* ===================================================================== *)

Module JsArray.

(** [array.sort(compare)].  The sort is stable, and for a comparator
    that orders the elements consistently the result is the one that
    insertion from the right gives: an element moves behind another only
    when the comparator says so. *)
Fixpoint insert {A} (compare : A -> A -> Z) (x : A) (l : list A) : list A :=
  match l with
  | [] => [x]
  | y :: l' =>
      if bool_decide (0 < compare x y)%Z then y :: insert compare x l'
      else x :: l
  end.

Definition sort {A} (compare : A -> A -> Z) (l : list A) : list A :=
  foldr (insert compare) [] l.

End JsArray.

Module ScraperQueries.
Import ScraperManager.

(** [getAllResults(limit = 100)] *)
Definition getAllResults (m : Js.Map CacheEntry) (limit : option nat)
    : list CacheEntry :=
  take (default 100 limit)
    (JsArray.sort (fun a b => (timestamp b - timestamp a)%Z) m.*2).



End ScraperQueries.

(* ===================================================================== *)
(** ** [BasePurchaser]: the forms, and [TargetPurchaser]                   *)
(* ===================================================================== *)

(** Sequencing of statements that may throw. *)
Definition andThen {A B} (c : Completion A) (k : A -> Completion B) : Completion B :=
  match c with
  | Return a => k a
  | Throw error => Throw error
  end.

Notation "c1 >> c2" := (andThen c1 (fun _ => c2))
  (at level 65, right associativity).

(** [try { c } catch (e) { }] *)
Definition swallow {A} (c : Completion A) : Completion unit := Return tt.

(** A page operation by its outcome. *)
Definition pageDoes (page : BasePurchaser.PageOutcome) : Completion unit :=
  match page with
  | Some error => Throw error
  | None => Return tt
  end.

Module PurchaserForms.
Import BasePurchaser.

(** The part of a credit card that the forms read. *)
Record Address : Type := mkAddress {
  street : string;
  city : string;
  state : string;
  zipCode : string;
  country : string
}.

Record CreditCard : Type := mkCard {
  encryptedCardNumber : string;
  encryptedCVV : string;
  expiryMonth : string;
  expiryYear : string;
  cardholderName : string;
  billingAddress : Address
}.

(** The fields of a form in the order in which the method fills them:
    whether the field is to be filled, and its selector. *)
Definition Field : Type := bool * option string.

(** One field after the other; the result lists the selectors that were
    filled and tells how the method ended.  [page i] is what the page
    does when the i-th field of the form is filled. *)
Fixpoint fillEach (p : t) (fields : list Field) (page : nat -> PageOutcome)
    (i : nat) : list string * Completion unit :=
  match fields with
  | [] => ([], Return tt)
  | (wanted, selector) :: rest =>
      if wanted then
        match fillField p (page i) with
        | Return _ =>
            let '(filled, c) := fillEach p rest page (S i) in
            (default "" selector :: filled, c)
        | Throw error => ([], Throw error)
        end
      else fillEach p rest page (S i)
  end.

Record CardSelectors : Type := mkCardSelectors {
  s_cardNumber : option string;
  s_expiryMonth : option string;
  s_expiryYear : option string;
  s_cvv : option string;
  s_cardholderName : option string
}.

(** [fillCreditCardInfo(creditCard, selectors)]: a field is filled when
    its selector is configured.  [decrypted] tells whether the two calls
    of [CreditCard.decryptCardData] return. *)
Definition fillCreditCardInfo (p : t) (selectors : CardSelectors)
    (decrypted : PageOutcome) (page : nat -> PageOutcome)
    : list string * Completion unit :=
  match decrypted with
  | Some error => ([], Throw error)
  | None =>
      fillEach p
        [(Js.truthy_str (s_cardNumber selectors), s_cardNumber selectors);
         (Js.truthy_str (s_expiryMonth selectors), s_expiryMonth selectors);
         (Js.truthy_str (s_expiryYear selectors), s_expiryYear selectors);
         (Js.truthy_str (s_cvv selectors), s_cvv selectors);
         (Js.truthy_str (s_cardholderName selectors), s_cardholderName selectors)]
        page 0
  end.

Record AddressSelectors : Type := mkAddressSelectors {
  s_street : option string;
  s_city : option string;
  s_state : option string;
  s_zipCode : option string;
  s_country : option string
}.

(** [fillBillingAddress(creditCard, selectors)]: a field is filled when
    its selector is configured and the address has a value for it. *)
Definition wanted (selector : option string) (value : string) : bool :=
  Js.truthy_str selector && negb (bool_decide (value = "")).

Definition fillBillingAddress (p : t) (creditCard : CreditCard)
    (selectors : AddressSelectors) (page : nat -> PageOutcome)
    : list string * Completion unit :=
  let address := billingAddress creditCard in
  fillEach p
    [(wanted (s_street selectors) (street address), s_street selectors);
     (wanted (s_city selectors) (city address), s_city selectors);
     (wanted (s_state selectors) (state address), s_state selectors);
     (wanted (s_zipCode selectors) (zipCode address), s_zipCode selectors);
     (wanted (s_country selectors) (country address), s_country selectors)]
    page 0.

(** [handleCaptcha()]; [captcha] is what [page.$] finds.  Every error,
    the one of the cancelled wait included, gives [false]. *)
Definition handleCaptcha (p : t) (captcha : Completion bool) : bool :=
  match captcha with
  | Return captchaExists => negb captchaExists
  | Throw _ => false
  end.

(** What [extractOrderInfo()] returns: the texts the confirmation page
    shows, or the empty object when the evaluation throws. *)
Record OrderInfo : Type := mkOrderInfo {
  orderId : option string;
  confirmationNumber : option string;
  totalAmount : option string
}.

Definition extractOrderInfo (evaluation : Completion OrderInfo) : OrderInfo :=
  match evaluation with
  | Return orderInfo => orderInfo
  | Throw _ => mkOrderInfo None None None
  end.

End PurchaserForms.

Module TargetPurchaser.
Import BasePurchaser PurchaserForms.

(** What the browser does during one call of [executePurchase], one
    field per place of the code that talks to it. *)
Record Page : Type := mkPage {
  launch : PageOutcome;                 (* puppeteer.launch *)
  newPage : PageOutcome;                (* browser.newPage, setUserAgent *)
  goto : nat -> PageOutcome;            (* navigateWithRetry(url) *)
  productTitle : PageOutcome;
  quantityInput : Completion bool;
  quantityField : PageOutcome;
  addButton : nat -> Completion bool;   (* page.$ for the i-th selector *)
  addClick : nat -> nat -> PageOutcome; (* clickWithRetry of the i-th selector *)
  modalClose : PageOutcome;
  cartClick : nat -> PageOutcome;
  cartNavigation : PageOutcome;
  cartItem : PageOutcome;
  checkoutClick : nat -> PageOutcome;
  checkoutNavigation : PageOutcome;
  guestButton : Completion bool;
  guestClick : nat -> PageOutcome;
  guestNavigation : PageOutcome;
  shippingField : nat -> PageOutcome;
  continueClick : nat -> PageOutcome;
  continueNavigation : PageOutcome;
  cardNumberField : PageOutcome;
  decrypted : PageOutcome;              (* CreditCard.decryptCardData *)
  cardField : nat -> PageOutcome;
  billingCheckbox : Completion bool;
  billingClick : PageOutcome;
  billingField : nat -> PageOutcome;
  captcha : Completion bool;
  placeOrderClick : nat -> PageOutcome;
  orderConfirmation : PageOutcome;
  confirmationPage : PageOutcome;
  orderEvaluation : Completion OrderInfo
}.

(** [initBrowser()]: when the launch fails there is no new browser; when
    the page cannot be set up the browser has been launched. *)
Definition openBrowser (p : t) (page : Page) : t * Completion unit :=
  match launch page with
  | Some error => (p, Throw error)
  | None =>
      match newPage page with
      | Some error => (initBrowser p, Throw error)
      | None => (initBrowser p, Return tt)
      end
  end.

(** The loop of [addToCart] over the three add-to-cart selectors. *)
Fixpoint clickFirst (p : t) (page : Page) (i remaining : nat) : Completion unit :=
  match remaining with
  | 0 => Return tt
  | S k =>
      match andThen (addButton page i)
              (fun button =>
                 if button
                 then andThen (clickWithRetry p (addClick page i) 3)
                              (fun _ => Return true)
                 else Return false) with
      | Return true => Return tt
      | Return false => clickFirst p page (S i) k
      | Throw _ => clickFirst p page (S i) k
      end
  end.

(** [addToCart(url, quantity)] *)
Definition addToCart (p : t) (page : Page) (quantity : nat) : Completion unit :=
  navigateWithRetry p (goto page) 3 >>
  pageDoes (productTitle page) >>
  swallow (andThen (quantityInput page)
             (fun quantityInput =>
                if quantityInput && bool_decide (1 < quantity)
                then fillField p (quantityField page)
                else Return tt)) >>
  clickFirst p page 0 3 >>
  randomDelay p >>
  swallow (pageDoes (modalClose page)) >>
  Return tt.

(** [goToCart()] *)
Definition goToCart (p : t) (page : Page) : Completion unit :=
  clickWithRetry p (cartClick page) 3 >>
  waitForNavigation p (cartNavigation page) >>
  pageDoes (cartItem page).

(** [proceedToCheckout()] *)
Definition proceedToCheckout (p : t) (page : Page) : Completion unit :=
  clickWithRetry p (checkoutClick page) 3 >>
  waitForNavigation p (checkoutNavigation page) >>
  swallow (andThen (guestButton page)
             (fun guestButton =>
                if guestButton
                then clickWithRetry p (guestClick page) 3 >>
                     waitForNavigation p (guestNavigation page)
                else Return tt)).

(** [cardholderName.split(' ')[0]] and
    [cardholderName.split(' ').slice(1).join(' ') || 'Doe'] *)
Fixpoint join (sep : string) (parts : list string) : string :=
  match parts with
  | [] => ""
  | [part] => part
  | part :: rest => part +:+ sep +:+ join sep rest
  end.

Definition firstName (cardholderName : string) : string :=
  default "" (Js.split " " cardholderName !! 0).

Definition lastName (cardholderName : string) : string :=
  let rest := join " " (drop 1 (Js.split " " cardholderName)) in
  if bool_decide (rest = "") then "Doe" else rest.

(** [fillShippingInfo(creditCard)]: eight fields, none of them
    optional. *)
Fixpoint fillAll (p : t) (page : nat -> PageOutcome) (i remaining : nat)
    : Completion unit :=
  match remaining with
  | 0 => Return tt
  | S k => fillField p (page i) >> fillAll p page (S i) k
  end.

Definition fillShippingInfo (p : t) (page : Page) : Completion unit :=
  fillAll p (shippingField page) 0 8 >>
  match clickWithRetry p (continueClick page) 3 >>
        waitForNavigation p (continueNavigation page) with
  | Return _ => Return tt
  | Throw _ => randomDelay p
  end.

(** The selectors of [this.checkoutSelectors] that the two forms use,
    each by its [data-test] name. *)
Definition cardSelectors : CardSelectors :=
  mkCardSelectors (Some "cardNumber") (Some "expiryMonth") (Some "expiryYear")
                  (Some "cvv") (Some "cardName").

Definition billingSelectors : AddressSelectors :=
  mkAddressSelectors (Some "billingAddress1") (Some "billingCity")
                     (Some "billingState") (Some "billingZipCode") None.

(** [fillPaymentInfo(creditCard)] *)
Definition fillPaymentInfo (p : t) (page : Page) (creditCard : CreditCard)
    : Completion unit :=
  pageDoes (cardNumberField page) >>
  (fillCreditCardInfo p cardSelectors (decrypted page) (cardField page)).2 >>
  swallow (andThen (billingCheckbox page)
             (fun billingCheckbox =>
                if billingCheckbox
                then pageDoes (billingClick page) >>
                     randomDelay p >>
                     (fillBillingAddress p creditCard billingSelectors
                        (billingField page)).2
                else Return tt)).

(** [placeOrder()] *)
Definition placeOrder (p : t) (page : Page) : Completion OrderInfo :=
  (if handleCaptcha p (captcha page) then Return tt
   else Throw "CAPTCHA detected and not resolved") >>
  clickWithRetry p (placeOrderClick page) 3 >>
  match pageDoes (orderConfirmation page) with
  | Return _ => Return tt
  | Throw _ => pageDoes (confirmationPage page)
  end >>
  Return (extractOrderInfo (orderEvaluation page)).

(** [executePurchase({ purchase, creditCard, url, quantity })]: the
    purchaser afterwards, and the result. *)
Definition executePurchase (p : t) (creditCard : CreditCard) (quantity : nat)
    (page : Page) : t * PurchaseManager.Outcome :=
  let '(p, opened) := openBrowser p page in
  match opened >>
        addToCart p page quantity >>
        goToCart p page >>
        proceedToCheckout p page >>
        fillShippingInfo p page >>
        fillPaymentInfo p page creditCard >>
        placeOrder p page with
  | Return orderInfo =>
      (closeBrowser p,
       PurchaseManager.Succeeded
         (PurchaseManager.mkResult (orderId orderInfo)
            (confirmationNumber orderInfo) None None None))
  | Throw error => (closeBrowser p, PurchaseManager.Failed error)
  end.

End TargetPurchaser.

(** Vocabulary for the checkout of Target. *)
Module CheckoutSpec.
Import BasePurchaser PurchaserForms TargetPurchaser.

(** One of the three attempts of a click or a navigation goes through. *)
Definition clicks (page : nat -> PageOutcome) : Prop :=
  exists attempt, 1 <= attempt <= 3 /\ page attempt = None.

(** The page operations on which the result of [executePurchase]
    depends. *)
Definition goesThrough (page : Page) : Prop :=
  launch page = None
  /\ newPage page = None
  /\ clicks (goto page)
  /\ productTitle page = None
  /\ clicks (cartClick page)
  /\ cartItem page = None
  /\ clicks (checkoutClick page)
  /\ (forall i, i < 8 -> shippingField page i = None)
  /\ cardNumberField page = None
  /\ decrypted page = None
  /\ (forall i, i < 5 -> cardField page i = None)
  /\ captcha page = Return false
  /\ clicks (placeOrderClick page)
  /\ (orderConfirmation page = None \/ confirmationPage page = None).

(** The result that [executePurchase] makes of the confirmation page. *)
Definition confirmed (page : Page) : PurchaseManager.PurchaseResult :=
  let orderInfo := extractOrderInfo (orderEvaluation page) in
  PurchaseManager.mkResult (orderId orderInfo) (confirmationNumber orderInfo)
                           None None None.

(** The selectors of a form for which the method fills a field, in the
    order of the method. *)
Definition toFill (fields : list Field) : list string :=
  (fun field : Field => default "" field.2)
  <$> filter (fun field : Field => field.1 = true) fields.

Definition cardFields (selectors : CardSelectors) : list string :=
  toFill ((fun selector => (Js.truthy_str selector, selector))
          <$> [s_cardNumber selectors; s_expiryMonth selectors;
               s_expiryYear selectors; s_cvv selectors;
               s_cardholderName selectors]).

Definition addressFields (selectors : AddressSelectors) (address : Address)
    : list string :=
  toFill ((fun f : option string * string => (wanted f.1 f.2, f.1))
          <$> [(s_street selectors, street address);
               (s_city selectors, city address);
               (s_state selectors, state address);
               (s_zipCode selectors, zipCode address);
               (s_country selectors, country address)]).

Definition card : CreditCard :=
  mkCard "4f0c" "9a1e" "12" "2030" "Ash Ketchum"
         (mkAddress "1 Route One" "Pallet Town" "KA" "00001" "").

(** A checkout in which the product page has no add-to-cart button and
    everything else goes through. *)
Definition noButton : Page :=
  mkPage None None (fun _ => None) None (Return false) None
         (fun _ => Return false) (fun _ _ => None) None
         (fun _ => None) None None
         (fun _ => None) None (Return false) (fun _ => None) None
         (fun _ => None) (fun _ => None) None
         None None (fun _ => None)
         (Return false) None (fun _ => None)
         (Return false) (fun _ => None) None None
         (Return (mkOrderInfo (Some "902-1") None (Some "$59.99"))).

End CheckoutSpec.

(* ===================================================================== *)
(** ** [AutomatedPurchaseBot]: the loops of a check                        *)
(* ===================================================================== *)

Module BotLoop.
Import AutomatedPurchaseBot.

(** What one pass of the loop over the websites meets: the outcome of
    the scrape, the three random numbers of the simulation, the result of
    [generateWebsiteUrl], the id of a new record and the time. *)
Record Probe : Type := mkProbe {
  scrape : ScrapeOutcome;
  r1 : Q;
  r2 : Q;
  r3 : Q;
  urlData : UrlData;
  newId : ObjectId;
  now : Js.Time
}.

(** [sku.monitoredWebsites || ['walmart', 'target', 'pokemoncenter']] *)
Definition websitesOf (sku : TestStorage.SKU) : list string :=
  default ["walmart"; "target"; "pokemoncenter"]
          (TestStorage.sku_monitoredWebsites sku).

(** The loop of [checkSKUForPurchase]; [probe i] belongs to the i-th
    website. *)
Fixpoint checkEach (user : ObjectId) (sku : TestStorage.SKU)
    (creditCards : list TestStorage.CreditCard) (checkType : string)
    (websites : list string) (probe : nat -> Probe) (i : nat) (b : t) : t :=
  match websites with
  | [] => b
  | website :: rest =>
      let x := probe i in
      checkEach user sku creditCards checkType rest probe (S i)
        (checkWebsite user sku creditCards checkType website
           (scrape x) (r1 x) (r2 x) (r3 x) (urlData x) (newId x) (now x) b)
  end.

(** [checkSKUForPurchase(user, sku, creditCards, checkType)] *)
Definition checkSKUForPurchase (user : ObjectId) (sku : TestStorage.SKU)
    (creditCards : list TestStorage.CreditCard) (checkType : string)
    (probe : nat -> Probe) (b : t) : t :=
  checkEach user sku creditCards checkType (websitesOf sku) probe 0 b.

(** A user with what the two queries of the storage return for them:
    their active items and their active cards. *)
Record Account : Type := mkAccount {
  user : ObjectId;
  userSKUs : list TestStorage.SKU;
  userCreditCards : list TestStorage.CreditCard
}.

(** The loop over the items of one user; [probe j] belongs to the j-th
    item. *)
Fixpoint checkSKUs (user : ObjectId) (skus : list TestStorage.SKU)
    (creditCards : list TestStorage.CreditCard) (checkType : string)
    (probe : nat -> nat -> Probe) (j : nat) (b : t) : t :=
  match skus with
  | [] => b
  | sku :: rest =>
      checkSKUs user rest creditCards checkType probe (S j)
        (checkSKUForPurchase user sku creditCards checkType (probe j) b)
  end.

(** The loop over the users; [probe k] belongs to the k-th user. *)
Fixpoint checkUsers (users : list Account) (checkType : string)
    (probe : nat -> nat -> nat -> Probe) (k : nat) (b : t) : t :=
  match users with
  | [] => b
  | account :: rest =>
      checkUsers rest checkType probe (S k)
        (if bool_decide (length (userSKUs account) = 0)
            || bool_decide (length (userCreditCards account) = 0)
         then b
         else checkSKUs (user account) (userSKUs account)
                (userCreditCards account) checkType (probe k) 0 b)
  end.

(** [checkForPurchaseOpportunities(checkType)] *)
Definition checkForPurchaseOpportunities (checkType : string)
    (users : list Account) (probe : nat -> nat -> nat -> Probe) (b : t) : t :=
  if negb (isRunning b) then b
  else checkUsers users checkType probe 0 b.

End BotLoop.

Module BotLoopSpec.
Import AutomatedPurchaseBot BotLoop.

(** A record that the bot may write for one of the accounts: a purchase
    of one unit of an item of the account at one of its websites, at a
    price that is not above the target price of the item, charged to a
    card of the account. *)
Definition covered (users : list Account) (p : TestStorage.Purchase) : Prop :=
  exists account sku card,
    account ∈ users
    /\ sku ∈ userSKUs account
    /\ card ∈ userCreditCards account
    /\ TestStorage.createdBy p = user account
    /\ TestStorage.sku p = TestStorage.sku_id sku
    /\ TestStorage.website_name p ∈ websitesOf sku
    /\ Js.le (TestStorage.price p) (TestStorage.sku_targetPrice sku) = true
    /\ TestStorage.quantity p = 1
    /\ TestStorage.total p = TestStorage.price p
    /\ TestStorage.status p = "success"
    /\ TestStorage.creditCardUsed p = TestStorage.cardName card.

End BotLoopSpec.

(* ===================================================================== *)
(** ** [testStorage]: the queries of the test mode                         *)
(* ===================================================================== *)

Module TestStorageQueries.
Import TestStorage.

(** The query object of [findTestPurchases]. *)
Record PurchaseQuery : Type := mkQuery {
  q_createdBy : option ObjectId;
  q_status : option string;
  q_websiteName : option string       (* query['website.name'] *)
}.

(** [new Date(b.createdAt) - new Date(a.createdAt)]; without a date the
    difference is [NaN], which a sort takes for 0. *)
Definition newestFirst (a b : Purchase) : Z :=
  match createdAt a, createdAt b with
  | Some ta, Some tb => tb - ta
  | _, _ => 0
  end.

(** [findTestPurchases(query)]: what it returns, and the array
    [testPurchases] afterwards.  Each filter that applies makes a new
    array; when none applies the array that is sorted is the stored
    one. *)
Definition findTestPurchases (query : PurchaseQuery)
    (testPurchases : list Purchase) : list Purchase * list Purchase :=
  let filtered := testPurchases in
  let filtered :=
    match q_createdBy query with
    | Some createdBy' => filter (fun p => createdBy p = createdBy') filtered
    | None => filtered
    end in
  let filtered :=
    if Js.truthy_str (q_status query)
    then filter (fun p => Some (status p) = q_status query) filtered
    else filtered in
  let filtered :=
    if Js.truthy_str (q_websiteName query)
    then filter (fun p => Some (website_name p) = q_websiteName query) filtered
    else filtered in
  let sorted := JsArray.sort newestFirst filtered in
  (sorted,
   if bool_decide (q_createdBy query = None)
      && negb (Js.truthy_str (q_status query))
      && negb (Js.truthy_str (q_websiteName query))
   then sorted else testPurchases).

(** [findTestPurchaseById(id, userId)] *)
Definition findTestPurchaseById (id userId : ObjectId)
    (testPurchases : list Purchase) : option Purchase :=
  head (filter (fun p => _id p = Some id /\ createdBy p = userId) testPurchases).

(** An element of [testScraperResults]; [A] is the rest of the object. *)
Record ScraperResult (A : Type) : Type := mkScraperResult {
  id : option string;
  timestamp : option string;
  fields : A
}.
Arguments mkScraperResult {A} _ _ _.
Arguments id {A} _.
Arguments timestamp {A} _.
Arguments fields {A} _.

(** [addTestScraperResult(result)]; [clock] is [String(Date.now())] and
    [iso] is [new Date().toISOString()]. *)
Definition addTestScraperResult {A} (result : ScraperResult A)
    (clock iso : string) (testScraperResults : list (ScraperResult A))
    : ScraperResult A * list (ScraperResult A) :=
  let result :=
    mkScraperResult
      (Some (AutomatedPurchaseBot.orElse (id result) clock))
      (Some (AutomatedPurchaseBot.orElse (timestamp result) iso))
      (fields result) in
  let testScraperResults := result :: testScraperResults in
  (result,
   if bool_decide (50 < length testScraperResults)
   then take 50 testScraperResults
   else testScraperResults).

End TestStorageQueries.

Module StorageSpec.
Import TestStorage TestStorageQueries.

(** A purchase is one that the query asks for. *)
Definition asked (query : PurchaseQuery) (p : Purchase) : Prop :=
  match q_createdBy query with
  | Some createdBy' => createdBy p = createdBy'
  | None => True
  end
  /\ (if Js.truthy_str (q_status query)
      then Some (status p) = q_status query else True)
  /\ (if Js.truthy_str (q_websiteName query)
      then Some (website_name p) = q_websiteName query else True).

#[global] Instance asked_dec query p : Decision (asked query p).
Proof.
  unfold asked.
  destruct (q_createdBy query), (Js.truthy_str (q_status query)),
    (Js.truthy_str (q_websiteName query)); apply _.
Defined.

(** No filter of the query applies. *)
Definition unfiltered (query : PurchaseQuery) : Prop :=
  q_createdBy query = None
  /\ Js.truthy_str (q_status query) = false
  /\ Js.truthy_str (q_websiteName query) = false.

(** The time of creation of a stored purchase. *)
Definition created (p : Purchase) : Z := default 0%Z (createdAt p).

(** A record as the bot hands it to [addTestPurchase]. *)
Definition order : Purchase :=
  mkPurchase None None None [Xa] [X5; Xf; X1] "Booster Pack" "Booster Pack"
    "Pokemon Cards" "target" "https://www.target.com" None None "success"
    (Js.Num 20) 1 (Js.Num 20) "Visa" true "quick" [] "automated_bot" 25 35
    false.

(** Adding the results of a list one after the other. *)
Definition addAll {A} (results : list (ScraperResult A * string * string))
    (testScraperResults : list (ScraperResult A)) : list (ScraperResult A) :=
  foldl (fun store x => (addTestScraperResult x.1.1 x.1.2 x.2 store).2)
        testScraperResults results.

(** The result as it is stored. *)
Definition stamped {A} (x : ScraperResult A * string * string)
    : ScraperResult A :=
  (addTestScraperResult x.1.1 x.1.2 x.2 []).1.

End StorageSpec.

(* ===================================================================== *)
(** * Properties                                                           *)
(* ===================================================================== *)

(** ** Strings and the ordered map *)

Section JsFacts.

Lemma split_absent sep s : occurs sep s = false -> Js.split sep s = [s].
Proof.
  induction s as [|c s IH]; simpl; [done|].
  intros [Hc Hs]%orb_false_iff.
  rewrite Hc, (IH Hs). done.
Qed.

Lemma split_append sep a b :
  occurs sep a = false ->
  Js.split sep (a +:+ String sep b) = a :: Js.split sep b.
Proof.
  induction a as [|c a IH]; simpl.
  - intros _. by rewrite bool_decide_eq_true_2.
  - intros [Hc Ha]%orb_false_iff. rewrite Hc, (IH Ha). done.
Qed.

Context {V : Type}.
Implicit Types m : Js.Map V.

Lemma Map_get_absent k m : k ∉ Js.Map_keys m -> Js.Map_get k m = None.
Proof.
  unfold Js.Map_keys.
  induction m as [|[k' v'] m IH]; simpl; [done|].
  intros Hk. apply not_elem_of_cons in Hk as [Hne Hk].
  rewrite bool_decide_eq_false_2 by congruence. auto.
Qed.

Lemma Map_get_set k v m : Js.Map_get k (Js.Map_set k v m) = Some v.
Proof.
  induction m as [|[k' v'] m IH]; simpl.
  - by rewrite bool_decide_eq_true_2.
  - case_bool_decide; simpl.
    + by rewrite bool_decide_eq_true_2.
    + by rewrite bool_decide_eq_false_2.
Qed.

Lemma Map_keys_set k v m :
  Js.Map_keys (Js.Map_set k v m)
  = if bool_decide (k ∈ Js.Map_keys m) then Js.Map_keys m else Js.Map_keys m ++ [k].
Proof.
  induction m as [|[k' v'] m IH]; [done|].
  change (Js.Map_keys ((k', v') :: m)) with (k' :: Js.Map_keys m).
  cbn [Js.Map_set]. destruct (decide (k' = k)) as [->|Hne].
  - rewrite bool_decide_eq_true_2 by done.
    rewrite bool_decide_eq_true_2 by (apply elem_of_cons; auto). done.
  - rewrite bool_decide_eq_false_2 by done.
    change (Js.Map_keys ((k', v') :: Js.Map_set k v m))
      with (k' :: Js.Map_keys (Js.Map_set k v m)).
    rewrite IH.
    destruct (decide (k ∈ Js.Map_keys m)) as [Hin|Hnin].
    + rewrite !bool_decide_eq_true_2; [done| |done].
      apply elem_of_cons; auto.
    + rewrite !bool_decide_eq_false_2; [done| |done].
      intros [?|?]%elem_of_cons; congruence.
Qed.

Lemma Map_set_NoDup k v m :
  NoDup (Js.Map_keys m) -> NoDup (Js.Map_keys (Js.Map_set k v m)).
Proof.
  intros Hnd. rewrite Map_keys_set. case_bool_decide; [done|].
  apply NoDup_app. split_and!; [done| |apply NoDup_singleton].
  intros x Hx ->%list_elem_of_singleton. done.
Qed.

Lemma Map_set_keys_Forall (P : string -> Prop) k v m :
  P k -> Forall P (Js.Map_keys m) -> Forall P (Js.Map_keys (Js.Map_set k v m)).
Proof.
  intros Hk Hm. rewrite Map_keys_set. case_bool_decide; [done|].
  apply Forall_app. split; [done|]. by apply Forall_singleton.
Qed.

End JsFacts.

(** ** The result cache *)

Section Cache.
Import ScraperManager CacheSpec.

Lemma ObjectId_toString_plain o : occurs "_" (ObjectId_toString o) = false.
Proof. induction o as [|d o IH]; [done|]. destruct d; simpl; by rewrite IH. Qed.

Lemma WebsiteName_str_plain w : occurs "_" (WebsiteName_str w) = false.
Proof. by destruct w. Qed.

Lemma ObjectId_toString_inj o o' :
  ObjectId_toString o = ObjectId_toString o' -> o = o'.
Proof.
  revert o'. induction o as [|d o IH]; intros [|d' o']; simpl; try done.
  intros [= Hd Ho]. f_equal; [|by apply IH].
  by destruct d, d'.
Qed.

Lemma WebsiteName_str_inj w w' : WebsiteName_str w = WebsiteName_str w' -> w = w'.
Proof. by destruct w, w'. Qed.

Lemma split_cacheKey i r :
  Js.split "_" (cacheKey i r) = [ObjectId_toString i; WebsiteName_str r].
Proof.
  change (cacheKey i r)
    with (ObjectId_toString i +:+ String "_" (WebsiteName_str r)).
  rewrite split_append by apply ObjectId_toString_plain.
  by rewrite split_absent by apply WebsiteName_str_plain.
Qed.

Lemma cacheKey_inj i r i' r' : cacheKey i r = cacheKey i' r' -> i = i' /\ r = r'.
Proof.
  intros H. assert (Hs := split_cacheKey i r). rewrite H, split_cacheKey in Hs.
  injection Hs as Hi Hr.
  split; [by apply ObjectId_toString_inj | by apply WebsiteName_str_inj].
Qed.

Lemma matches_cacheKey i r i' r' :
  matches i (Some (WebsiteName_str r)) (cacheKey i' r')
  = bool_decide (cacheKey i' r' = cacheKey i r).
Proof.
  unfold matches. rewrite split_cacheKey.
  assert (Js.truthy_str (Some (WebsiteName_str r)) = true) as -> by by destruct r.
  change ([ObjectId_toString i'; WebsiteName_str r'] !! 0)
    with (Some (ObjectId_toString i')).
  change ([ObjectId_toString i'; WebsiteName_str r'] !! 1)
    with (Some (WebsiteName_str r')).
  rewrite orb_false_l, <- bool_decide_and.
  apply bool_decide_ext. split.
  - intros [[= ->%ObjectId_toString_inj] [= ->%WebsiteName_str_inj]]. done.
  - intros [-> ->]%cacheKey_inj. done.
Qed.

(** On a well-keyed cache [getResults] for one pair is the lookup of
    the key of the pair. *)
Lemma getResults_lookup m i r :
  well_keyed m ->
  getResults m i (Some (WebsiteName_str r))
  = option_list (Js.Map_get (cacheKey i r) m).
Proof.
  intros [Hnd Hk]. induction m as [|[k v] m IH]; [done|].
  change (Js.Map_keys ((k, v) :: m)) with (k :: Js.Map_keys m) in Hnd, Hk.
  apply NoDup_cons in Hnd as [Hk1 Hnd]. apply Forall_cons in Hk as [(i' & r' & ->) Hk].
  cbn [getResults Js.Map_get]. rewrite matches_cacheKey.
  case_bool_decide as Heq.
  - rewrite IH by done. rewrite Map_get_absent; [done|]. by rewrite <- Heq.
  - by apply IH.
Qed.

Lemma cleanup_well_keyed now m : well_keyed m -> well_keyed (cleanup now m).
Proof.
  unfold cleanup. intros [Hnd Hk].
  induction m as [|[k v] m IH]; [done|].
  change (Js.Map_keys ((k, v) :: m)) with (k :: Js.Map_keys m) in Hnd, Hk.
  apply NoDup_cons in Hnd as [Hk1 Hnd]. apply Forall_cons in Hk as [Hk0 Hk].
  destruct (IH Hnd Hk) as [IH1 IH2].
  rewrite filter_cons. case_decide; [|done].
  split.
  - change (NoDup (k :: Js.Map_keys (filter (fun kv => ¬ (timestamp kv.2 < now - oneDay)%Z) m))).
    apply NoDup_cons. split; [|done].
    intros Hin. apply Hk1. unfold Js.Map_keys in *.
    apply list_elem_of_fmap in Hin as (kv & -> & Hin).
    apply list_elem_of_filter in Hin as [_ Hin].
    apply list_elem_of_fmap. eauto.
  - change (Forall (fun k => exists i r, k = cacheKey i r)
              (k :: Js.Map_keys (filter (fun kv => ¬ (timestamp kv.2 < now - oneDay)%Z) m))).
    by apply Forall_cons.
Qed.

Lemma processScrapingResult_results sku website result newId now e :
  results (processScrapingResult sku website result newId now e)
  = Js.Map_set (cacheKey (SKU._id sku) (SKU.name website))
      (entryOf sku website result now) (results e).
Proof.
  unfold processScrapingResult, triggerAutoPurchase.
  repeat (case_match; simpl); done.
Qed.

Lemma put_well_keyed sku website result newId now e :
  well_keyed (results e) ->
  well_keyed (results (processScrapingResult sku website result newId now e)).
Proof.
  intros [Hnd Hk]. rewrite processScrapingResult_results. split.
  - by apply Map_set_NoDup.
  - apply Map_set_keys_Forall; eauto.
Qed.

Lemma Reachable_well_keyed e : Reachable e -> well_keyed (results e).
Proof.
  induction 1 as [c|sku website probe newId now e _ IH|now e _ IH].
  - split; [apply NoDup_nil_2 | apply Forall_nil_2].
  - destruct probe as [result|message]; simpl; [|done].
    destruct (ScrapeResult.success result); simpl; [|done].
    by apply put_well_keyed.
  - simpl. by apply cleanup_well_keyed.
Qed.

(** C9.  Cache round trip.  On every cache the manager can hold, after
    the result [res] of a probe of item [i] at retailer [r] has been
    stored, the lookup for [(i, r)] returns exactly the entry of [res]
    (its fields, the item, the retailer and the time of the write); a
    second write for the same pair replaces the first, so the lookup
    returns exactly the entry of the second result; and a lookup for one
    pair never returns more than one entry. *)
Theorem cache_round_trip e sku website :
  Reachable e ->
  (forall res newId now,
      get sku website (put sku website res newId now e)
      = [entryOf sku website res now])
  /\ (forall res1 id1 now1 res2 id2 now2,
        get sku website
          (put sku website res2 id2 now2 (put sku website res1 id1 now1 e))
        = [entryOf sku website res2 now2])
  /\ length (get sku website e) <= 1.
Proof.
  intros Hr. pose proof (Reachable_well_keyed e Hr) as Hwk.
  assert (Hput : forall e' res newId now,
             well_keyed (results e') ->
             get sku website (put sku website res newId now e')
             = [entryOf sku website res now]).
  { intros e' res newId now Hwk'. unfold get, put.
    rewrite getResults_lookup by by apply put_well_keyed.
    rewrite processScrapingResult_results, Map_get_set. done. }
  split_and!.
  - intros. by apply Hput.
  - intros. apply Hput. by apply put_well_keyed.
  - unfold get. rewrite getResults_lookup by done.
    destruct (Js.Map_get _ _); simpl; lia.
Qed.

Lemma cache_round_trip_witness :
  let sku := DecisionSpec.booster in
  let website := DecisionSpec.targetSite in
  let e := DecisionSpec.emptyEnv in
  Reachable e
  /\ (forall res newId now,
        get sku website (put sku website res newId now e)
        = [entryOf sku website res now])
  /\ (forall res1 id1 now1 res2 id2 now2,
        get sku website
          (put sku website res2 id2 now2 (put sku website res1 id1 now1 e))
        = [entryOf sku website res2 now2])
  /\ length (get sku website e) <= 1.
Proof.
  intros sku website e.
  assert (Hr : Reachable e) by apply reach_created.
  split; [exact Hr|].
  exact (cache_round_trip e sku website Hr).
Defined.

End Cache.

(** ** Documents *)

(** Unfolds the assignments of a handler down to the record. *)
Ltac unfold_doc :=
  unfold Purchase.preSave, Purchase.assign, Purchase.stamp,
    Purchase.push_error, Purchase.loaded, PurchaseManager.same in *;
  cbn [Purchase.doc Purchase.update] in *.

Section Documents.

Lemma preSave_doc d :
  unchanged_but_details (Purchase.doc (Purchase.preSave d)) (Purchase.doc d).
Proof. unfold_doc. repeat case_match; by repeat split. Qed.

Lemma preSave_update d q :
  unchanged_but_details (Purchase.update (Purchase.preSave d) q)
                        (Purchase.update d q).
Proof. unfold_doc. repeat case_match; by repeat split. Qed.

Lemma unchanged_refl p : unchanged_but_details p p.
Proof. by repeat split. Qed.

Lemma unchanged_trans p q r :
  unchanged_but_details p q -> unchanged_but_details q r ->
  unchanged_but_details p r.
Proof.
  unfold unchanged_but_details.
  intros (-> & -> & -> & -> & -> & -> & ->) (-> & -> & -> & -> & -> & -> & ->).
  done.
Qed.

(** An assignment to a path outside the lifecycle of the purchase. *)
Lemma assign_keeps {A} (same : A -> A -> bool) get set v d :
  (forall p, unchanged_but_details (set v p) p) ->
  unchanged_but_details (Purchase.doc (Purchase.assign same get set v d))
                        (Purchase.doc d)
  /\ forall q,
       unchanged_but_details (Purchase.update (Purchase.assign same get set v d) q)
                             (Purchase.update d q).
Proof.
  intros Hset. unfold Purchase.assign. destruct (same _ _); simpl.
  - split; [apply unchanged_refl|]. intros q. apply unchanged_refl.
  - split; [apply Hset|]. intros q. apply Hset.
Qed.

Lemma stamp_keeps {A} (set : A -> Purchase.t -> Purchase.t) now d :
  (forall p, unchanged_but_details (set now p) p) ->
  unchanged_but_details (Purchase.doc (Purchase.stamp set now d)) (Purchase.doc d)
  /\ forall q,
       unchanged_but_details (Purchase.update (Purchase.stamp set now d) q)
                             (Purchase.update d q).
Proof. intros Hset. split; [apply Hset|]. intros q. apply Hset. Qed.

(** The block that records the e-mail notification, at the end of both
    handlers. *)
Lemma notification_keeps kind now d :
  let d' :=
    match Purchase.createdBy (Purchase.doc d) with
    | Some u =>
        if emailNotifications u then
          Purchase.assign PurchaseManager.same
            (fun p => Purchase.notificationType (Purchase.notifications p))
            Purchase.with_notificationType (Some kind)
            (Purchase.stamp Purchase.with_emailTimestamp (Some now)
               (Purchase.assign PurchaseManager.same
                  (fun p => Purchase.emailSent (Purchase.notifications p))
                  Purchase.with_emailSent true d))
        else d
    | None => d
    end in
  unchanged_but_details (Purchase.doc d') (Purchase.doc d)
  /\ forall q, unchanged_but_details (Purchase.update d' q) (Purchase.update d q).
Proof.
  simpl.
  destruct (Purchase.createdBy (Purchase.doc d)) as [u|];
    [destruct (emailNotifications u)|];
    try (split; [apply unchanged_refl|intros q; apply unchanged_refl]).
  set (d1 := Purchase.assign _ _ Purchase.with_emailSent _ _).
  set (d2 := Purchase.stamp _ _ d1).
  destruct (assign_keeps PurchaseManager.same
              (fun p => Purchase.emailSent (Purchase.notifications p))
              Purchase.with_emailSent true d) as [H1 H1']; [done|].
  destruct (stamp_keeps Purchase.with_emailTimestamp (Some now) d1) as [H2 H2'];
    [done|].
  destruct (assign_keeps PurchaseManager.same
              (fun p => Purchase.notificationType (Purchase.notifications p))
              Purchase.with_notificationType (Some kind) d2) as [H3 H3']; [done|].
  split.
  - eapply unchanged_trans; [exact H3|]. eapply unchanged_trans; [exact H2|exact H1].
  - intros q. eapply unchanged_trans; [apply H3'|].
    eapply unchanged_trans; [apply H2'|apply H1'].
Qed.

Lemma save_doc d c : (Purchase.save d c).1 = Purchase.doc (Purchase.preSave d).
Proof. done. Qed.

Lemma save_elem q' d c :
  q' ∈ (Purchase.save d c).2 ->
  (exists q, q ∈ c
             /\ Purchase._id q = Purchase._id (Purchase.doc (Purchase.preSave d))
             /\ q' = Purchase.update (Purchase.preSave d) q)
  \/ (q' ∈ c /\ Purchase._id q' <> Purchase._id (Purchase.doc (Purchase.preSave d))).
Proof.
  unfold Purchase.save. cbn [snd].
  intros (q & -> & Hq)%list_elem_of_fmap.
  case_bool_decide; [left; by exists q|by right].
Qed.

Lemma save_elem_of q d c :
  q ∈ c ->
  (if bool_decide (Purchase._id q = Purchase._id (Purchase.doc (Purchase.preSave d)))
   then Purchase.update (Purchase.preSave d) q else q) ∈ (Purchase.save d c).2.
Proof.
  intros Hq. unfold Purchase.save. cbn [snd].
  apply list_elem_of_fmap. by exists q.
Qed.

Lemma save_ids d c :
  (forall q, Purchase._id (Purchase.update (Purchase.preSave d) q) = Purchase._id q) ->
  Purchase._id <$> (Purchase.save d c).2 = Purchase._id <$> c.
Proof.
  intros Hid. unfold Purchase.save. cbn [snd].
  rewrite <- list_fmap_compose. apply list_fmap_ext. intros i q _. simpl.
  case_bool_decide; [apply Hid|done].
Qed.

Lemma save_Forall (P : Purchase.t -> Prop) d c :
  (forall q, q ∈ c ->
             Purchase._id q = Purchase._id (Purchase.doc (Purchase.preSave d)) ->
             P q -> P (Purchase.update (Purchase.preSave d) q)) ->
  Forall P c -> Forall P (Purchase.save d c).2.
Proof.
  intros Hf Hc. apply Forall_forall.
  intros q' [(q & Hq & Hid & ->)|[Hq _]]%save_elem.
  - apply Hf; [done..|]. by eapply Forall_forall in Hc.
  - by eapply Forall_forall in Hc.
Qed.

Lemma NoDup_fmap_eq {A B} (f : A -> B) (l : list A) x y :
  NoDup (f <$> l) -> x ∈ l -> y ∈ l -> f x = f y -> x = y.
Proof.
  induction l as [|a l IH]; simpl; [by intros _ ?%elem_of_nil|].
  intros [Ha Hnd]%NoDup_cons [->|Hx]%elem_of_cons [->|Hy]%elem_of_cons Hf; auto.
  - exfalso. apply Ha. rewrite Hf. by apply list_elem_of_fmap_2.
  - exfalso. apply Ha. rewrite <- Hf. by apply list_elem_of_fmap_2.
Qed.

Lemma insert_Some p c c' :
  Purchase.insert p c = Some c' ->
  (Purchase._id p ∉ Purchase._id <$> c)
  /\ c' = c ++ [Purchase.doc (Purchase.preSave (Purchase.loaded p))].
Proof.
  unfold Purchase.insert.
  destruct (Purchase.validate p); simpl; [|done].
  case_bool_decide; [|done]. by intros [= <-].
Qed.

Lemma findById_elem id c p :
  Purchase.findById id c = Some p -> p ∈ c /\ ObjectId_toString (Purchase._id p) = id.
Proof.
  unfold Purchase.findById. intros H%head_Some_elem_of.
  apply list_elem_of_filter in H as [??]. done.
Qed.

End Documents.

(** ** The decision of [processScrapingResult] and the purchase intents *)

Section Decision.
Import ScraperManager DecisionSpec.

Lemma triggerAutoPurchase_log sku website result newId now e :
  exists l,
    log (triggerAutoPurchase sku website result newId now e)
    = log e ++ [LogTriggering (SKU._id sku) (SKU.name website); l]
    /\ (l = LogPurchaseQueued newId \/ l = LogErrorTriggering).
Proof.
  unfold triggerAutoPurchase. case_match; simpl.
  - eexists. split; [by rewrite <- app_assoc|]. by left.
  - eexists. split; [by rewrite <- app_assoc|]. by right.
Qed.

Lemma processScrapingResult_newLines sku website result newId now e :
  LogTriggering (SKU._id sku) (SKU.name website)
  ∈ newLines e (processScrapingResult sku website result newId now e)
  <-> priceMeetsTarget sku result = true /\ autoPurchaseEnabled sku = true.
Proof.
  unfold newLines, processScrapingResult.
  destruct (priceMeetsTarget sku result) eqn:Hp,
           (autoPurchaseEnabled sku) eqn:Ha,
           (SKU.createdBy sku) as [u|];
    cbn [log info send with_results].
  1,2: match goal with
       | |- context [triggerAutoPurchase ?s ?w ?r ?i ?n ?e0] =>
           destruct (triggerAutoPurchase_log s w r i n e0) as (l & Hl & Hq);
           rewrite Hl
       end;
       cbn [log info send with_results];
       rewrite <- !app_assoc, drop_app_length;
       (split; [done|intros _]);
       cbn [app]; apply elem_of_cons; right; apply elem_of_cons; by left.
  all: rewrite <- ?app_assoc, drop_app_length; cbn [app].
  all: split; [|intros [[=] [=]]].
  all: intros Hin; repeat (apply elem_of_cons in Hin as [[=]|Hin]).
  all: by apply elem_of_nil in Hin.
Qed.

Lemma buys_iff sku website probe newId now e :
  buys sku website probe newId now e
  <-> exists result,
        succeeded probe result
        /\ priceMeetsTarget sku result = true
        /\ autoPurchaseEnabled sku = true.
Proof.
  unfold buys, succeeded, scrapeSingleProduct.
  destruct probe as [result|message].
  - destruct (ScrapeResult.success result) eqn:Hs; simpl.
    + rewrite processScrapingResult_newLines. split.
      * intros [??]. by exists result.
      * intros (r & [[= <-] _] & ? & ?). done.
    + unfold newLines. rewrite drop_all. split.
      * by intros ?%elem_of_nil.
      * intros (r & [[= <-] Hr] & _). congruence.
  - simpl. unfold newLines. rewrite drop_all. split.
    + by intros ?%elem_of_nil.
    + by intros (r & [[=] _] & _).
Qed.

(** C1, as the contract states it, fails for a free product: the probe
    succeeded, the product is in stock at price 0 <= 25, auto-purchase is
    on and confirmation is off, and yet no purchase is triggered. *)
Lemma decision_contract_fails_at_price_zero :
  succeeded (Resolved (probeAt 0)) (probeAt 0)
  /\ contract booster (probeAt 0)
  /\ ~ buys booster targetSite (Resolved (probeAt 0)) [Xa] 1000%Z emptyEnv.
Proof.
  split_and!; try done.
  rewrite buys_iff. intros (r & [[= <-] _] & Hp & _). by vm_compute in Hp.
Qed.

(** C1, amended.  A purchase is triggered iff the probe succeeded, the
    observed price is a number different from zero, it is at most the
    target price, the product is in stock, auto-purchase is enabled and
    confirmation is not required.  In particular every price with
    0 < price <= target is bought under those settings, and a price that is
    absent, not a number or zero never is. *)
Theorem decision_buy_iff sku website probe newId now e :
  (buys sku website probe newId now e
   <-> exists result,
         succeeded probe result
         /\ Js.truthy (ScrapeResult.price result) = true
         /\ contract sku result)
  /\ (forall result q,
        succeeded probe result ->
        ScrapeResult.price result = Js.Num q ->
        (0 < q)%Q -> (q <= SKU.targetPrice sku)%Q ->
        ScrapeResult.inStock result = true ->
        SKU.autoPurchase (SKU.purchaseSettings sku) = true ->
        SKU.requireConfirmation (SKU.purchaseSettings sku) = false ->
        buys sku website probe newId now e)
  /\ (forall result,
        succeeded probe result ->
        Js.truthy (ScrapeResult.price result) = false ->
        ~ buys sku website probe newId now e).
Proof.
  assert (Hiff : buys sku website probe newId now e
     <-> exists result,
         succeeded probe result
         /\ Js.truthy (ScrapeResult.price result) = true
         /\ contract sku result).
  { rewrite buys_iff. unfold contract, priceMeetsTarget, autoPurchaseEnabled.
    split; intros (r & Hs & H); exists r; (split; [done|]).
    - destruct H as [[[Ht Hl]%andb_true_iff Hi]%andb_true_iff
                       [Ha Hc%negb_true_iff]%andb_true_iff].
      done.
    - destruct H as (Ht & Hi & Hl & Ha & Hc).
      rewrite Ht, Hl, Hi, Ha, Hc. done. }
  split_and!; [done| |].
  - intros result q Hs Hq Hpos Hle Hi Ha Hc. apply Hiff. exists result.
    split; [done|]. unfold contract. rewrite Hq. simpl.
    split_and!; try done.
    + apply negb_true_iff. apply not_true_iff_false.
      intros Hz%Qeq_bool_iff. rewrite Hz in Hpos. by apply Qlt_irrefl in Hpos.
    + by apply Qle_bool_iff.
  - intros result [Hpr Hs] Hf (r & [Hpr' _] & Ht & _)%Hiff.
    rewrite Hpr in Hpr'. injection Hpr' as <-. congruence.
Qed.

(** C2, as stated, fails: two intents for the same (item, retailer) pair
    are both accepted, both purchases are pending, and the query of
    [processPendingPurchases] returns both of them. *)
Lemma duplicate_intent_accepted :
  let e1 := triggerAutoPurchase booster targetSite (probeAt 20) [Xa] 1000%Z emptyEnv in
  let e2 := triggerAutoPurchase booster targetSite (probeAt 20) [Xb] 2000%Z e1 in
  length (openFor (SKU._id booster) target (purchases e1)) = 1
  /\ length (openFor (SKU._id booster) target (purchases e2)) = 2
  /\ Purchase.status <$> purchases e2 = [Purchase.pending; Purchase.pending]
  /\ Purchase._id <$> PurchaseManager.findPending 3 (purchases e2) = [[Xa]; [Xb]]
  /\ LogErrorTriggering ∉ log e2.
Proof.
  split_and!; [by vm_compute..|].
  vm_compute. intros Hin.
  repeat (apply elem_of_cons in Hin as [[=]|Hin]). by apply elem_of_nil in Hin.
Qed.

(** C2, amended.  [triggerAutoPurchase] checks nothing about the purchases
    that exist: whenever the new document is valid for the schema (the item
    has an owner, the retailer entry has a URL, the quantity is at least one
    and the price is a number) and its fresh id is not yet in the
    collection, the call stores one more pending purchase for the pair,
    whatever the collection holds, so the number of non-terminal purchases
    of the pair grows by one with every intent. *)
Theorem intent_always_accepted sku website result newId now e :
  is_Some (SKU.createdBy sku) ->
  SKU.url website <> "" ->
  1 <= SKU.maxQuantity (SKU.purchaseSettings sku) ->
  Purchase.is_number (ScrapeResult.price result) = true ->
  newId ∉ Purchase._id <$> purchases e ->
  let e' := triggerAutoPurchase sku website result newId now e in
  exists p,
    purchases e' = purchases e ++ [p]
    /\ Purchase._id p = newId
    /\ Purchase.sku p = SKU._id sku
    /\ Purchase.name (Purchase.website p) = SKU.name website
    /\ Purchase.status p = Purchase.pending
    /\ length (openFor (SKU._id sku) (SKU.name website) (purchases e'))
       = S (length (openFor (SKU._id sku) (SKU.name website) (purchases e))).
Proof.
  intros Hby Hurl Hq Hnum Hfresh e'. subst e'. unfold triggerAutoPurchase.
  set (p := Purchase.new _ _ _ _ _ _).
  assert (Hv : Purchase.validate p = true).
  { unfold Purchase.validate, p. simpl.
    rewrite (bool_decide_eq_false_2 _ Hurl), Hnum.
    rewrite !bool_decide_eq_true_2 by done.
    by destruct (ScrapeResult.price result). }
  unfold Purchase.insert. cbn [purchases info].
  rewrite Hv, bool_decide_eq_true_2 by done. simpl.
  destruct (preSave_doc (Purchase.loaded p)) as (Hid & Hsku & Hw & Hs & _).
  eexists. split; [done|]. rewrite Hid, Hsku, Hw, Hs.
  split_and!; try done.
  unfold openFor. rewrite filter_app, length_app.
  rewrite filter_cons, decide_True; [simpl; lia|].
  rewrite Hsku, Hw, Hs. split_and!; try done. by left.
Qed.

Lemma intent_always_accepted_witness :
  let e1 := triggerAutoPurchase booster targetSite (probeAt 20) [Xa] 1000%Z emptyEnv in
  let e' := triggerAutoPurchase booster targetSite (probeAt 20) [Xb] 2000%Z e1 in
  is_Some (SKU.createdBy booster)
  /\ SKU.url targetSite <> ""
  /\ 1 <= SKU.maxQuantity (SKU.purchaseSettings booster)
  /\ Purchase.is_number (ScrapeResult.price (probeAt 20)) = true
  /\ ([Xb] ∉ Purchase._id <$> purchases e1)
  /\ exists p,
       purchases e' = purchases e1 ++ [p]
       /\ Purchase._id p = [Xb]
       /\ Purchase.sku p = SKU._id booster
       /\ Purchase.name (Purchase.website p) = SKU.name targetSite
       /\ Purchase.status p = Purchase.pending
       /\ length (openFor (SKU._id booster) (SKU.name targetSite) (purchases e'))
          = S (length (openFor (SKU._id booster) (SKU.name targetSite) (purchases e1))).
Proof.
  intros e1 e'.
  assert (H1 : is_Some (SKU.createdBy booster)) by (by eexists).
  assert (H2 : SKU.url targetSite <> "") by done.
  assert (H3 : 1 <= SKU.maxQuantity (SKU.purchaseSettings booster)) by (simpl; lia).
  assert (H4 : Purchase.is_number (ScrapeResult.price (probeAt 20)) = true) by reflexivity.
  assert (H5 : [Xb] ∉ Purchase._id <$> purchases e1).
  { vm_compute. intros [[=]|Hin%elem_of_nil]%elem_of_cons. done. }
  split_and!; try done.
  exact (intent_always_accepted booster targetSite (probeAt 20) [Xb] 2000%Z e1
           H1 H2 H3 H4 H5).
Defined.

End Decision.

(** ** The scheduler of the scraper manager *)

Section Scheduler.
Import ScraperManager SchedulerSpec.

Lemma step_jobs_follow_flag s ev : jobs_follow_flag s -> jobs_follow_flag (step s ev).
Proof.
  unfold jobs_follow_flag. intros H.
  destruct ev as [| |j now| |i]; simpl.
  - unfold start. by destruct (isRunning s) eqn:Hr; simpl; rewrite ?Hr.
  - done.
  - case_bool_decide; [|done].
    destruct j; simpl; [|done].
    unfold scrapeByPriority. by destruct (isRunning s) eqn:Hr; simpl; rewrite ?Hr.
  - unfold scrapeByPriority. by destruct (isRunning s) eqn:Hr; simpl; rewrite ?Hr.
  - done.
Qed.

Lemma run_jobs_follow_flag evs s : jobs_follow_flag s -> jobs_follow_flag (run evs s).
Proof.
  revert s. induction evs as [|ev evs IH]; intros s H; [done|].
  apply IH. by apply step_jobs_follow_flag.
Qed.

Lemma running_snoc p q l :
  length (filter (fun x => x = p) (l ++ [q]))
  = length (filter (fun x : SKU.Priority => x = p) l) + (if decide (q = p) then 1 else 0).
Proof.
  rewrite filter_app, length_app, filter_cons. by case_decide.
Qed.

(** C8, as stated, fails: two ticks of the fast tier in a row leave two
    calls of [scrapeByPriority('high')] running side by side; the second
    tick is not skipped. *)
Lemma overlapping_ticks_both_run :
  let s := run [Start; Due (ScrapeJob SKU.high) 300000%Z;
                Due (ScrapeJob SKU.high) 600000%Z] created in
  running SKU.high s = 2 /\ inFlight s = [SKU.high; SKU.high].
Proof. by vm_compute. Qed.

(** C8, amended.  In every state the manager can reach, a tick of a tier
    is gated by [isRunning] alone: while the manager runs, the tick starts
    one more call of [scrapeByPriority] for its tier, however many calls
    of that tier are still running; when it is stopped the tick changes
    nothing. *)
Theorem tick_gated_by_isRunning_only evs p now :
  let s := run evs created in
  let s' := step s (Due (ScrapeJob p) now) in
  if isRunning s then
    running p s' = S (running p s) /\ inFlight s' = inFlight s ++ [p]
  else s' = s.
Proof.
  intros s s'.
  assert (Hj : jobs_follow_flag s) by by apply run_jobs_follow_flag.
  unfold jobs_follow_flag in Hj. subst s'. simpl.
  destruct (isRunning s) eqn:Hr.
  - rewrite Hj, bool_decide_eq_true_2.
    + simpl. unfold scrapeByPriority. rewrite Hr. simpl. split; [|done].
      unfold running. simpl. rewrite running_snoc, decide_True by done. lia.
    + unfold registered. destruct p; set_solver.
  - rewrite Hj, bool_decide_eq_false_2; [done|]. set_solver.
Qed.

End Scheduler.

(** ** The automated purchase bot *)

Section Bot.
Import AutomatedPurchaseBot BotSpec.

Lemma executeAutomatedPurchase_record user sku cards website price checkType
    md urlData newId now store :
  match executeAutomatedPurchase user sku cards website price checkType md
          urlData newId now store with
  | (Some p, store') =>
      store' = store ++ [p] /\ bornSuccessful p /\ TestStorage.price p = price
      /\ TestStorage.realScraping p
         = match md with Some d => realData d | None => false end
  | (None, store') => store' = store
  end.
Proof.
  unfold executeAutomatedPurchase.
  repeat (case_match; simplify_eq/=); done.
Qed.

Lemma getMarketPrice_simulated enabled sku website scrape r1 r2 r3 now :
  enabled = false \/ scrapeFailed scrape ->
  getMarketPrice enabled sku website scrape r1 r2 r3 now
  = simulateMarketData (TestStorage.sku_targetPrice sku)
      (TestStorage.sku_maxPrice sku) website r1 r2 r3 now.
Proof.
  unfold getMarketPrice, scrapeFailed.
  intros [->|[->|(r & -> & [Hs|Hp])]]; [done|by destruct enabled|..];
    destruct enabled; simpl; rewrite ?Hs, ?Hp, ?andb_false_r; done.
Qed.

(** C10.  Whatever [executeAutomatedPurchase] adds to the ledger of the
    bot is one new record whose status is "success" from the moment it is
    stored, with quantity 1 and the price it was called with; the records
    already stored are left as they are, and no state of a purchaser or of
    the purchase executor takes part.  The loop of [checkSKUForPurchase]
    passes the price of [getMarketPrice]; when real scraping is disabled,
    throws, reports failure or yields no price, that price is the one
    [simulateMarketPrice] draws from [Math.random()], and the record is
    marked as not scraped. *)
Theorem bot_records_success_directly user sku cards checkType website scrape
    r1 r2 r3 urlData newId now b :
  (forall price md store,
      match executeAutomatedPurchase user sku cards website price checkType md
              urlData newId now store with
      | (Some p, store') =>
          store' = store ++ [p] /\ bornSuccessful p /\ TestStorage.price p = price
      | (None, store') => store' = store
      end)
  /\ (let b' := checkWebsite user sku cards checkType website scrape r1 r2 r3
                  urlData newId now b in
      testPurchases b' = testPurchases b
      \/ exists p,
           testPurchases b' = testPurchases b ++ [p]
           /\ bornSuccessful p
           /\ TestStorage.price p
              = price (getMarketPrice (realScrapingEnabled b) sku website scrape
                         r1 r2 r3 now)
           /\ (realScrapingEnabled b = false \/ scrapeFailed scrape ->
               TestStorage.price p
               = Js.Num (simulateMarketPrice (TestStorage.sku_targetPrice sku)
                           (TestStorage.sku_maxPrice sku) r1 r2)
               /\ TestStorage.realScraping p = false)).
Proof.
  split.
  - intros price md store.
    pose proof (executeAutomatedPurchase_record user sku cards website price
                  checkType md urlData newId now store) as H.
    destruct (executeAutomatedPurchase _ _ _ _ _ _ _ _ _ _ _) as [[p|] store'];
      [|done].
    by destruct H as (? & ? & ? & _).
  - intros b'. subst b'. unfold checkWebsite.
    set (md := getMarketPrice _ _ _ _ _ _ _ _).
    destruct (Js.le (price md) _ && inStock md); [|by left].
    match goal with |- context [if ?c then b else _] => destruct c end; [by left|].
    pose proof (executeAutomatedPurchase_record user sku cards website (price md)
                  checkType (Some md) urlData newId now (testPurchases b)) as H.
    destruct (executeAutomatedPurchase _ _ _ _ _ _ _ _ _ _ _) as [[p|] store'];
      simpl; [|by left].
    destruct H as (-> & Hb & Hp & Hr). right. exists p.
    split_and!; try done.
    intros Hsim. subst md. rewrite Hp, Hr.
    by rewrite getMarketPrice_simulated.
Qed.

End Bot.

(** ** The purchase executor: sample executions *)

Section ExecutorRuns.
Import PurchaseManager ExecutorSpec.

Example threeFailures_summary :
  (fun p => (Purchase.status p,
             Purchase.attemptNumber (Purchase.attemptInfo p),
             length (Purchase.errors p)))
    <$> database (run threeFailures created)
  = [(Purchase.failed, 4, 3)].
Proof. by vm_compute. Qed.

Example overCapacity_summary :
  (fun p => (idOf p, Purchase.status p)) <$> database (run overCapacity created)
  = [("a", Purchase.pending); ("b", Purchase.processing);
     ("c", Purchase.processing); ("d", Purchase.processing);
     ("e", Purchase.processing)].
Proof. by vm_compute. Qed.

End ExecutorRuns.
(** ** The purchase executor: the documents of one attempt *)

Section Attempt.
Import PurchaseManager ExecutorSpec HandlerSpec.

Lemma handlePurchaseError_core purchase error now :
  let d := handlePurchaseError purchase error now in
  let d0 := failureCore purchase error now in
  unchanged_but_details (Purchase.doc (Purchase.preSave d)) (Purchase.doc d0)
  /\ forall q, unchanged_but_details (Purchase.update (Purchase.preSave d) q)
                                     (Purchase.update d0 q).
Proof.
  intros d d0.
  destruct (notification_keeps Purchase.n_failure now d0) as [H1 H2].
  split.
  - eapply unchanged_trans; [apply preSave_doc|exact H1].
  - intros q. eapply unchanged_trans; [apply preSave_update|apply H2].
Qed.

Lemma handlePurchaseSuccess_core purchase result now :
  let d := handlePurchaseSuccess purchase result now in
  let d0 := successCore purchase in
  unchanged_but_details (Purchase.doc (Purchase.preSave d)) (Purchase.doc d0)
  /\ forall q, unchanged_but_details (Purchase.update (Purchase.preSave d) q)
                                     (Purchase.update d0 q).
Proof.
  intros d d0. unfold d, handlePurchaseSuccess.
  set (d1 := Purchase.assign same Purchase.status _ _ _).
  set (d2 := Purchase.assign same Purchase.orderInfo _ _ d1).
  set (d3 := Purchase.assign same _ Purchase.with_transactionId _ d2).
  set (d4 := Purchase.assign same _ Purchase.with_paymentStatus _ d3).
  destruct (notification_keeps Purchase.n_success now d4) as [H5 H5'].
  destruct (assign_keeps same (fun p => Purchase.paymentStatus (Purchase.paymentInfo p))
              Purchase.with_paymentStatus Purchase.captured d3) as [H4 H4']; [done|].
  destruct (assign_keeps same (fun p => Purchase.transactionId (Purchase.paymentInfo p))
              Purchase.with_transactionId (r_transactionId result) d2) as [H3 H3'];
    [done|].
  destruct (assign_keeps same Purchase.orderInfo Purchase.with_orderInfo
              (Some (Purchase.mkOrderInfo (r_orderId result)
                       (r_confirmationNumber result) (r_trackingNumber result)
                       (r_estimatedDelivery result))) d1) as [H2 H2']; [done|].
  split.
  - eapply unchanged_trans; [apply preSave_doc|].
    eapply unchanged_trans; [exact H5|]. eapply unchanged_trans; [exact H4|].
    eapply unchanged_trans; [exact H3|exact H2].
  - intros q. eapply unchanged_trans; [apply preSave_update|].
    eapply unchanged_trans; [apply H5'|]. eapply unchanged_trans; [apply H4'|].
    eapply unchanged_trans; [apply H3'|apply H2'].
Qed.

(** What the pickup does to the copy in memory and to a stored
    document. *)
Lemma pickup_doc purchase now :
  let p' := Purchase.doc (Purchase.preSave (pickup purchase now)) in
  Purchase._id p' = Purchase._id purchase
  /\ Purchase.website p' = Purchase.website purchase
  /\ Purchase.status p' = Purchase.processing
  /\ Purchase.attemptInfo p'
     = Purchase.mkAttemptInfo
         (Purchase.attemptNumber (Purchase.attemptInfo purchase)) now
         (Purchase.maxAttempts (Purchase.attemptInfo purchase)).
Proof.
  intros p'; subst p'. destruct (preSave_doc (pickup purchase now))
    as (-> & _ & -> & -> & -> & _).
  unfold pickup. unfold_doc. by case_bool_decide.
Qed.

Lemma pickup_update purchase now q :
  let q' := Purchase.update (Purchase.preSave (pickup purchase now)) q in
  Purchase._id q' = Purchase._id q
  /\ Purchase.website q' = Purchase.website q
  /\ Purchase.attemptInfo q'
     = Purchase.mkAttemptInfo
         (Purchase.attemptNumber (Purchase.attemptInfo q)) now
         (Purchase.maxAttempts (Purchase.attemptInfo q))
  /\ (Purchase.status purchase <> Purchase.processing ->
      Purchase.status q' = Purchase.processing)
  /\ (Purchase.status q' = Purchase.processing \/ Purchase.status q' = Purchase.status q).
Proof.
  intros q'; subst q'. destruct (preSave_update (pickup purchase now) q)
    as (-> & _ & -> & -> & -> & _).
  unfold pickup. unfold_doc. case_bool_decide; simpl; split_and!; auto; done.
Qed.

(** What a failed attempt does. *)
Lemma failure_doc purchase error now :
  let p' := Purchase.doc (Purchase.preSave
                            (handlePurchaseError (Purchase.loaded purchase) error now)) in
  Purchase._id p' = Purchase._id purchase
  /\ Purchase.website p' = Purchase.website purchase
  /\ Purchase.attemptInfo p'
     = Purchase.mkAttemptInfo
         (Purchase.attemptNumber (Purchase.attemptInfo purchase) + 1)
         (Purchase.lastAttempt (Purchase.attemptInfo purchase))
         (Purchase.maxAttempts (Purchase.attemptInfo purchase))
  /\ Purchase.errors p'
     = Purchase.errors purchase
       ++ [Purchase.mkError error now "PURCHASE_FAILED" Purchase.high]
  /\ Purchase.status p' = statusAfterFailure purchase.
Proof.
  intros p'; subst p'.
  destruct (handlePurchaseError_core (Purchase.loaded purchase) error now)
    as [(-> & _ & -> & -> & -> & -> & _) _].
  unfold failureCore, statusAfterFailure. unfold_doc. simpl.
  rewrite (bool_decide_eq_false_2
             (Purchase.attemptNumber (Purchase.attemptInfo purchase)
              = Purchase.attemptNumber (Purchase.attemptInfo purchase) + 1)) by lia.
  simpl. case_bool_decide; simpl; case_bool_decide; by simpl.
Qed.

Lemma failure_update purchase error now q :
  let q' := Purchase.update (Purchase.preSave
              (handlePurchaseError (Purchase.loaded purchase) error now)) q in
  Purchase._id q' = Purchase._id q
  /\ Purchase.website q' = Purchase.website q
  /\ Purchase.attemptInfo q'
     = Purchase.mkAttemptInfo
         (Purchase.attemptNumber (Purchase.attemptInfo purchase) + 1)
         (Purchase.lastAttempt (Purchase.attemptInfo q))
         (Purchase.maxAttempts (Purchase.attemptInfo q))
  /\ Purchase.errors q'
     = Purchase.errors q
       ++ [Purchase.mkError error now "PURCHASE_FAILED" Purchase.high]
  /\ Purchase.status q'
     = if bool_decide (Purchase.status purchase = statusAfterFailure purchase)
       then Purchase.status q else statusAfterFailure purchase.
Proof.
  intros q'; subst q'.
  destruct (handlePurchaseError_core (Purchase.loaded purchase) error now)
    as [_ H]. destruct (H q) as (-> & _ & -> & -> & -> & -> & _). clear H.
  unfold failureCore, statusAfterFailure. unfold_doc. simpl.
  rewrite (bool_decide_eq_false_2
             (Purchase.attemptNumber (Purchase.attemptInfo purchase)
              = Purchase.attemptNumber (Purchase.attemptInfo purchase) + 1)) by lia.
  simpl. case_bool_decide; simpl; case_bool_decide; by simpl.
Qed.

(** What a successful attempt does. *)
Lemma success_doc purchase result now :
  let p' := Purchase.doc (Purchase.preSave
              (handlePurchaseSuccess (Purchase.loaded purchase) result now)) in
  Purchase._id p' = Purchase._id purchase
  /\ Purchase.status p' = Purchase.success
  /\ Purchase.attemptInfo p' = Purchase.attemptInfo purchase.
Proof.
  intros p'; subst p'.
  destruct (handlePurchaseSuccess_core (Purchase.loaded purchase) result now)
    as [(-> & _ & _ & -> & -> & _) _].
  unfold successCore. unfold_doc. by case_bool_decide.
Qed.

Lemma success_update purchase result now q :
  let q' := Purchase.update (Purchase.preSave
              (handlePurchaseSuccess (Purchase.loaded purchase) result now)) q in
  Purchase._id q' = Purchase._id q
  /\ Purchase.website q' = Purchase.website q
  /\ Purchase.attemptInfo q' = Purchase.attemptInfo q
  /\ Purchase.status q'
     = if bool_decide (Purchase.status purchase = Purchase.success)
       then Purchase.status q else Purchase.success.
Proof.
  intros q'; subst q'.
  destruct (handlePurchaseSuccess_core (Purchase.loaded purchase) result now)
    as [_ H]. destruct (H q) as (-> & _ & -> & -> & -> & _). clear H.
  unfold successCore. unfold_doc. by case_bool_decide.
Qed.

(** What a cancellation does. *)
Lemma cancellation_doc purchase :
  Purchase.status purchase <> Purchase.cancelled ->
  let p' := Purchase.doc (Purchase.preSave (cancellation purchase)) in
  p' = Purchase.doc (Purchase.preSave
                       (Purchase.loaded (Purchase.with_status Purchase.cancelled purchase)))
  /\ Purchase._id p' = Purchase._id purchase
  /\ Purchase.status p' = Purchase.cancelled.
Proof.
  intros Hs p'. subst p'. unfold cancellation. unfold_doc.
  rewrite (bool_decide_eq_false_2 _ Hs). simpl.
  by repeat case_match.
Qed.

Lemma cancellation_update purchase q :
  Purchase.status purchase <> Purchase.cancelled ->
  let q' := Purchase.update (Purchase.preSave (cancellation purchase)) q in
  Purchase._id q' = Purchase._id q
  /\ Purchase.website q' = Purchase.website q
  /\ Purchase.attemptInfo q' = Purchase.attemptInfo q
  /\ Purchase.status q' = Purchase.cancelled.
Proof.
  intros Hs q'; subst q'. destruct (preSave_update (cancellation purchase) q)
    as (-> & _ & -> & -> & -> & _).
  unfold cancellation. unfold_doc. by rewrite (bool_decide_eq_false_2 _ Hs).
Qed.

Lemma beginPurchase_Return purchase now m p' m' :
  beginPurchase purchase now m = Return (p', m') ->
  is_Some (purchaserOf (purchasers m) (Purchase.name (Purchase.website purchase)))
  /\ p' = Purchase.doc (Purchase.preSave (pickup purchase now))
  /\ m' = with_active
            (<[idOf purchase := Purchase.name (Purchase.website purchase)]>
               (activePurchases m))
            (with_database (Purchase.save (pickup purchase now) (database m)).2 m).
Proof.
  unfold beginPurchase. destruct (purchaserOf _ _) eqn:Hp; [|done].
  fold (pickup purchase now). rewrite (surjective_pairing (Purchase.save _ _)).
  rewrite save_doc. intros [= <- <-]. split; [by eexists|]. split; [done|].
  destruct (pickup_doc purchase now) as (Hid & _).
  assert (idOf (Purchase.doc (Purchase.preSave (pickup purchase now)))
          = idOf purchase) as -> by (unfold idOf; by rewrite Hid).
  done.
Qed.

Lemma endPurchase_eq p o now m :
  let d :=
    match o with
    | Succeeded result => handlePurchaseSuccess (Purchase.loaded p) result now
    | Failed error => handlePurchaseError (Purchase.loaded p) error now
    end in
  endPurchase p o now m
  = with_active (delete (idOf p) (activePurchases m))
      (with_database (Purchase.save d (database m)).2 m).
Proof.
  intros d. unfold endPurchase. fold d.
  assert (Hid : idOf (Purchase.doc (Purchase.preSave d)) = idOf p).
  { unfold idOf, d. destruct o as [result|error].
    - by destruct (success_doc p result now) as [-> _].
    - by destruct (failure_doc p error now) as [-> _]. }
  change (Purchase.save d (database m))
    with (Purchase.doc (Purchase.preSave d), (Purchase.save d (database m)).2).
  cbn beta iota. by rewrite Hid.
Qed.

Lemma cancelPurchase_accepted purchaseId m p :
  Purchase.findById purchaseId (database m) = Some p ->
  ~ (Purchase.status p = Purchase.success \/ Purchase.status p = Purchase.cancelled) ->
  cancelPurchase purchaseId m
  = (Return (Purchase.doc (Purchase.preSave (cancellation p))),
     let m' := with_database (Purchase.save (cancellation p) (database m)).2 m in
     match activePurchases m !! purchaseId with
     | Some w =>
         with_active (delete purchaseId (activePurchases m))
           (with_purchasers (onPurchaser BasePurchaser.cancel w (purchasers m)) m')
     | None => m'
     end).
Proof.
  intros Hp Hs. unfold cancelPurchase.
  rewrite Hp, bool_decide_eq_false_2 by done. reflexivity.
Qed.

End Attempt.

(** ** The purchase executor: pickup, retry and capacity *)

Section Pickup.
Import PurchaseManager ExecutorSpec HandlerSpec.

(** C5, as stated, fails: the pickup of a fresh purchase turns it to
    [processing] and stamps the time, and its attempt number is still the
    1 it was created with. *)
Lemma pickup_does_not_count :
  let before := run [Start; intent [Xa] 0%Z; ProcessPending 30000%Z] created in
  let after := step before (Resume 0 30001%Z) in
  (fun p => (Purchase.status p, Purchase.attemptInfo p)) <$> stored "a" before
  = Some (Purchase.pending, Purchase.mkAttemptInfo 1 0%Z 3)
  /\ (fun p => (Purchase.status p, Purchase.attemptInfo p)) <$> stored "a" after
     = Some (Purchase.processing, Purchase.mkAttemptInfo 1 30001%Z 3).
Proof. by vm_compute. Qed.

(** C5, amended.  Every transition from [pending] into [processing]
    stamps the time of the pickup on the document, in memory and in the
    collection, before the purchaser runs, and registers the purchase as
    active; it leaves the attempt number as it was, in memory and in the
    collection.  The attempt number is incremented afterwards, by
    [handlePurchaseError], when the attempt has failed. *)
Theorem pickup_stamps_and_failure_counts purchase now m p' m' :
  beginPurchase purchase now m = Return (p', m') ->
  Purchase.status purchase = Purchase.pending ->
  (Purchase.status p' = Purchase.processing
   /\ Purchase.lastAttempt (Purchase.attemptInfo p') = now
   /\ Purchase.attemptNumber (Purchase.attemptInfo p')
      = Purchase.attemptNumber (Purchase.attemptInfo purchase))
  /\ (forall q', q' ∈ database m' -> Purchase._id q' = Purchase._id purchase ->
        exists q, q ∈ database m
          /\ Purchase._id q = Purchase._id purchase
          /\ Purchase.status q' = Purchase.processing
          /\ Purchase.lastAttempt (Purchase.attemptInfo q') = now
          /\ Purchase.attemptNumber (Purchase.attemptInfo q')
             = Purchase.attemptNumber (Purchase.attemptInfo q))
  /\ activePurchases m' !! idOf purchase
     = Some (Purchase.name (Purchase.website purchase))
  /\ (forall error later,
        Purchase.attemptNumber
          (Purchase.attemptInfo
             (Purchase.doc (Purchase.preSave
                (handlePurchaseError (Purchase.loaded p') error later))))
        = Purchase.attemptNumber (Purchase.attemptInfo purchase) + 1).
Proof.
  intros (_ & -> & ->)%beginPurchase_Return Hs.
  destruct (pickup_doc purchase now) as (Hid & Hw & Hst & Ha).
  split_and!.
  - done.
  - by rewrite Ha.
  - by rewrite Ha.
  - intros q' Hq' Hidq. simpl in Hq'.
    apply save_elem in Hq' as [(q & Hq & Hqid & ->)|[_ Hne]];
      [|by rewrite Hid in Hne].
    destruct (pickup_update purchase now q) as (Hid' & _ & Ha' & Hst' & _).
    exists q. rewrite Ha'. split_and!; try done.
    + by rewrite <- Hid'.
    + apply Hst'. by rewrite Hs.
  - simpl. apply lookup_insert_eq.
  - intros error later.
    destruct (failure_doc (Purchase.doc (Purchase.preSave (pickup purchase now)))
                error later) as (_ & _ & -> & _).
    by rewrite Ha.
Qed.

Lemma pickup_stamps_and_failure_counts_witness :
  let m := run [Start; intent [Xa] 0%Z; ProcessPending 30000%Z] created in
  exists purchase p' m',
    stored "a" m = Some purchase
    /\ beginPurchase purchase 30001%Z m = Return (p', m')
    /\ Purchase.status purchase = Purchase.pending
    /\ Purchase.status p' = Purchase.processing
    /\ Purchase.lastAttempt (Purchase.attemptInfo p') = 30001%Z
    /\ Purchase.attemptNumber (Purchase.attemptInfo p')
       = Purchase.attemptNumber (Purchase.attemptInfo purchase).
Proof.
  intros m.
  destruct (stored "a" m) as [purchase|] eqn:Hp; [|by vm_compute in Hp].
  assert (Hs : Purchase.status purchase = Purchase.pending).
  { vm_compute in Hp. by injection Hp as <-. }
  destruct (beginPurchase purchase 30001%Z m) as [[p' m']|msg] eqn:Hb.
  - exists purchase, p', m'. split; [done|]. split; [done|]. split; [done|].
    exact (proj1 (pickup_stamps_and_failure_counts purchase 30001%Z m p' m' Hb Hs)).
  - exfalso. vm_compute in Hp. injection Hp as <-. by vm_compute in Hb.
Defined.

(** C6 at the failing input.  A purchase fails its first attempt, which
    was picked up at 30001 ms; it is back in [pending] with attempt number
    2.  The query of [retryFailedPurchases] leaves it alone until ten
    minutes have passed, but the next tick of [processPendingPurchases],
    thirty seconds after the failed pickup, selects it and starts the
    second attempt. *)
Theorem retry_without_cooldown :
  let m1 := run failedOnce created in
  let m2 := run pickedUpAgain created in
  (fun p => (Purchase.status p, Purchase.attemptInfo p, length (Purchase.errors p)))
    <$> stored "a" m1
  = Some (Purchase.pending, Purchase.mkAttemptInfo 2 30001%Z 3, 1)
  /\ findRetry 60000%Z (database m1) = []
  /\ (idOf <$> findPending 3 (database m1)) = ["a"]
  /\ (fun p => (Purchase.status p, Purchase.attemptInfo p)) <$> stored "a" m2
     = Some (Purchase.processing, Purchase.mkAttemptInfo 2 60001%Z 3)
  /\ (60001 - 30001 < tenMinutes)%Z.
Proof. by vm_compute. Qed.

(** C4 at the failing input.  After the execution [overCapacity] four
    purchases are stored as [processing] and four are registered as
    active, with a capacity of three. *)
Theorem capacity_exceeded :
  let m := run overCapacity created in
  maxConcurrentPurchases = 3
  /\ processingCount m = 4
  /\ size (activePurchases m) = 4
  /\ (fun p => (idOf p, Purchase.status p)) <$> database m
     = [("a", Purchase.pending); ("b", Purchase.processing);
        ("c", Purchase.processing); ("d", Purchase.processing);
        ("e", Purchase.processing)].
Proof. by vm_compute. Qed.

End Pickup.

(** ** The purchase executor: what the collection and the calls keep *)

Section Bookkeeping.
Import PurchaseManager ExecutorSpec HandlerSpec.

Lemma advances_refl c : advances c c.
Proof. by split_and!. Qed.

Lemma stored_ok_attemptInfo q q' :
  Purchase.maxAttempts (Purchase.attemptInfo q')
  = Purchase.maxAttempts (Purchase.attemptInfo q) ->
  Purchase.attemptNumber (Purchase.attemptInfo q') <= 4 ->
  stored_ok q -> stored_ok q'.
Proof. unfold stored_ok. intros Hm Hn [H3 _]. rewrite Hm, H3. split; [done|lia]. Qed.

Lemma save_counterpart d c p :
  keeps_identity d -> counterpart c p -> counterpart (Purchase.save d c).2 p.
Proof.
  intros Hk (q & Hq & Hid & Hw).
  eexists. split; [by apply (save_elem_of q d c)|].
  case_bool_decide; [|done]. destruct (Hk q) as [-> ->]. done.
Qed.

Lemma save_advances d c :
  keeps_identity d ->
  (forall q, stored_ok q -> stored_ok (Purchase.update (Purchase.preSave d) q)) ->
  advances c (Purchase.save d c).2.
Proof.
  intros Hk Hs. split_and!.
  - apply save_Forall. intros q _ _. apply Hs.
  - rewrite save_ids; [done|]. intros q. apply Hk.
  - intros p. by apply save_counterpart.
Qed.

Lemma pickup_keeps purchase now : keeps_identity (pickup purchase now).
Proof. intros q. by destruct (pickup_update purchase now q) as (? & ? & _). Qed.

Lemma failure_keeps purchase error now :
  keeps_identity (handlePurchaseError (Purchase.loaded purchase) error now).
Proof. intros q. by destruct (failure_update purchase error now q) as (? & ? & _). Qed.

Lemma success_keeps purchase result now :
  keeps_identity (handlePurchaseSuccess (Purchase.loaded purchase) result now).
Proof. intros q. by destruct (success_update purchase result now q) as (? & ? & _). Qed.

Lemma cancellation_keeps purchase :
  Purchase.status purchase <> Purchase.cancelled ->
  keeps_identity (cancellation purchase).
Proof.
  intros Hs q. by destruct (cancellation_update purchase q Hs) as (? & ? & _).
Qed.

Lemma pickup_advances purchase now c :
  advances c (Purchase.save (pickup purchase now) c).2.
Proof.
  apply save_advances; [apply pickup_keeps|]. intros q Hq.
  destruct (pickup_update purchase now q) as (_ & _ & Ha & _).
  eapply stored_ok_attemptInfo; [| |exact Hq]; rewrite Ha; simpl; [done|].
  destruct Hq as [H3 Hle]. lia.
Qed.

Lemma failure_advances purchase error now c :
  copy_ok purchase ->
  advances c (Purchase.save
                (handlePurchaseError (Purchase.loaded purchase) error now) c).2.
Proof.
  intros Hp. apply save_advances; [apply failure_keeps|]. intros q Hq.
  destruct (failure_update purchase error now q) as (_ & _ & Ha & _).
  eapply stored_ok_attemptInfo; [| |exact Hq]; rewrite Ha; simpl; [done|].
  unfold copy_ok in Hp. lia.
Qed.

Lemma success_advances purchase result now c :
  advances c (Purchase.save
                (handlePurchaseSuccess (Purchase.loaded purchase) result now) c).2.
Proof.
  apply save_advances; [apply success_keeps|]. intros q Hq.
  destruct (success_update purchase result now q) as (_ & _ & Ha & _).
  unfold stored_ok. by rewrite Ha.
Qed.

Lemma cancellation_advances purchase c :
  Purchase.status purchase <> Purchase.cancelled ->
  advances c (Purchase.save (cancellation purchase) c).2.
Proof.
  intros Hs. apply save_advances; [by apply cancellation_keeps|]. intros q Hq.
  destruct (cancellation_update purchase q Hs) as (_ & _ & Ha & _).
  unfold stored_ok. by rewrite Ha.
Qed.

Lemma insert_advances id now sku w d by_ c c' :
  Purchase.insert (Purchase.new id now sku w d by_) c = Some c' -> advances c c'.
Proof.
  intros [Hfresh ->]%insert_Some.
  destruct (preSave_doc (Purchase.loaded (Purchase.new id now sku w d by_)))
    as (Hid & _ & _ & _ & Ha & _).
  split_and!.
  - intros Hc. apply Forall_app. split; [done|]. apply Forall_singleton.
    unfold stored_ok. rewrite Ha. simpl. split; [done|lia].
  - intros Hnd. rewrite fmap_app. apply NoDup_app. split_and!; [done| |].
    + intros x Hx Hx'. simpl in Hx'. apply list_elem_of_singleton in Hx'.
      subst x. rewrite Hid in Hx. by apply Hfresh.
    + simpl. apply NoDup_singleton.
  - intros p (q & Hq & Hq'). exists q. split; [|done].
    apply elem_of_app. by left.
Qed.

(** The queries return stored purchases that are [pending] with an
    attempt number up to 3. *)
Lemma findPending_elem n c p :
  p ∈ findPending n c ->
  p ∈ c /\ Purchase.status p = Purchase.pending /\ copy_ok p.
Proof.
  unfold findPending. intros Hin.
  apply list_elem_of_lookup_1 in Hin as [i Hin].
  apply lookup_take_Some in Hin as [Hin _].
  apply list_elem_of_lookup_2, list_elem_of_filter in Hin as [[Hs Hn] Hp]. done.
Qed.

Lemma findRetry_elem now c p :
  p ∈ findRetry now c ->
  p ∈ c /\ Purchase.status p = Purchase.pending /\ copy_ok p.
Proof.
  unfold findRetry. intros [(Hs & [_ Hn] & _) Hp]%list_elem_of_filter. done.
Qed.

Lemma fetched_run_ok k c l :
  (forall p, p ∈ l -> p ∈ c /\ Purchase.status p = Purchase.pending /\ copy_ok p) ->
  run_ok (mkRun k None l) /\ run_linked c (mkRun k None l).
Proof.
  intros Hl. split.
  - split; [|by intros p [=]]. simpl. apply Forall_forall.
    intros p (_ & Hs & Hc)%Hl. done.
  - unfold run_linked, copies. simpl. rewrite app_nil_r. apply Forall_forall.
    intros p (Hp & _)%Hl. by exists p.
Qed.

Lemma run_linked_advances c c' r :
  advances c c' -> run_linked c r -> run_linked c' r.
Proof.
  intros (_ & _ & Hc) Hr. unfold run_linked in *.
  eapply Forall_impl; [exact Hr|exact Hc].
Qed.

(** One call goes on by one purchase. *)
Lemma resume_sound r now m :
  run_ok r -> run_linked (database m) r ->
  run_ok (resume r now m).1
  /\ advances (database m) (database (resume r now m).2)
  /\ run_linked (database (resume r now m).2) (resume r now m).1
  /\ runs (resume r now m).2 = runs m.
Proof.
  intros Hr Hl. pose proof Hr as [Htodo Hcur]. unfold resume.
  destruct (current r) as [p0|] eqn:Hc;
    [simpl; split_and!; try done; apply advances_refl|].
  destruct (todo r) as [|purchase rest] eqn:Ht;
    [simpl; split_and!; try done; apply advances_refl|].
  apply Forall_cons in Htodo as [[Hp Hs] Hrest].
  unfold run_linked, copies in Hl. rewrite Hc, Ht in Hl. simpl in Hl.
  rewrite app_nil_r in Hl. apply Forall_cons in Hl as [Hlp Hlrest].
  assert (Hskip : forall k l, l = rest \/ l = [] ->
            run_ok (mkRun k None l) /\ run_linked (database m) (mkRun k None l)).
  { intros k l Hl. split.
    - split; [|by intros p [=]]. simpl. by destruct Hl as [->| ->].
    - unfold run_linked, copies. simpl. rewrite app_nil_r.
      by destruct Hl as [->| ->]. }
  assert (Hbegin : forall k,
    match beginPurchase purchase now m with
    | Return (p', m') =>
        run_ok (mkRun k (Some p') rest)
        /\ advances (database m) (database m')
        /\ run_linked (database m') (mkRun k (Some p') rest)
        /\ runs m' = runs m
    | Throw _ => True
    end).
  { intros k. destruct (beginPurchase purchase now m) as [[p' m']|] eqn:Hb; [|done].
    apply beginPurchase_Return in Hb as (_ & -> & ->).
    destruct (pickup_doc purchase now) as (Hid & Hw & Hst & Ha).
    pose proof (pickup_advances purchase now (database m)) as Hadv.
    split_and!; [|done| |done].
    - split; [done|]. intros p [= <-]. split; [|done].
      unfold copy_ok. by rewrite Ha.
    - unfold run_linked, copies. cbn [todo current option_list database
        with_active with_database].
      apply Forall_app. split.
      + eapply Forall_impl; [exact Hlrest|apply Hadv].
      + apply Forall_singleton.
        destruct Hadv as (_ & _ & Hadv). destruct (Hadv _ Hlp) as (q & Hq & Hqi & Hqw).
        exists q. by rewrite Hid, Hw. }
  destruct (kind r).
  - specialize (Hbegin PendingRun).
    destruct (beginPurchase purchase now m) as [[p' m']|message]; [done|].
    pose proof (failure_advances purchase message now (database m) Hp) as Hadv.
    destruct (Hskip PendingRun rest) as [Hr' Hl']; [by left|].
    simpl. split_and!; [done|done| |done].
    by eapply run_linked_advances.
  - specialize (Hbegin RetryRun). case_bool_decide.
    + destruct (beginPurchase purchase now m) as [[p' m']|message]; [done|].
      destruct (Hskip RetryRun []) as [Hr' Hl']; [by right|].
      simpl. split_and!; [done|apply advances_refl|done|done].
    + destruct (Hskip RetryRun rest) as [Hr' Hl']; [by left|].
      simpl. split_and!; [done|apply advances_refl|done|done].
Qed.

Lemma settle_sound r o now m :
  run_ok r -> run_linked (database m) r ->
  run_ok (settle r o now m).1
  /\ advances (database m) (database (settle r o now m).2)
  /\ run_linked (database (settle r o now m).2) (settle r o now m).1
  /\ runs (settle r o now m).2 = runs m.
Proof.
  intros Hr Hl. pose proof Hr as [Htodo Hcur]. unfold settle.
  destruct (current r) as [p|] eqn:Hc;
    [|simpl; split_and!; try done; apply advances_refl].
  destruct (Hcur p eq_refl) as [Hp Hs].
  assert (Hadv : advances (database m) (database (endPurchase p o now m))).
  { unfold endPurchase.
    destruct o; [apply success_advances|by apply failure_advances]. }
  cbn [fst snd]. split_and!; [|done| |by destruct o].
  - split; [done|]. by intros q [=].
  - eapply run_linked_advances; [done|].
    unfold run_linked, copies in *. rewrite Hc in Hl. simpl. rewrite app_nil_r.
    by apply Forall_app in Hl as [Hl _].
Qed.

Lemma advances_sound c' m :
  advances (database m) c' ->
  ledger_ok m /\ linked m ->
  ledger_ok (with_database c' m) /\ linked (with_database c' m).
Proof.
  intros Hadv [[Hdb Hruns] [Hnd Hl]]. pose proof Hadv as (H1 & H2 & H3).
  split; split; simpl; auto.
  eapply Forall_impl; [exact Hl|]. intros r. by apply run_linked_advances.
Qed.

Lemma fetched_sound r m :
  run_ok r -> run_linked (database m) r ->
  ledger_ok m /\ linked m ->
  ledger_ok (with_runs (runs m ++ [r]) m) /\ linked (with_runs (runs m ++ [r]) m).
Proof.
  intros Hr Hlr [[Hdb Hruns] [Hnd Hl]].
  split; split; simpl; try done; apply Forall_app; split; try done;
    by apply Forall_singleton.
Qed.

Lemma onRun_sound i f m :
  (forall r m, run_ok r -> run_linked (database m) r ->
     run_ok (f r m).1
     /\ advances (database m) (database (f r m).2)
     /\ run_linked (database (f r m).2) (f r m).1
     /\ runs (f r m).2 = runs m) ->
  ledger_ok m /\ linked m ->
  ledger_ok (onRun i f m) /\ linked (onRun i f m).
Proof.
  intros Hf Hm. pose proof Hm as [[Hdb Hruns] [Hnd Hl]].
  unfold onRun. destruct (runs m !! i) as [r|] eqn:Hi; [|done].
  assert (Hr : run_ok r) by by eapply Forall_lookup_1 in Hruns.
  assert (Hlr : run_linked (database m) r) by by eapply Forall_lookup_1 in Hl.
  destruct (Hf r m Hr Hlr) as (Hr' & Hadv & Hlr' & Heq).
  destruct (f r m) as [r' m']. cbn [fst snd] in *.
  destruct (advances_sound _ m Hadv Hm) as [[Hdb' _] [Hnd' Hl']].
  simpl in *. rewrite Heq.
  split; split; simpl; try done; by apply Forall_insert.
Qed.

Lemma step_sound m ev :
  ledger_ok m /\ linked m -> ledger_ok (step m ev) /\ linked (step m ev).
Proof.
  intros Hm.
  destruct ev as [| |sku website result newId now|sku w user newId now|now|now
                  |i now|i o now|purchaseId]; simpl.
  - unfold start. by destruct (isRunning m).
  - done.
  - apply advances_sound; [|done].
    unfold ScraperManager.triggerAutoPurchase. simpl.
    destruct (Purchase.insert _ _) as [c|] eqn:Hi; simpl; [|apply advances_refl].
    by eapply insert_advances.
  - unfold manualPurchase.
    destruct sku as [sku|], user as [u|]; try done.
    destruct (head _); [|done].
    destruct (Purchase.insert _ _) as [c|] eqn:Hi; simpl; [|done].
    apply advances_sound; [|done]. by eapply insert_advances.
  - unfold processPendingPurchases.
    destruct (negb (isRunning m)); [done|]. case_bool_decide; [done|].
    destruct (findPending _ _) as [|p l] eqn:Hf; [done|].
    destruct (fetched_run_ok PendingRun (database m) (p :: l)) as [Hr Hl].
    { rewrite <- Hf. intros q. apply findPending_elem. }
    by apply fetched_sound.
  - unfold retryFailedPurchases.
    destruct (negb (isRunning m)); [done|].
    destruct (findRetry _ _) as [|p l] eqn:Hf; [done|].
    destruct (fetched_run_ok RetryRun (database m) (p :: l)) as [Hr Hl].
    { rewrite <- Hf. intros q. apply findRetry_elem. }
    by apply fetched_sound.
  - apply onRun_sound; [|done]. intros. by apply resume_sound.
  - apply onRun_sound; [|done]. intros. by apply settle_sound.
  - destruct (Purchase.findById purchaseId (database m)) as [p|] eqn:Hp;
      [|unfold cancelPurchase; by rewrite Hp].
    destruct (decide (Purchase.status p = Purchase.success
                      \/ Purchase.status p = Purchase.cancelled)) as [Hs|Hs];
      [unfold cancelPurchase; by rewrite Hp, bool_decide_eq_true_2|].
    assert (Hadv : advances (database m)
                     (Purchase.save (cancellation p) (database m)).2).
    { apply cancellation_advances. tauto. }
    destruct (advances_sound _ m Hadv Hm) as [HA HB].
    rewrite (cancelPurchase_accepted purchaseId m p Hp Hs). cbn [snd].
    by destruct (activePurchases m !! purchaseId).
Qed.

Lemma run_sound evs m :
  ledger_ok m /\ linked m -> ledger_ok (run evs m) /\ linked (run evs m).
Proof.
  revert m. induction evs as [|ev evs IH]; intros m Hm; [done|].
  apply IH. by apply step_sound.
Qed.

Lemma created_sound : ledger_ok created /\ linked created.
Proof.
  split; split; simpl; try apply Forall_nil_2. apply NoDup_nil_2.
Qed.

End Bookkeeping.

(** ** The purchase executor: the attempt ceiling and the failed state *)

(** C3, as stated, fails twice on one purchase: after its third failed
    attempt it is [failed] with attempt number 4 above the ceiling 3, and a
    cancel request then turns the failed purchase into [cancelled]. *)
Lemma failed_purchase_counts_four_and_can_be_cancelled :
  let m := PurchaseManager.run ExecutorSpec.threeFailures PurchaseManager.created in
  let m' := PurchaseManager.step m (PurchaseManager.CancelPurchase "a") in
  (fun p => (Purchase.status p, Purchase.attemptInfo p, length (Purchase.errors p)))
    <$> ExecutorSpec.stored "a" m
  = Some (Purchase.failed, Purchase.mkAttemptInfo 4 90001%Z 3, 3)
  /\ Purchase.status <$> ExecutorSpec.stored "a" m' = Some Purchase.cancelled.
Proof. by vm_compute. Qed.

Section Terminality.
Import PurchaseManager ExecutorSpec HandlerSpec.

Lemma failed_not_pending_query p n c :
  Purchase.status p = Purchase.failed -> p ∉ findPending n c.
Proof. intros Hs (_ & Hp & _)%findPending_elem. congruence. Qed.

Lemma failed_not_retry_query p now c :
  Purchase.status p = Purchase.failed -> p ∉ findRetry now c.
Proof. intros Hs (_ & Hp & _)%findRetry_elem. congruence. Qed.

(** C3, amended.  In every execution of the executor and for every stored
    purchase, [maxAttempts] is 3 and the attempt number never exceeds
    [maxAttempts + 1].  A failure at attempt number [maxAttempts] makes the
    purchase [failed] with attempt number [maxAttempts + 1].  A failed
    purchase is selected by neither pickup query, and [cancelPurchase]
    still accepts it and stores it as [cancelled]. *)
Theorem attempts_bounded_failed_left_alone evs :
  let m := run evs created in
  (forall p, p ∈ database m ->
     Purchase.maxAttempts (Purchase.attemptInfo p) = 3
     /\ Purchase.attemptNumber (Purchase.attemptInfo p)
        <= Purchase.maxAttempts (Purchase.attemptInfo p) + 1)
  /\ (forall p error now,
        Purchase.attemptNumber (Purchase.attemptInfo p)
        = Purchase.maxAttempts (Purchase.attemptInfo p) ->
        let p' := Purchase.doc (Purchase.preSave
                    (handlePurchaseError (Purchase.loaded p) error now)) in
        Purchase.status p' = Purchase.failed
        /\ Purchase.attemptNumber (Purchase.attemptInfo p')
           = Purchase.maxAttempts (Purchase.attemptInfo p) + 1)
  /\ (forall p, p ∈ database m -> Purchase.status p = Purchase.failed ->
        forall n now, (p ∉ findPending n (database m))
                      /\ (p ∉ findRetry now (database m)))
  /\ (forall id p, stored id m = Some p -> Purchase.status p = Purchase.failed ->
        (cancelPurchase id m).1
        = Return (Purchase.doc (Purchase.preSave
                    (Purchase.loaded (Purchase.with_status Purchase.cancelled p))))
        /\ forall q, q ∈ database (cancelPurchase id m).2 ->
                     Purchase._id q = Purchase._id p ->
                     Purchase.status q = Purchase.cancelled).
Proof.
  intros m.
  destruct (run_sound evs created created_sound) as [[Hdb _] _].
  fold m in Hdb. split_and!.
  - intros p Hp. by eapply Forall_forall in Hdb.
  - intros p error now Heq.
    destruct (failure_doc p error now) as (_ & _ & Ha & _ & Hs).
    split.
    + rewrite Hs. unfold statusAfterFailure. rewrite Heq.
      rewrite bool_decide_eq_true_2 by lia. done.
    + rewrite Ha. simpl. by rewrite Heq.
  - intros p _ Hs n now.
    split; [by apply failed_not_pending_query|by apply failed_not_retry_query].
  - intros id p Hid Hs. unfold stored in Hid.
    assert (Hne : Purchase.status p <> Purchase.cancelled) by by rewrite Hs.
    rewrite (cancelPurchase_accepted id m p Hid)
      by (rewrite Hs; intros [?|?]; done).
    destruct (cancellation_doc p Hne) as (Hdoc & Hdid & _).
    cbn [fst snd]. split; [by rewrite Hdoc|].
    intros q Hq Hqid.
    assert (Hq' : q ∈ (Purchase.save (cancellation p) (database m)).2).
    { by destruct (activePurchases m !! id). }
    apply save_elem in Hq' as [(q0 & _ & _ & ->)|[_ Hq']].
    + by destruct (cancellation_update p q0 Hne) as (_ & _ & _ & ?).
    + exfalso. apply Hq'. by rewrite Hdid.
Qed.

End Terminality.

(** ** The purchase executor: cancellation *)

Section Cancellation.
Import PurchaseManager ExecutorSpec CancelSpec HandlerSpec.

Lemma cancel_isCancelled b : BasePurchaser.isCancelled (BasePurchaser.cancel b) = true.
Proof. unfold BasePurchaser.cancel, BasePurchaser.closeBrowser. simpl. by case_match. Qed.

Lemma cancel_releases_browser b :
  BasePurchaser.browser (BasePurchaser.cancel b) <> BasePurchaser.Launched.
Proof. unfold BasePurchaser.cancel, BasePurchaser.closeBrowser. by destruct b as [? [] ?]. Qed.

Lemma purchaserOf_onPurchaser f w0 ps w :
  purchaserOf (onPurchaser f w0 ps) w
  = if decide (w = w0) then f <$> purchaserOf ps w else purchaserOf ps w.
Proof. by destruct w0, w. Qed.

Lemma purchasers_le_refl ps : purchasers_le ps ps.
Proof. intros w b Hb. eauto. Qed.

Lemma purchasers_le_trans ps1 ps2 ps3 :
  purchasers_le ps1 ps2 -> purchasers_le ps2 ps3 -> purchasers_le ps1 ps3.
Proof.
  intros H12 H23 w b Hb.
  destruct (H12 w b Hb) as (b2 & Hb2 & Hc2).
  destruct (H23 w b2 Hb2) as (b3 & Hb3 & Hc3). eauto.
Qed.

Lemma purchasers_le_cancel w0 ps :
  purchasers_le ps (onPurchaser BasePurchaser.cancel w0 ps)
  /\ forall b', purchaserOf (onPurchaser BasePurchaser.cancel w0 ps) w0 = Some b' ->
                BasePurchaser.isCancelled b' = true.
Proof.
  split.
  - intros w b Hb. rewrite purchaserOf_onPurchaser, Hb.
    case_decide; simpl; eexists; split; try done.
    intros _. apply cancel_isCancelled.
  - intros b'. rewrite purchaserOf_onPurchaser, decide_True by done.
    destruct (purchaserOf ps w0); [|done]. intros [= <-]. apply cancel_isCancelled.
Qed.

Lemma stop_purchasers (l : list (string * WebsiteName)) ps :
  let ps' := foldr (fun kv ps => onPurchaser BasePurchaser.cancel kv.2 ps) ps l in
  purchasers_le ps ps'
  /\ forall k w b', (k, w) ∈ l -> purchaserOf ps' w = Some b' ->
                    BasePurchaser.isCancelled b' = true.
Proof.
  induction l as [|[k0 w0] l [IH1 IH2]]; simpl.
  - split; [apply purchasers_le_refl|]. by intros k w b' ?%elem_of_nil.
  - destruct (purchasers_le_cancel w0
                (foldr (fun kv ps => onPurchaser BasePurchaser.cancel kv.2 ps) ps l))
      as [Hle Hc].
    split; [by eapply purchasers_le_trans|].
    intros k w b' [[= -> ->]|Hin]%elem_of_cons Hb'; [exact (Hc _ Hb')|].
    destruct (decide (w = w0)) as [->|Hne]; [exact (Hc _ Hb')|].
    rewrite purchaserOf_onPurchaser, decide_False in Hb' by done.
    by eapply IH2.
Qed.

End Cancellation.

Section MailRefinement.
Import PurchaseManager MailAwait MailParts.

Lemma same_num_refl v : Purchase.same_num v v = true.
Proof. destruct v; simpl; try done. apply Qeq_bool_refl. Qed.

Lemma preSave_eq d :
  Purchase.preSave d
  = Purchase.mkDoc (totalUpdate (Purchase.doc d) (Purchase.doc d))
                   (fun q => totalUpdate (Purchase.doc d) (Purchase.update d q)).
Proof.
  destruct d as [x u]. unfold Purchase.preSave, Purchase.assign, totalUpdate.
  cbn [Purchase.doc Purchase.update].
  destruct (Js.truthy _ && negb _); cbn [andb]; [|done].
  by destruct (Purchase.same_num _ _).
Qed.

Lemma afterMail_eq d n now :
  afterMail d n now
  = Purchase.mkDoc (mailUpdate (Purchase.doc d) n now (Purchase.doc d))
      (fun q => mailUpdate (Purchase.doc d) n now (Purchase.update d q)).
Proof.
  destruct d as [x u].
  destruct x as [id sku w st pd oi ai errs pi [sent ts nt] by_ at_].
  unfold afterMail, mailUpdate, Purchase.assign, Purchase.stamp, same.
  cbn [Purchase.doc Purchase.update Purchase.notifications Purchase.emailSent
       Purchase.notificationType].
  destruct (bool_decide (sent = true));
    cbn [Purchase.doc Purchase.update];
    unfold Purchase.with_emailTimestamp, Purchase.with_emailSent,
      Purchase.with_notifications;
    cbn [Purchase.notifications Purchase.emailSent Purchase.emailTimestamp
         Purchase.notificationType];
    by destruct (bool_decide (nt = Some n)).
Qed.

Lemma totalUpdate_details x y q :
  Purchase.purchaseDetails x = Purchase.purchaseDetails y ->
  totalUpdate x q = totalUpdate y q.
Proof. unfold totalUpdate. by intros ->. Qed.

Lemma mailUpdate_notifications x y n now q :
  Purchase.notifications x = Purchase.notifications y ->
  mailUpdate x n now q = mailUpdate y n now q.
Proof. unfold mailUpdate. by intros ->. Qed.

Lemma mailUpdate_details x n now q :
  Purchase.purchaseDetails (mailUpdate x n now q) = Purchase.purchaseDetails q.
Proof. unfold mailUpdate. by repeat case_match. Qed.

Lemma totalUpdate_notifications x q :
  Purchase.notifications (totalUpdate x q) = Purchase.notifications q.
Proof. unfold totalUpdate. by case_match. Qed.

Lemma totalUpdate_saved x q : totalUpdate (totalUpdate x x) q = q.
Proof.
  set (details := Purchase.purchaseDetails x).
  set (c := Js.truthy (Purchase.price details)
            && negb (bool_decide (Purchase.quantity details = 0))).
  set (v := Js.mul (Purchase.price details)
                   (inject_Z (Z.of_nat (Purchase.quantity details)))).
  set (sm := Purchase.same_num (Purchase.totalAmount details) v).
  assert (Hsaved : Purchase.purchaseDetails (totalUpdate x x)
                   = if c && negb sm
                     then Purchase.mkDetails (Purchase.price details)
                            (Purchase.quantity details) v
                     else details).
  { unfold totalUpdate. fold details c v sm. by destruct (c && negb sm). }
  unfold totalUpdate at 1. rewrite Hsaved.
  destruct c eqn:Hc, sm eqn:Hs; cbn [andb negb Purchase.price Purchase.quantity
                                       Purchase.totalAmount];
    fold c v sm; rewrite ?Hc, ?Hs, ?same_num_refl; done.
Qed.

Lemma with_totalAmount_mailUpdate v x n now q :
  Purchase.with_totalAmount v (mailUpdate x n now q)
  = mailUpdate x n now (Purchase.with_totalAmount v q).
Proof. unfold mailUpdate. by repeat case_match. Qed.

Lemma mail_and_total_commute x z n now :
  let saved := totalUpdate x x in
  totalUpdate (mailUpdate saved n now saved)
    (mailUpdate saved n now (totalUpdate x z))
  = totalUpdate (mailUpdate x n now x) (mailUpdate x n now z).
Proof.
  intros saved.
  rewrite (totalUpdate_details (mailUpdate saved n now saved) saved)
    by apply mailUpdate_details.
  unfold saved at 1. rewrite totalUpdate_saved.
  rewrite (mailUpdate_notifications saved x)
    by apply totalUpdate_notifications.
  rewrite (totalUpdate_details (mailUpdate x n now x) x)
    by apply mailUpdate_details.
  unfold totalUpdate. case_match; [|done].
  symmetry. apply with_totalAmount_mailUpdate.
Qed.

Lemma beforeMail_createdBy p o now :
  Purchase.createdBy (Purchase.doc (beforeMail (Purchase.loaded p) o now))
  = Purchase.createdBy p.
Proof.
  destruct o; unfold beforeMail; unfold_doc; by repeat case_match.
Qed.

(** The handler of [PurchaseManager] is the part before the mail followed
    by the part after it. *)
Lemma handler_parts p o now :
  wantsMail p = true ->
  match o with
  | Succeeded result => handlePurchaseSuccess (Purchase.loaded p) result now
  | Failed error => handlePurchaseError (Purchase.loaded p) error now
  end
  = afterMail (beforeMail (Purchase.loaded p) o now) (notificationOf o) now.
Proof.
  intros Hmail. pose proof (beforeMail_createdBy p o now) as Hby.
  unfold wantsMail in Hmail.
  destruct (Purchase.createdBy p) as [u|] eqn:Hu; [|done].
  destruct o as [result|error];
    unfold handlePurchaseSuccess, handlePurchaseError;
    unfold beforeMail in Hby |- *; cbv zeta in Hby |- *;
    rewrite Hby, Hmail; reflexivity.
Qed.

Lemma handler_in_two_parts p o now :
  wantsMail p = true ->
  let d :=
    match o with
    | Succeeded result => handlePurchaseSuccess (Purchase.loaded p) result now
    | Failed error => handlePurchaseError (Purchase.loaded p) error now
    end in
  let d1 := beforeMail (Purchase.loaded p) o now in
  let p1 := Purchase.doc (Purchase.preSave d1) in
  let d2 := afterMail (Purchase.loaded p1) (notificationOf o) now in
  Purchase.doc (Purchase.preSave d2) = Purchase.doc (Purchase.preSave d)
  /\ (forall q, Purchase.update (Purchase.preSave d2)
                  (Purchase.update (Purchase.preSave d1) q)
                = Purchase.update (Purchase.preSave d) q).
Proof.
  intros Hmail d d1 p1 d2. subst d. rewrite (handler_parts p o now Hmail).
  fold d1. subst p1 d2. set (n := notificationOf o).
  rewrite (preSave_eq d1). cbn [Purchase.doc Purchase.update].
  rewrite (preSave_eq (afterMail d1 n now)), (afterMail_eq d1).
  cbn [Purchase.doc Purchase.update].
  set (saved := totalUpdate (Purchase.doc d1) (Purchase.doc d1)).
  rewrite (preSave_eq (afterMail (Purchase.loaded saved) n now)),
    (afterMail_eq (Purchase.loaded saved)).
  cbn [Purchase.doc Purchase.update Purchase.loaded].
  split; [|intros q]; apply mail_and_total_commute.
Qed.

Lemma totalUpdate_id x q : Purchase._id (totalUpdate x q) = Purchase._id q.
Proof. unfold totalUpdate. by case_match. Qed.

Lemma mailUpdate_id x n now q :
  Purchase._id (mailUpdate x n now q) = Purchase._id q.
Proof. unfold mailUpdate. by repeat case_match. Qed.

Lemma beforeMail_id p o now :
  Purchase._id (Purchase.doc (beforeMail (Purchase.loaded p) o now))
  = Purchase._id p
  /\ forall q, Purchase._id (Purchase.update (beforeMail (Purchase.loaded p) o now) q)
               = Purchase._id q.
Proof.
  destruct o; unfold beforeMail; unfold_doc; by repeat case_match.
Qed.

Lemma two_saves d1 d2 d c :
  Purchase._id (Purchase.doc (Purchase.preSave d2))
  = Purchase._id (Purchase.doc (Purchase.preSave d1)) ->
  Purchase._id (Purchase.doc (Purchase.preSave d))
  = Purchase._id (Purchase.doc (Purchase.preSave d1)) ->
  (forall q, Purchase._id (Purchase.update (Purchase.preSave d1) q)
             = Purchase._id q) ->
  (forall q, Purchase.update (Purchase.preSave d2)
               (Purchase.update (Purchase.preSave d1) q)
             = Purchase.update (Purchase.preSave d) q) ->
  (Purchase.save d2 (Purchase.save d1 c).2).2 = (Purchase.save d c).2.
Proof.
  intros Hid2 Hid Hkeep Hupd. unfold Purchase.save. cbn [snd].
  rewrite <- list_fmap_compose. apply list_fmap_ext. intros k q _.
  cbn [compose]. rewrite Hid2, Hid.
  destruct (decide (Purchase._id q
                    = Purchase._id (Purchase.doc (Purchase.preSave d1)))) as [Hq|Hq].
  - rewrite (bool_decide_eq_true_2 _ Hq).
    rewrite bool_decide_eq_true_2 by by rewrite Hkeep. apply Hupd.
  - rewrite (bool_decide_eq_false_2 _ Hq).
    by rewrite (bool_decide_eq_false_2 _ Hq).
Qed.

(** A handler that is not overtaken: the two stretches [Handled] and
    [Mailed], one after the other, are the stretch [Settle]. *)
Lemma settle_in_two_stretches s i r p o now :
  mailing s !! i = None ->
  runs (manager s) !! i = Some r ->
  current r = Some p ->
  wantsMail p = true ->
  step (step s (Handled i o now)) (Mailed i now)
  = step s (Call (Settle i o now)).
Proof.
  intros Hm Hr Hc Hmail.
  destruct (handler_in_two_parts p o now Hmail) as [Hdoc Hupd].
  cbv zeta in Hdoc, Hupd.
  destruct (beforeMail_id p o now) as [Hid1 Hkeep1].
  destruct s as [m mail]. cbn [manager mailing] in *.
  set (d := match o with
            | Succeeded result => handlePurchaseSuccess (Purchase.loaded p) result now
            | Failed error => handlePurchaseError (Purchase.loaded p) error now
            end) in *.
  set (d1 := beforeMail (Purchase.loaded p) o now) in *.
  set (p1 := Purchase.doc (Purchase.preSave d1)) in *.
  set (d2 := afterMail (Purchase.loaded p1) (notificationOf o) now) in *.
  assert (Hp1 : Purchase._id p1 = Purchase._id p).
  { unfold p1. rewrite preSave_eq. cbn [Purchase.doc].
    by rewrite totalUpdate_id. }
  assert (Hp2 : Purchase._id (Purchase.doc (Purchase.preSave d2)) = Purchase._id p).
  { unfold d2. rewrite preSave_eq, afterMail_eq. cbn [Purchase.doc].
    by rewrite totalUpdate_id, mailUpdate_id. }
  assert (Hleft : step (mk m mail) (Handled i o now)
                  = mk (with_runs (<[i := mkRun (kind r) (Some p1) (todo r)]> (runs m))
                          (with_database (Purchase.save d1 (database m)).2 m))
                       (<[i := notificationOf o]> mail)).
  { cbn [step]. unfold handled. cbn [manager mailing].
    by rewrite Hm, Hr, Hc, Hmail. }
  rewrite Hleft. cbn [step]. unfold mailed.
  cbn [manager mailing runs with_runs with_database database activePurchases
       with_active isRunning purchasers].
  rewrite lookup_insert_eq.
  rewrite list_lookup_insert_eq by by eapply lookup_lt_Some.
  cbn [current kind todo]. fold d2.
  change (Purchase.save d2 (Purchase.save d1 (database m)).2)
    with (Purchase.doc (Purchase.preSave d2),
          (Purchase.save d2 (Purchase.save d1 (database m)).2).2).
  cbn beta iota.
  unfold callOf. rewrite Hm.
  rewrite bool_decide_eq_false_2 by by intros [? ?].
  cbn [PurchaseManager.step]. unfold onRun. rewrite Hr.
  unfold settle. rewrite Hc. rewrite endPurchase_eq. fold d.
  rewrite delete_insert_eq, (delete_id mail i) by done.
  rewrite list_insert_insert_eq.
  rewrite (two_saves d1 d2 d).
  - unfold idOf. rewrite Hp2. reflexivity.
  - by rewrite Hp2.
  - by rewrite <- Hdoc, Hp2.
  - intros q. rewrite preSave_eq. cbn [Purchase.update].
    by rewrite totalUpdate_id.
  - exact Hupd.
Qed.

End MailRefinement.

Section MissedCancellation.
Import PurchaseManager MailAwait MailAwaitSpec.

(** C7.  The first half of the claim holds in every state of the
    manager: for a stored purchase that is [success] or [cancelled],
    [cancelPurchase] throws the invalid-state error and changes nothing.
    For a [processing] purchase that is registered in [activePurchases],
    the registered purchaser receives [cancel()], which sets the
    cancellation flag and closes the browser; so it is in the execution
    [underWay], after which the checkpoint [randomDelay] of the purchaser
    of Target throws.  The second half fails on
    the code all the same: in the execution [overtaken] the purchase [a]
    is stored as [processing] and the second call awaits its
    [executePurchase], but the purchase is not registered in
    [activePurchases]; [cancelPurchase] stores it as [cancelled] and
    returns it without a call of [cancel()], the purchaser of Target
    keeps a clear cancellation flag, its checkpoint [randomDelay] goes
    through, and the second call still awaits the execution.  A second
    [cancelPurchase] is then refused with the invalid-state error and
    changes nothing. *)
Theorem cancel_misses_execution_in_flight :
  (forall m id p,
     ExecutorSpec.stored id m = Some p ->
     Purchase.status p = Purchase.success \/ Purchase.status p = Purchase.cancelled ->
     cancelPurchase id m = (Throw CancelSpec.invalidState, m))
  /\ (forall m id p w,
        ExecutorSpec.stored id m = Some p ->
        Purchase.status p = Purchase.processing ->
        activePurchases m !! id = Some w ->
        purchasers (cancelPurchase id m).2
        = onPurchaser BasePurchaser.cancel w (purchasers m)
        /\ activePurchases (cancelPurchase id m).2 !! id = None
        /\ forall b,
             BasePurchaser.isCancelled (BasePurchaser.cancel b) = true
             /\ BasePurchaser.browser (BasePurchaser.cancel b)
                <> BasePurchaser.Launched)
  /\ (let m := PurchaseManager.run underWay PurchaseManager.created in
      let m' := (cancelPurchase "a" m).2 in
      Purchase.status <$> ExecutorSpec.stored "a" m = Some Purchase.processing
      /\ activePurchases m !! "a" = Some target
      /\ BasePurchaser.isCancelled (p_target (purchasers m)) = false
      /\ BasePurchaser.isCancelled (p_target (purchasers m')) = true
      /\ BasePurchaser.randomDelay (p_target (purchasers m'))
         = Throw "Purchase cancelled")
  /\ (let m := manager (run overtaken created) in
      let m' := (cancelPurchase "a" m).2 in
      Purchase.status <$> ExecutorSpec.stored "a" m = Some Purchase.processing
      /\ (exists p,
            runs m !! 1 = Some (mkRun PendingRun (Some p) [])
            /\ idOf p = "a"
            /\ Purchase.status p = Purchase.processing)
      /\ mailing (run overtaken created) !! 1 = None
      /\ activePurchases m !! "a" = None
      /\ Purchase.status <$> ExecutorSpec.stored "a" m' = Some Purchase.cancelled
      /\ ((cancelPurchase "a" m).1
          = match ExecutorSpec.stored "a" m' with
            | Some p => Return p
            | None => Throw "Purchase not found"
            end)
      /\ purchasers m' = purchasers m
      /\ BasePurchaser.isCancelled (p_target (purchasers m')) = false
      /\ BasePurchaser.randomDelay (p_target (purchasers m')) = Return tt
      /\ runs m' = runs m
      /\ cancelPurchase "a" m' = (Throw CancelSpec.invalidState, m')).
Proof.
  split_and!.
  - intros m id p Hid Hs. unfold ExecutorSpec.stored in Hid.
    unfold cancelPurchase. by rewrite Hid, bool_decide_eq_true_2.
  - intros m id p w Hid Hs Hw. unfold ExecutorSpec.stored in Hid.
    rewrite (cancelPurchase_accepted id m p Hid)
      by (rewrite Hs; intros [?|?]; done).
    cbn [snd]. rewrite Hw. cbn [purchasers with_active with_purchasers activePurchases].
    split_and!; [done|apply lookup_delete_eq|].
    intros b. split; [apply cancel_isCancelled|apply cancel_releases_browser].
  - vm_compute. split_and!; reflexivity.
  - vm_compute. split_and!; try reflexivity.
    eexists. split_and!; reflexivity.
Qed.

End MissedCancellation.

(* ===================================================================== *)
(** * Further properties of the code                                       *)
(* ===================================================================== *)

(** ** The result cache of the scraper manager *)

Section Results.
Import ScraperManager CacheSpec ResultsSpec.

Lemma Map_get_set_ne {V} k k' (v : V) m :
  k <> k' -> Js.Map_get k' (Js.Map_set k v m) = Js.Map_get k' m.
Proof.
  intros Hne. induction m as [|[k0 v0] m IH]; simpl.
  - by rewrite bool_decide_eq_false_2.
  - case_bool_decide as H0; simpl.
    + subst k0. by rewrite !bool_decide_eq_false_2.
    + by rewrite IH.
Qed.

Lemma Map_set_Forall {V} (P : string * V -> Prop) k v (m : list (string * V)) :
  P (k, v) -> Forall P m -> Forall P (Js.Map_set k v m).
Proof.
  intros Hkv. induction 1 as [|[k0 v0] m H0 Hm IH]; simpl.
  - by apply Forall_singleton.
  - case_bool_decide; apply Forall_cons; by split.
Qed.

Lemma Reachable_filed e : Reachable e -> Forall filed (results e).
Proof.
  induction 1 as [c|sku website probe newId now e _ IH|now e _ IH].
  - apply Forall_nil_2.
  - unfold scrapeSingleProduct. destruct probe as [result|message]; [|done].
    destruct (ScrapeResult.success result); cbn [snd]; [|done].
    rewrite processScrapingResult_results. apply Map_set_Forall; [|done].
    by exists (SKU.name website).
  - simpl. unfold cleanup. apply Forall_forall.
    intros x [_ Hx]%list_elem_of_filter. rewrite Forall_forall in IH. by apply IH.
Qed.

Lemma matches_item i w i' r' :
  matches i w (cacheKey i' r')
  = bool_decide (i' = i)
    && (negb (Js.truthy_str w) || bool_decide (Some (WebsiteName_str r') = w)).
Proof.
  unfold matches. rewrite split_cacheKey.
  change ([ObjectId_toString i'; WebsiteName_str r'] !! 0)
    with (Some (ObjectId_toString i')).
  change ([ObjectId_toString i'; WebsiteName_str r'] !! 1)
    with (Some (WebsiteName_str r')).
  f_equal. apply bool_decide_ext. split.
  - by intros [= ->%ObjectId_toString_inj].
  - by intros ->.
Qed.

(** X1.  [getResults(skuId)] returns, in the order of their first write, the
    entries of the cache that belong to the item, and
    [getResults(skuId, websiteName)] those of them that come from the
    retailer; an empty [websiteName] selects like a missing one. *)
Theorem getResults_selects_by_item e i :
  Reachable e ->
  getResults (results e) i None
  = filter (fun entry => sku entry = i) (results e).*2
  /\ getResults (results e) i (Some "") = getResults (results e) i None
  /\ forall w,
       getResults (results e) i (Some (WebsiteName_str w))
       = filter (fun entry =>
                   sku entry = i
                   /\ ScrapeResult.website (fields entry) = WebsiteName_str w)
                (results e).*2.
Proof.
  intros Hf%Reachable_filed. induction Hf as [|[k entry] m (r & Hk & Hw) _ IH].
  { by split_and!. }
  destruct IH as (IH1 & IH2 & IH3). simpl in Hk, Hw. subst k.
  cbn [getResults fmap list_fmap snd]. rewrite !filter_cons.
  split_and!.
  - rewrite matches_item. simpl. rewrite andb_true_r.
    case_bool_decide; case_decide; try done; by rewrite IH1.
  - rewrite !matches_item. simpl. by rewrite IH2.
  - intros w. rewrite matches_item, IH3, filter_cons.
    assert (Js.truthy_str (Some (WebsiteName_str w)) = true) as -> by by destruct w.
    cbn [negb orb].
    destruct (decide (sku entry = i
                      /\ ScrapeResult.website (fields entry) = WebsiteName_str w))
      as [[Hi Hd]|Hd].
    + rewrite <- Hd, Hw. by rewrite !bool_decide_eq_true_2.
    + destruct (decide (sku entry = i)) as [Hi|Hi].
      * rewrite (bool_decide_eq_true_2 _ Hi). cbn [andb].
        rewrite bool_decide_eq_false_2; [done|].
        intros [= Heq]. apply Hd. by rewrite Hw, Heq.
      * by rewrite (bool_decide_eq_false_2 _ Hi).
Qed.

Lemma getResults_selects_by_item_witness :
  let e := put DecisionSpec.booster DecisionSpec.targetSite (DecisionSpec.probeAt 20)
             [X1] 1000%Z DecisionSpec.emptyEnv in
  Reachable e
  /\ getResults (results e) (SKU._id DecisionSpec.booster) None
     = filter (fun entry => sku entry = SKU._id DecisionSpec.booster) (results e).*2.
Proof.
  intros e.
  assert (Hr : Reachable e).
  { exact (reach_scrape DecisionSpec.booster DecisionSpec.targetSite
             (Resolved (DecisionSpec.probeAt 20)) [X1] 1000%Z _
             (reach_created [])). }
  split; [exact Hr|].
  exact (proj1 (getResults_selects_by_item e (SKU._id DecisionSpec.booster) Hr)).
Defined.

(** X2.  A result that is stored for one (item, retailer) pair leaves the
    lookup of every other pair as it was. *)
Theorem write_leaves_other_pairs e sku website sku' website' res newId now :
  Reachable e ->
  (SKU._id sku', SKU.name website') <> (SKU._id sku, SKU.name website) ->
  get sku website (put sku' website' res newId now e) = get sku website e.
Proof.
  intros Hr Hne. pose proof (Reachable_well_keyed e Hr) as Hwk.
  unfold get, put.
  rewrite !getResults_lookup by (try apply put_well_keyed; done).
  rewrite processScrapingResult_results, Map_get_set_ne; [done|].
  intros [Hi Hw]%cacheKey_inj. apply Hne. by rewrite Hi, Hw.
Qed.

Lemma write_leaves_other_pairs_witness :
  let other := SKU.mkWebsite walmart "https://www.walmart.com/ip/booster" true in
  let e := put DecisionSpec.booster DecisionSpec.targetSite (DecisionSpec.probeAt 20)
             [X1] 1000%Z DecisionSpec.emptyEnv in
  get DecisionSpec.booster DecisionSpec.targetSite
    (put DecisionSpec.booster other (DecisionSpec.probeAt 19) [X2] 2000%Z e)
  = [entryOf DecisionSpec.booster DecisionSpec.targetSite (DecisionSpec.probeAt 20)
       1000%Z].
Proof.
  intros other e.
  assert (Hr : Reachable e).
  { exact (reach_scrape DecisionSpec.booster DecisionSpec.targetSite
             (Resolved (DecisionSpec.probeAt 20)) [X1] 1000%Z _
             (reach_created [])). }
  rewrite (write_leaves_other_pairs e DecisionSpec.booster DecisionSpec.targetSite
             DecisionSpec.booster other (DecisionSpec.probeAt 19) [X2] 2000%Z Hr);
    [reflexivity|]. by intros [= ?].
Defined.

(** X3.  [cleanup()] drops exactly what is older than one day: a lookup after
    it returns what the lookup before it returned and is at most one day
    old (an entry that is exactly one day old stays), and a later
    clean-up makes an earlier one redundant. *)
Theorem cleanup_keeps_the_last_day m i w now :
  getResults (cleanup now m) i w
  = filter (fun entry => (now - oneDay <= timestamp entry)%Z) (getResults m i w)
  /\ forall now', (now <= now')%Z -> cleanup now' (cleanup now m) = cleanup now' m.
Proof.
  split.
  - unfold cleanup. induction m as [|[k entry] m IH]; [done|].
    rewrite filter_cons. cbn [getResults snd].
    case_decide as Ht; cbn [getResults];
      destruct (matches i w k); rewrite ?filter_cons; rewrite ?IH;
      try case_decide; try done; lia.
  - intros now' Hle. unfold cleanup. rewrite list_filter_filter.
    apply list_filter_iff. intros [k entry]. simpl. lia.
Qed.

(** X4.  One price alert is mailed for every probe that succeeds and meets
    the target of an item that has an owner, whether or not the item is
    bought automatically; nothing else is mailed. *)
Theorem alert_mail_follows_price_only sku website probe newId now e :
  mailbox (scrapeSingleProduct sku website probe newId now e).2
  = mailbox e ++
    match probe, SKU.createdBy sku with
    | Resolved result, Some u =>
        if ScrapeResult.success result && priceMeetsTarget sku result
        then [alertOf u sku website result]
        else []
    | _, _ => []
    end.
Proof.
  destruct probe as [result|message]; simpl; [|by rewrite app_nil_r].
  destruct (ScrapeResult.success result); simpl;
    [|destruct (SKU.createdBy sku); by rewrite app_nil_r].
  unfold processScrapingResult, triggerAutoPurchase.
  destruct (priceMeetsTarget sku result), (SKU.createdBy sku) as [u|];
    simpl; repeat case_match; simpl; by rewrite ?app_nil_r.
Qed.

End Results.

(** ** The purchase executor: the ledger *)

Section Ledger.
Import PurchaseManager ExecutorSpec HandlerSpec CancelSpec LedgerSpec.

Lemma keeps_loaded p : keeps_order (Purchase.loaded p).
Proof. by intros q. Qed.

Lemma keeps_assign {A} (same : A -> A -> bool) get set v d :
  (forall p, orderKey (set v p) = orderKey p) ->
  keeps_order d -> keeps_order (Purchase.assign same get set v d).
Proof.
  intros Hset Hd q. unfold Purchase.assign. destruct (same _ _); [apply Hd|].
  simpl. by rewrite Hset.
Qed.

Lemma keeps_stamp {A} (set : A -> Purchase.t -> Purchase.t) now d :
  (forall p, orderKey (set now p) = orderKey p) ->
  keeps_order d -> keeps_order (Purchase.stamp set now d).
Proof. intros Hset Hd q. simpl. by rewrite Hset. Qed.

Lemma keeps_push e d : keeps_order d -> keeps_order (Purchase.push_error e d).
Proof. intros Hd q. simpl. by rewrite <- (Hd q). Qed.

Lemma keeps_preSave d : keeps_order d -> keeps_order (Purchase.preSave d).
Proof.
  intros Hd. unfold Purchase.preSave. case_match; [|done].
  by apply keeps_assign.
Qed.

Ltac keeps :=
  repeat first
    [ apply keeps_loaded
    | apply keeps_preSave
    | apply keeps_push
    | apply keeps_stamp; [done|]
    | apply keeps_assign; [done|]
    | case_match ].

Lemma keeps_pickup purchase now :
  keeps_order (Purchase.preSave (pickup purchase now)).
Proof. unfold pickup. keeps. Qed.

Lemma keeps_cancellation purchase :
  keeps_order (Purchase.preSave (cancellation purchase)).
Proof. unfold cancellation. keeps. Qed.

Lemma keeps_failure purchase error now :
  keeps_order (Purchase.preSave
                 (handlePurchaseError (Purchase.loaded purchase) error now)).
Proof. unfold handlePurchaseError. keeps. Qed.

Lemma keeps_success purchase result now :
  keeps_order (Purchase.preSave
                 (handlePurchaseSuccess (Purchase.loaded purchase) result now)).
Proof. unfold handlePurchaseSuccess. keeps. Qed.

Lemma save_keys d c :
  keeps_order (Purchase.preSave d) ->
  orderKey <$> (Purchase.save d c).2 = orderKey <$> c.
Proof.
  intros Hk. unfold Purchase.save. cbn [snd].
  rewrite <- list_fmap_compose. apply list_fmap_ext. intros i q _. simpl.
  case_bool_decide; [apply Hk|done].
Qed.

Lemma insert_keys p c c' :
  Purchase.insert p c = Some c' -> exists l, orderKey <$> c' = (orderKey <$> c) ++ l.
Proof. intros [_ ->]%insert_Some. rewrite fmap_app. eauto. Qed.

Lemma resume_keys r now m :
  orderKey <$> database (resume r now m).2 = orderKey <$> database m.
Proof.
  unfold resume. destruct (current r); [done|].
  destruct (todo r) as [|purchase rest]; [done|].
  assert (Hb : forall p' m', beginPurchase purchase now m = Return (p', m') ->
                 orderKey <$> database m' = orderKey <$> database m).
  { intros p' m' (_ & _ & ->)%beginPurchase_Return. simpl.
    apply save_keys, keeps_pickup. }
  destruct (kind r).
  - destruct (beginPurchase purchase now m) as [[p' m']|message] eqn:Hbegin.
    + by apply (Hb p').
    + simpl. apply save_keys, keeps_failure.
  - case_bool_decide; [|done].
    destruct (beginPurchase purchase now m) as [[p' m']|message] eqn:Hbegin;
      [by apply (Hb p')|done].
Qed.

Lemma settle_keys r o now m :
  orderKey <$> database (settle r o now m).2 = orderKey <$> database m.
Proof.
  unfold settle. destruct (current r) as [p|]; [|done]. cbn [snd].
  rewrite endPurchase_eq. simpl.
  destruct o; apply save_keys; [apply keeps_success|apply keeps_failure].
Qed.

Lemma onRun_database i f m :
  database (onRun i f m)
  = match runs m !! i with Some r => database (f r m).2 | None => database m end.
Proof.
  unfold onRun. destruct (runs m !! i) as [r|]; [|done]. by destruct (f r m).
Qed.

Lemma cancelPurchase_database purchaseId m :
  database (cancelPurchase purchaseId m).2 = database m
  \/ exists p, Purchase.findById purchaseId (database m) = Some p
               /\ Purchase.status p <> Purchase.success
               /\ Purchase.status p <> Purchase.cancelled
               /\ database (cancelPurchase purchaseId m).2
                  = (Purchase.save (cancellation p) (database m)).2.
Proof.
  destruct (Purchase.findById purchaseId (database m)) as [p|] eqn:Hp;
    [|left; unfold cancelPurchase; by rewrite Hp].
  destruct (decide (Purchase.status p = Purchase.success
                    \/ Purchase.status p = Purchase.cancelled)) as [Hs|Hs];
    [left; unfold cancelPurchase; by rewrite Hp, bool_decide_eq_true_2|].
  right. exists p. rewrite (cancelPurchase_accepted purchaseId m p Hp Hs).
  cbn [snd]. split_and!; [done|tauto|tauto|].
  by destruct (activePurchases m !! purchaseId).
Qed.

Lemma step_keys m ev :
  exists l, orderKey <$> database (step m ev) = (orderKey <$> database m) ++ l.
Proof.
  destruct ev as [| |sku website result newId now|sku w user newId now|now|now
                  |i now|i o now|purchaseId]; simpl.
  - exists []. rewrite app_nil_r. unfold start. by destruct (isRunning m).
  - exists []. by rewrite app_nil_r.
  - unfold ScraperManager.triggerAutoPurchase. simpl.
    destruct (Purchase.insert _ _) as [c|] eqn:Hi; simpl.
    + by eapply insert_keys.
    + exists []. by rewrite app_nil_r.
  - unfold manualPurchase.
    destruct sku as [sku|], user as [u|]; try (exists []; by rewrite app_nil_r).
    destruct (head _); [|exists []; by rewrite app_nil_r].
    destruct (Purchase.insert _ _) as [c|] eqn:Hi; simpl.
    + by eapply insert_keys.
    + exists []. by rewrite app_nil_r.
  - exists []. rewrite app_nil_r. unfold processPendingPurchases.
    destruct (negb (isRunning m)); [done|]. case_bool_decide; [done|].
    by destruct (findPending _ _).
  - exists []. rewrite app_nil_r. unfold retryFailedPurchases.
    destruct (negb (isRunning m)); [done|]. by destruct (findRetry _ _).
  - exists []. rewrite app_nil_r, onRun_database.
    destruct (runs m !! i); [apply resume_keys|done].
  - exists []. rewrite app_nil_r, onRun_database.
    destruct (runs m !! i); [apply settle_keys|done].
  - exists []. rewrite app_nil_r.
    destruct (cancelPurchase_database purchaseId m) as [->|(p & _ & _ & _ & ->)];
      [done|]. apply save_keys, keeps_cancellation.
Qed.

(** X5.  The executor never deletes a purchase and never changes the id, the
    item, the retailer, the owner, the creation time, the price or the
    quantity of one: along every execution the ledger keeps its entries
    in their places and new purchases are appended. *)
Theorem ledger_is_append_only evs m :
  exists l, orderKey <$> database (run evs m) = (orderKey <$> database m) ++ l.
Proof.
  revert m. induction evs as [|ev evs IH]; intros m.
  - exists []. by rewrite app_nil_r.
  - destruct (step_keys m ev) as [l1 H1]. destruct (IH (step m ev)) as [l2 H2].
    exists (l1 ++ l2). simpl. fold (run evs (step m ev)).
    by rewrite H2, H1, <- app_assoc.
Qed.

(** X6.  The retry query is the pending query with two more conditions:
    whatever [retryFailedPurchases] selects is pending with an attempt
    number of 2 or 3 and a last attempt more than ten minutes old, and
    [processPendingPurchases] selects from a superset. *)
Theorem retry_query_within_pending_query now c :
  findRetry now c
  = filter (fun p =>
              2 <= Purchase.attemptNumber (Purchase.attemptInfo p)
              /\ (Purchase.lastAttempt (Purchase.attemptInfo p) < now - tenMinutes)%Z)
           (findPending (length c) c).
Proof.
  unfold findRetry, findPending.
  rewrite take_ge by apply length_filter.
  rewrite list_filter_filter. apply list_filter_iff. intros p. tauto.
Qed.


End Ledger.

(** ** The purchase executor: stopping, manual orders, late results *)

Section Lifecycle.
Import PurchaseManager ExecutorSpec HandlerSpec CancelSpec LedgerSpec.

Lemma stop_fold (l : list (string * WebsiteName)) ps :
  let ps' := foldr (fun kv ps => onPurchaser BasePurchaser.cancel kv.2 ps) ps l in
  (forall w, w ∉ l.*2 -> purchaserOf ps' w = purchaserOf ps w)
  /\ (forall w b', w ∈ l.*2 -> purchaserOf ps' w = Some b' ->
        BasePurchaser.isCancelled b' = true
        /\ BasePurchaser.browser b' <> BasePurchaser.Launched).
Proof.
  induction l as [|[k0 w0] l [IH1 IH2]]; simpl.
  - split; [done|]. by intros w b' ?%elem_of_nil.
  - split.
    + intros w [Hne Hw]%not_elem_of_cons.
      rewrite purchaserOf_onPurchaser, decide_False by done. by apply IH1.
    + intros w b' Hw. rewrite purchaserOf_onPurchaser.
      destruct (decide (w = w0)) as [->|Hne].
      * destruct (purchaserOf _ w0) as [b|]; [|done]. intros [= <-].
        split; [apply cancel_isCancelled|apply cancel_releases_browser].
      * apply elem_of_cons in Hw as [?|Hw]; [done|]. by apply IH2.
Qed.

(** X8.  [stop()] clears the flag and the active purchases and cancels the
    purchaser of every retailer that had an active purchase, which sets
    its cancellation flag and closes its browser; the purchasers of the
    other retailers are as they were.  It writes nothing to the ledger, so
    the purchases that were in flight stay stored as [processing]; and on
    the stopped manager a tick of either job does nothing. *)
Theorem stop_cancels_and_forgets m :
  let m' := stop m in
  isRunning m' = false
  /\ activePurchases m' = ∅
  /\ database m' = database m
  /\ runs m' = runs m
  /\ processingCount m' = processingCount m
  /\ (forall id w b',
        activePurchases m !! id = Some w ->
        purchaserOf (purchasers m') w = Some b' ->
        BasePurchaser.isCancelled b' = true
        /\ BasePurchaser.browser b' <> BasePurchaser.Launched)
  /\ (forall w,
        (forall id, activePurchases m !! id <> Some w) ->
        purchaserOf (purchasers m') w = purchaserOf (purchasers m) w)
  /\ (forall now,
        processPendingPurchases now m' = m' /\ retryFailedPurchases now m' = m').
Proof.
  intros m'. subst m'. unfold stop. simpl.
  destruct (stop_fold (map_to_list (activePurchases m)) (purchasers m))
    as [Hout Hin].
  split_and!; try done.
  - intros id w b' Hact%elem_of_map_to_list Hb'. apply (Hin w b'); [|done].
    apply list_elem_of_fmap. by exists (id, w).
  - intros w Hw. apply Hout. intros ([id w'] & -> & Hin')%list_elem_of_fmap.
    apply elem_of_map_to_list in Hin'. by apply (Hw id).
Qed.

(** X9.  [manualPurchase] throws and changes nothing when the item or the
    user is missing or when the item has no entry for the retailer.
    Otherwise it takes the first entry for the retailer, active or not,
    and with a URL, a quantity of at least one and a fresh id it appends
    one pending purchase at the target price, for [maxQuantity] units, at
    attempt 1 of 3, and returns it; the active purchases and the calls
    under way are not touched. *)
Theorem manualPurchase_cases sku websiteName user newId now m :
  (sku = None \/ user = None ->
   manualPurchase sku websiteName user newId now m
   = (Throw "SKU or User not found", m))
  /\ (forall s u,
        sku = Some s -> user = Some u ->
        (forall w, w ∈ SKU.websites s -> SKU.name w <> websiteName) ->
        manualPurchase sku websiteName user newId now m
        = (Throw "Website not configured for this SKU", m))
  /\ (forall s u w,
        sku = Some s -> user = Some u ->
        head (filter (fun w => SKU.name w = websiteName) (SKU.websites s)) = Some w ->
        SKU.url w <> "" ->
        1 <= SKU.maxQuantity (SKU.purchaseSettings s) ->
        (newId ∉ Purchase._id <$> database m) ->
        exists p,
          manualPurchase sku websiteName user newId now m
          = (Return p, with_database (database m ++ [p]) m)
          /\ Purchase._id p = newId
          /\ Purchase.sku p = SKU._id s
          /\ Purchase.website p = Purchase.mkWebsite websiteName (SKU.url w)
          /\ Purchase.status p = Purchase.pending
          /\ Purchase.price (Purchase.purchaseDetails p)
             = Js.Num (SKU.targetPrice s)
          /\ Purchase.quantity (Purchase.purchaseDetails p)
             = SKU.maxQuantity (SKU.purchaseSettings s)
          /\ Purchase.attemptInfo p = Purchase.mkAttemptInfo 1 now 3
          /\ Purchase.errors p = []
          /\ Purchase.createdBy p = Some u).
Proof.
  split_and!.
  - intros [-> | ->]; [done|]. by destruct sku.
  - intros s u -> -> Hnone. unfold manualPurchase.
    destruct (head _) as [w|] eqn:Hw; [|done].
    apply head_Some_elem_of, list_elem_of_filter in Hw as [Hn Hw].
    by destruct (Hnone w Hw).
  - intros s u w -> -> Hw Hurl Hq Hfresh. unfold manualPurchase. rewrite Hw.
    set (purchase := Purchase.new _ _ _ _ _ _).
    assert (Hv : Purchase.validate purchase = true).
    { unfold Purchase.validate, purchase. simpl.
      by rewrite (bool_decide_eq_false_2 _ Hurl), (bool_decide_eq_true_2 _ Hq). }
    unfold Purchase.insert. rewrite Hv. simpl.
    rewrite (bool_decide_eq_true_2 _ Hfresh).
    eexists. split; [reflexivity|].
    unfold purchase. unfold_doc. simpl.
    destruct (negb (Qeq_bool (SKU.targetPrice s) 0)
              && negb (bool_decide (SKU.maxQuantity (SKU.purchaseSettings s) = 0)));
      simpl; [|done].
    rewrite Qeq_bool_refl. done.
Qed.

(** X10.  When the attempt of a purchase returns, its handler writes the
    status of the result over the stored status, whatever that has become
    in the meantime: a purchase that was cancelled while its attempt was
    in flight is stored as [success] after a successful attempt, and as
    [pending] or [failed] after a failed one. *)
Theorem late_result_overwrites_stored_status m i r p o now :
  runs m !! i = Some r ->
  current r = Some p ->
  Purchase.status p = Purchase.processing ->
  let m' := step m (Settle i o now) in
  (forall q', q' ∈ database m' -> Purchase._id q' = Purchase._id p ->
     Purchase.status q'
     = match o with
       | Succeeded _ => Purchase.success
       | Failed _ => statusAfterFailure p
       end)
  /\ activePurchases m' !! idOf p = None.
Proof.
  intros Hi Hc Hs m'. subst m'. simpl. unfold onRun. rewrite Hi.
  unfold settle. rewrite Hc. rewrite endPurchase_eq. simpl.
  split; [|apply lookup_delete_eq].
  intros q' Hq' Hid. destruct o as [result|error].
  - destruct (success_doc p result now) as (Hdid & _).
    apply save_elem in Hq' as [(q & _ & _ & ->)|[_ Hne]];
      [|by rewrite Hdid in Hne].
    destruct (success_update p result now q) as (_ & _ & _ & ->).
    by rewrite Hs.
  - destruct (failure_doc p error now) as (Hdid & _).
    apply save_elem in Hq' as [(q & _ & _ & ->)|[_ Hne]];
      [|by rewrite Hdid in Hne].
    destruct (failure_update p error now q) as (_ & _ & _ & _ & ->).
    rewrite Hs. unfold statusAfterFailure. by repeat case_bool_decide.
Qed.

Lemma late_result_overwrites_stored_status_witness :
  let m := run cancelledInFlight created in
  let m' := step m (Settle 0 (Failed "Purchase cancelled") 50000%Z) in
  Purchase.status <$> stored "a" m = Some Purchase.cancelled
  /\ forall q', q' ∈ database m' -> Purchase._id q' = [Xa] ->
       Purchase.status q' = Purchase.pending.
Proof.
  intros m m'. split; [by vm_compute|].
  destruct (runs m !! 0) as [r|] eqn:Hr; [|by vm_compute in Hr].
  destruct (current r) as [p|] eqn:Hp;
    [|vm_compute in Hr; injection Hr as <-; by vm_compute in Hp].
  assert (Hp' : Purchase.status p = Purchase.processing
                /\ Purchase._id p = [Xa]
                /\ statusAfterFailure p = Purchase.pending).
  { vm_compute in Hr. injection Hr as <-. vm_compute in Hp.
    injection Hp as <-. by vm_compute. }
  destruct Hp' as (Hs & Hid & Hafter).
  destruct (late_result_overwrites_stored_status m 0 r p
              (Failed "Purchase cancelled") 50000%Z Hr Hp Hs) as [H _].
  intros q' Hq' Hq'id. rewrite <- Hafter. apply H; [done|]. by rewrite Hid.
Defined.

Lemma resume_purchasers r now m : purchasers (resume r now m).2 = purchasers m.
Proof.
  unfold resume. destruct (current r); [done|].
  destruct (todo r) as [|purchase rest]; [done|].
  assert (Hb : forall p' m', beginPurchase purchase now m = Return (p', m') ->
                 purchasers m' = purchasers m).
  { by intros p' m' (_ & _ & ->)%beginPurchase_Return. }
  destruct (kind r).
  - destruct (beginPurchase purchase now m) as [[p' m']|message] eqn:Hbegin;
      [by apply (Hb p')|done].
  - case_bool_decide; [|done].
    destruct (beginPurchase purchase now m) as [[p' m']|message] eqn:Hbegin;
      [by apply (Hb p')|done].
Qed.

Lemma settle_purchasers r o now m : purchasers (settle r o now m).2 = purchasers m.
Proof.
  unfold settle. destruct (current r) as [p|]; [|done]. cbn [snd].
  by rewrite endPurchase_eq.
Qed.

Lemma step_purchasers_le m ev :
  purchasers_le (purchasers m) (purchasers (step m ev)).
Proof.
  destruct ev as [| |sku website result newId now|sku w user newId now|now|now
                  |i now|i o now|purchaseId]; simpl.
  - unfold start. destruct (isRunning m); apply purchasers_le_refl.
  - apply stop_purchasers.
  - apply purchasers_le_refl.
  - unfold manualPurchase.
    destruct sku as [sku|], user as [u|]; try apply purchasers_le_refl.
    destruct (head _); [|apply purchasers_le_refl].
    destruct (Purchase.insert _ _); apply purchasers_le_refl.
  - unfold processPendingPurchases.
    destruct (negb (isRunning m)); [apply purchasers_le_refl|].
    case_bool_decide; [apply purchasers_le_refl|].
    destruct (findPending _ _); apply purchasers_le_refl.
  - unfold retryFailedPurchases.
    destruct (negb (isRunning m)); [apply purchasers_le_refl|].
    destruct (findRetry _ _); apply purchasers_le_refl.
  - unfold onRun. destruct (runs m !! i) as [r|]; [|apply purchasers_le_refl].
    pose proof (resume_purchasers r now m) as H.
    destruct (resume r now m) as [r' m']. simpl in *. rewrite H.
    apply purchasers_le_refl.
  - unfold onRun. destruct (runs m !! i) as [r|]; [|apply purchasers_le_refl].
    pose proof (settle_purchasers r o now m) as H.
    destruct (settle r o now m) as [r' m']. simpl in *. rewrite H.
    apply purchasers_le_refl.
  - destruct (Purchase.findById purchaseId (database m)) as [p|] eqn:Hp;
      [|unfold cancelPurchase; rewrite Hp; apply purchasers_le_refl].
    destruct (decide (Purchase.status p = Purchase.success
                      \/ Purchase.status p = Purchase.cancelled)) as [Hs|Hs];
      [unfold cancelPurchase; rewrite Hp, bool_decide_eq_true_2 by done;
       apply purchasers_le_refl|].
    rewrite (cancelPurchase_accepted purchaseId m p Hp Hs). cbn [snd].
    destruct (activePurchases m !! purchaseId) as [w|]; simpl;
      [apply purchasers_le_cancel|apply purchasers_le_refl].
Qed.

(** X11.  No method of the manager resets the cancellation flag of a
    purchaser: once the purchaser of a retailer has been cancelled (by
    [cancelPurchase] or by [stop()]), it is cancelled in every later state
    of every execution. *)
Theorem cancelled_purchaser_stays_cancelled evs m w b :
  purchaserOf (purchasers m) w = Some b ->
  BasePurchaser.isCancelled b = true ->
  exists b', purchaserOf (purchasers (run evs m)) w = Some b'
             /\ BasePurchaser.isCancelled b' = true.
Proof.
  revert m b. induction evs as [|ev evs IH]; intros m b Hb Hc; [eauto|].
  destruct (step_purchasers_le m ev w b Hb) as (b1 & Hb1 & Hc1).
  simpl. fold (run evs (step m ev)). eapply IH; [exact Hb1|by apply Hc1].
Qed.

Lemma cancelled_purchaser_stays_cancelled_witness :
  let m := run cancelledInFlight created in
  let later := [Start; ExecutorSpec.intent [Xb] 60000%Z;
                ProcessPending 90000%Z; Resume 1 90001%Z] in
  exists b b',
    purchaserOf (purchasers m) target = Some b
    /\ BasePurchaser.isCancelled b = true
    /\ purchaserOf (purchasers (run later m)) target = Some b'
    /\ BasePurchaser.isCancelled b' = true.
Proof.
  intros m later.
  destruct (purchaserOf (purchasers m) target) as [b|] eqn:Hb;
    [|by vm_compute in Hb].
  assert (Hc : BasePurchaser.isCancelled b = true).
  { vm_compute in Hb. by injection Hb as <-. }
  destruct (cancelled_purchaser_stays_cancelled later m target b Hb Hc)
    as (b' & Hb' & Hc').
  exists b, b'. done.
Defined.

End Lifecycle.

(** ** The retry loops of a purchaser *)

Section Retry.
Import BasePurchaser RetrySpec.

Lemma retryLoop_spec p page maxRetries remaining :
  isCancelled p = false ->
  remaining <= maxRetries ->
  ((exists k, maxRetries - remaining < k <= maxRetries /\ page k = None) ->
   retryLoop p page maxRetries remaining = Return (Some true))
  /\ (retryLoop p page maxRetries remaining = Return (Some true) ->
      exists k, maxRetries - remaining < k <= maxRetries /\ page k = None)
  /\ ((forall k, maxRetries - remaining < k <= maxRetries -> page k <> None) ->
      0 < remaining ->
      exists message, page maxRetries = Some message
                      /\ retryLoop p page maxRetries remaining = Throw message).
Proof.
  intros Hc. induction remaining as [|r IH]; intros Hle.
  { split_and!; [intros (k & ? & _); lia|done|intros _ ?; lia]. }
  destruct IH as (IH1 & IH2 & IH3); [lia|].
  cbn [retryLoop]. unfold randomDelay. rewrite Hc.
  destruct (page (S (maxRetries - S r))) as [message|] eqn:Hpage.
  - case_bool_decide as Hlast.
    + assert (r = 0) as -> by lia. split_and!.
      * intros (k & Hk & Hnone). assert (k = maxRetries) as -> by lia.
        rewrite <- Hlast in Hnone. congruence.
      * done.
      * intros _ _. exists message. by rewrite <- Hlast at 1.
    + split_and!.
      * intros (k & Hk & Hnone). apply IH1. exists k. split; [|done].
        destruct (decide (k = S (maxRetries - S r))) as [->|]; [congruence|lia].
      * intros (k & Hk & Hnone)%IH2. exists k. split; [lia|done].
      * intros Hall _. apply IH3; [|lia]. intros k Hk. apply Hall. lia.
  - split_and!; [done| |].
    + intros _. exists (S (maxRetries - S r)). split; [lia|done].
    + intros Hall _. exfalso.
      apply (Hall (S (maxRetries - S r))); [lia|done].
Qed.

(** X12.  On a purchaser that is not cancelled, [navigateWithRetry] and
    [clickWithRetry] return [true] exactly when one of the attempts
    [1 .. maxRetries] goes through; when every attempt throws, they throw
    the error of the last attempt; and with [maxRetries = 0] they try
    nothing and return [undefined]. *)
Theorem retry_succeeds_iff_an_attempt_does p page maxRetries :
  isCancelled p = false ->
  (navigateWithRetry p page maxRetries = Return (Some true)
   <-> exists k, 1 <= k <= maxRetries /\ page k = None)
  /\ (0 < maxRetries ->
      (forall k, 1 <= k <= maxRetries -> page k <> None) ->
      exists message, page maxRetries = Some message
                      /\ navigateWithRetry p page maxRetries = Throw message)
  /\ navigateWithRetry p page 0 = Return None
  /\ clickWithRetry p page maxRetries = navigateWithRetry p page maxRetries.
Proof.
  intros Hc. unfold navigateWithRetry, clickWithRetry.
  destruct (retryLoop_spec p page maxRetries maxRetries Hc) as (H1 & H2 & H3);
    [lia|].
  split_and!; try done.
  - split.
    + intros (k & Hk & Hpage)%H2. exists k. split; [lia|done].
    + intros (k & Hk & Hpage). apply H1. exists k. split; [lia|done].
  - intros Hpos Hall. apply H3; [|done]. intros k Hk. apply Hall. lia.
Qed.

Lemma retry_succeeds_iff_an_attempt_does_witness :
  isCancelled (create "Target") = false
  /\ navigateWithRetry (create "Target") thirdTime 3 = Return (Some true).
Proof.
  split; [reflexivity|].
  apply (proj1 (retry_succeeds_iff_an_attempt_does
                  (create "Target") thirdTime 3 eq_refl)).
  exists 3. split; [lia|reflexivity].
Defined.

End Retry.

(** ** The automated purchase bot *)

Section BotFacts.
Import AutomatedPurchaseBot BotRunSpec.

Lemma hexdigit_char_not_dash d : hexdigit_char d <> "-"%char.
Proof. by destruct d. Qed.

Lemma hexdigit_char_inj d d' : hexdigit_char d = hexdigit_char d' -> d = d'.
Proof. by destruct d, d'. Qed.

Lemma append_nil_l (s : string) : "" +:+ s = s.
Proof. reflexivity. Qed.

Lemma append_cons_l c (s t : string) : String c s +:+ t = String c (s +:+ t).
Proof. reflexivity. Qed.

Lemma attemptKey_inj sku website sku' website' :
  attemptKey sku website = attemptKey sku' website' ->
  TestStorage.sku_id sku = TestStorage.sku_id sku' /\ website = website'.
Proof.
  unfold attemptKey.
  generalize (TestStorage.sku_id sku) (TestStorage.sku_id sku').
  intros o. induction o as [|d o IH]; intros [|d' o']; simpl;
    repeat (rewrite append_nil_l || rewrite append_cons_l).
  - by intros [= ->].
  - intros [= Hd _]. by destruct (hexdigit_char_not_dash d').
  - intros [= Hd _]. by destruct (hexdigit_char_not_dash d).
  - intros [= Hd%hexdigit_char_inj Ho]. destruct (IH _ Ho) as [-> ->].
    by rewrite Hd.
Qed.

Lemma executeAutomatedPurchase_None user sku cards website price checkType
    marketData urlData newId now ps ps' :
  executeAutomatedPurchase user sku cards website price checkType marketData
    urlData newId now ps = (None, ps') -> ps' = ps.
Proof.
  unfold executeAutomatedPurchase, TestStorage.addTestPurchase.
  repeat case_match; by intros [= <-].
Qed.

Lemma checkWebsite_attempts user sku cards checkType website scrape r1 r2 r3
    urlData newId now b :
  let b' := checkWebsite user sku cards checkType website scrape r1 r2 r3
              urlData newId now b in
  (testPurchases b' = testPurchases b /\ purchaseAttempts b' = purchaseAttempts b)
  \/ purchaseAttempts b'
     = Js.Map_set (attemptKey sku website) now (purchaseAttempts b).
Proof.
  intros b'. subst b'. unfold checkWebsite.
  case_match; [|by left]. case_match; [by left|].
  destruct (executeAutomatedPurchase _ _ _ _ _ _ _ _ _ _ _) as [[p|] ps] eqn:He;
    simpl; [by right|].
  left. split; [|done]. by apply executeAutomatedPurchase_None in He.
Qed.

(** X13.  After the bot has recorded a purchase of an item at a website, every
    check of that item at that website within the next five minutes
    leaves the bot and its storage as they are, whatever price it sees. *)
Theorem cooldown_blocks_repeat user sku cards checkType website scrape r1 r2 r3
    urlData newId now b
    user' sku' cards' checkType' scrape' r1' r2' r3' urlData' newId' now' :
  let b1 := checkWebsite user sku cards checkType website scrape r1 r2 r3
              urlData newId now b in
  testPurchases b1 <> testPurchases b ->
  now <> 0%Z ->
  (now' - now < cooldown)%Z ->
  TestStorage.sku_id sku' = TestStorage.sku_id sku ->
  checkWebsite user' sku' cards' checkType' website scrape' r1' r2' r3'
    urlData' newId' now' b1 = b1.
Proof.
  intros b1 Hnew Hnow Hsoon Hid.
  destruct (checkWebsite_attempts user sku cards checkType website scrape
              r1 r2 r3 urlData newId now b) as [[Hsame _]|Hset];
    [done|]. fold b1 in Hset.
  unfold checkWebsite. case_match; [|done].
  assert (attemptKey sku' website = attemptKey sku website) as ->
    by (unfold attemptKey; by rewrite Hid).
  rewrite Hset, Map_get_set.
  rewrite (bool_decide_eq_false_2 _ Hnow), (bool_decide_eq_true_2 _ Hsoon).
  done.
Qed.

Lemma cooldown_blocks_repeat_witness :
  testPurchases bought <> testPurchases idle
  /\ checkWebsite [Xa] pack [visa] "deep" "target" ScrapeThrew 0 0 1 UrlOther
       [Xb; X2] 200000%Z bought = bought.
Proof.
  split; [by vm_compute|].
  apply (cooldown_blocks_repeat [Xa] pack [visa] "quick" "target" ScrapeThrew
           0 0 1 UrlOther [Xb; X1] 1000%Z idle);
    [by vm_compute|done|by vm_compute|done].
Defined.

(** X14.  The cooldown is kept per (item, website): a check of one pair
    leaves the time that is recorded for every other pair as it was. *)
Theorem cooldown_is_per_pair user sku cards checkType website scrape r1 r2 r3
    urlData newId now b sku' website' :
  (TestStorage.sku_id sku', website') <> (TestStorage.sku_id sku, website) ->
  Js.Map_get (attemptKey sku' website')
    (purchaseAttempts
       (checkWebsite user sku cards checkType website scrape r1 r2 r3
          urlData newId now b))
  = Js.Map_get (attemptKey sku' website') (purchaseAttempts b).
Proof.
  intros Hne.
  destruct (checkWebsite_attempts user sku cards checkType website scrape
              r1 r2 r3 urlData newId now b) as [[_ ->]| ->]; [done|].
  apply Map_get_set_ne. intros [Hi Hw]%attemptKey_inj.
  apply Hne. by rewrite Hi, Hw.
Qed.

Lemma cooldown_is_per_pair_witness :
  Js.Map_get (attemptKey box "target") (purchaseAttempts bought) = None
  /\ Js.Map_get (attemptKey pack "target") (purchaseAttempts bought)
     = Some 1000%Z.
Proof.
  split; [|by vm_compute].
  unfold bought.
  rewrite (cooldown_is_per_pair [Xa] pack [visa] "quick" "target" ScrapeThrew
             0 0 1 UrlOther [Xb; X1] 1000%Z idle box "target");
    [reflexivity|]. by intros [= ?].
Defined.

(** X15.  The bot charges the first card that is marked as default, and the
    first card when none is; the record it returns is appended to the
    storage.  Without a card nothing is recorded. *)
Theorem bot_charges_the_default_card user sku cards website price checkType
    marketData urlData newId now ps p ps' :
  executeAutomatedPurchase user sku cards website price checkType marketData
    urlData newId now ps = (Some p, ps') ->
  ps' = ps ++ [p]
  /\ (exists card,
        card ∈ cards
        /\ TestStorage.creditCardUsed p = TestStorage.cardName card
        /\ head (filter (fun c => TestStorage.isDefault c = true) cards
                 ++ cards) = Some card)
  /\ executeAutomatedPurchase user sku [] website price checkType marketData
       urlData newId now ps = (None, ps).
Proof.
  intros He. split_and!.
  - unfold executeAutomatedPurchase, TestStorage.addTestPurchase in He.
    repeat case_match; simplify_eq; done.
  - unfold executeAutomatedPurchase, TestStorage.addTestPurchase in He.
    destruct (head (filter _ cards)) as [c|] eqn:Hdef.
    + exists c. apply head_Some_elem_of in Hdef as Hin.
      apply list_elem_of_filter in Hin as [_ Hin].
      split; [done|]. split.
      * repeat case_match; simplify_eq; done.
      * destruct (filter _ cards); [done|]. simpl in *. done.
    + destruct (head cards) as [c|] eqn:Hfirst.
      * exists c. split; [by apply head_Some_elem_of|]. split.
        -- repeat case_match; simplify_eq; done.
        -- apply head_None in Hdef. by rewrite Hdef.
      * repeat case_match; simplify_eq.
  - unfold executeAutomatedPurchase. simpl. by repeat case_match.
Qed.

Lemma bot_charges_the_default_card_witness :
  exists p ps',
    executeAutomatedPurchase [Xa] pack [visa; backup] "target" (Js.Num 20) "quick"
      None UrlOther [Xb; X1] 1000%Z [] = (Some p, ps')
    /\ ps' = [p]
    /\ TestStorage.creditCardUsed p = "Backup".
Proof.
  destruct (executeAutomatedPurchase [Xa] pack [visa; backup] "target" (Js.Num 20)
              "quick" None UrlOther [Xb; X1] 1000%Z []) as [[p|] ps'] eqn:He;
    [|by vm_compute in He].
  exists p, ps'. split; [done|].
  destruct (bot_charges_the_default_card _ _ _ _ _ _ _ _ _ _ _ _ _ He)
    as (Hps & _ & _).
  split; [done|]. vm_compute in He. by injection He as <- _.
Defined.

End BotFacts.

(** ** Reading a price and an availability off a page *)

Section Scraping.
Import JsString BaseScraper ScrapeSpec.

Lemma isPriceChar_not_dollar c : isPriceChar c = true -> c <> "$"%char.
Proof. by intros H ->. Qed.

Lemma isDigit_isPriceChar c : isDigit c = true -> isPriceChar c = true.
Proof. unfold isPriceChar. by intros ->. Qed.

Lemma priceMatch_dropWhile s :
  priceMatch s
  = match dropWhile (fun c => negb (isPriceChar c)) s with
    | EmptyString => None
    | String c t => Some (group1 (String c t))
    end.
Proof.
  induction s as [|c t IH]; [done|].
  cbn [priceMatch matchHere dropWhile].
  destruct (isPriceChar c) eqn:Hc; cbn [negb].
  - by rewrite (bool_decide_eq_false_2 _ (isPriceChar_not_dollar c Hc)).
  - case_bool_decide; [|done].
    destruct t as [|c' t']; [done|].
    destruct (isPriceChar c') eqn:Hc'; [|done].
    cbn [dropWhile]. by rewrite Hc'.
Qed.

Lemma dropWhile_empty f s : dropWhile f s = EmptyString <-> allChars f s = true.
Proof.
  induction s as [|c t IH]; [done|]. simpl. destruct (f c); simpl; [done|].
  split; [done|]. by intros.
Qed.

Lemma dropWhile_app f pre s :
  allChars f pre = true -> dropWhile f (pre +:+ s) = dropWhile f s.
Proof.
  induction pre as [|c t IH]; [done|]. simpl.
  intros [Hc Ht]%andb_true_iff. rewrite Hc. by apply IH.
Qed.

Lemma parseFloat_not_Null s : parseFloat s <> Js.Null.
Proof. unfold parseFloat. by case_match. Qed.

Lemma digitsValue_nonneg s acc : (0 <= acc)%Z -> (0 <= digitsValue acc s)%Z.
Proof.
  revert acc. induction s as [|c t IH]; intros acc Hacc; [done|].
  simpl. apply IH. assert (0 <= digitValue c)%Z; [|lia].
  unfold digitValue. repeat case_match; lia.
Qed.

Lemma roundHalfEven_nonneg q : (0 <= q)%Q -> (0 <= roundHalfEven q)%Z.
Proof.
  intros Hq. unfold roundHalfEven.
  assert (0 <= Qfloor q)%Z.
  { change 0%Z with (Qfloor 0). by apply Qfloor_resp_le. }
  repeat case_match; lia.
Qed.

Lemma toDouble_nonneg q : (0 <= toDouble q)%Q.
Proof.
  unfold toDouble. destruct (Qle_bool q 0) eqn:Hq; [done|].
  set (e := Z.max _ _).
  assert (Hpos : (0 < q)%Q).
  { apply Qnot_le_lt. intros H%Qle_bool_iff. congruence. }
  assert (Hp : (0 < 2 ^ e)%Q) by (apply Qpower_0_lt; done).
  apply Qmult_le_0_compat; [|by apply Qlt_le_weak].
  change 0%Q with (inject_Z 0). rewrite <- Zle_Qle.
  apply roundHalfEven_nonneg. apply Qle_shift_div_l; [done|]. lra.
Qed.

Lemma parseFloat_nonneg s q : parseFloat s = Js.Num q -> (0 <= q)%Q.
Proof.
  unfold parseFloat. case_match; [done|]. intros [= <-].
  apply toDouble_nonneg.
Qed.

Lemma extractPrice_prefix pre s :
  allChars (fun c => negb (isPriceChar c)) pre = true ->
  extractPrice (Some (pre +:+ s)) = extractPrice (Some s).
Proof.
  intros Hpre. simpl.
  rewrite !priceMatch_dropWhile, dropWhile_app by done.
  destruct (dropWhile _ s) as [|c t] eqn:Hd.
  - by repeat case_bool_decide.
  - assert (s <> EmptyString) by by intros ->.
    assert (pre +:+ s <> EmptyString).
    { destruct pre; simpl; [done|]. by rewrite append_cons_l. }
    by rewrite !bool_decide_eq_false_2.
Qed.

(** X16.  [extractPrice] returns no price exactly when the text is missing or
    has no digit and no comma, and it never returns a negative number:
    what stands before the first digit or comma, a minus sign included,
    is not read. *)
Theorem extractPrice_reads_no_sign text :
  (extractPrice text = Js.Null
   <-> text = None
       \/ exists s, text = Some s
                    /\ allChars (fun c => negb (isPriceChar c)) s = true)
  /\ (forall q, extractPrice text = Js.Num q -> (0 <= q)%Q)
  /\ (forall pre s,
        text = Some (pre +:+ s) ->
        allChars (fun c => negb (isPriceChar c)) pre = true ->
        extractPrice text = extractPrice (Some s)).
Proof.
  split_and!.
  - destruct text as [s|]; simpl; [|split; [by left|done]].
    rewrite priceMatch_dropWhile.
    destruct (dropWhile _ s) as [|c t] eqn:Hd.
    + apply dropWhile_empty in Hd.
      split; [intros _; right; by exists s|]. by case_bool_decide.
    + split.
      * case_bool_decide as Hs; [subst s; done|].
        by intros ?%parseFloat_not_Null.
      * intros [?|(s' & [= <-] & Hall)]; [done|].
        apply dropWhile_empty in Hall. congruence.
  - destruct text as [s|]; simpl; [|done]. intros q.
    case_bool_decide; [done|]. destruct (priceMatch s); [|done].
    apply parseFloat_nonneg.
  - intros pre s -> Hpre. by apply extractPrice_prefix.
Qed.

Lemma takeWhile_app f run s :
  allChars f run = true -> stopsAt f s = true ->
  takeWhile f (run +:+ s) = run /\ dropWhile f (run +:+ s) = s.
Proof.
  intros Hrun Hs. induction run as [|c t IH].
  - destruct s as [|c t]; [done|]. simpl in *.
    apply negb_true_iff in Hs. by rewrite Hs.
  - simpl in *. apply andb_true_iff in Hrun as [Hc Ht]. rewrite Hc.
    destruct (IH Ht) as [-> ->]. done.
Qed.

Lemma removeAll_app c (a b : string) :
  removeAll c (a +:+ b) = removeAll c a +:+ removeAll c b.
Proof.
  induction a as [|c' t IH]; [done|]. simpl. case_bool_decide; [done|].
  by rewrite IH.
Qed.

Lemma removeAll_digits s :
  allChars isDigit s = true -> removeAll "," s = s.
Proof.
  induction s as [|c t IH]; [done|]. simpl.
  intros [Hc Ht]%andb_true_iff. rewrite IH by done.
  rewrite bool_decide_eq_false_2; [done|]. by intros ->.
Qed.

Lemma removeAll_priceChars s :
  allChars isPriceChar s = true -> allChars isDigit (removeAll "," s) = true.
Proof.
  induction s as [|c t IH]; [done|]. simpl.
  intros [Hc Ht]%andb_true_iff. case_bool_decide as Hcomma; [by apply IH|].
  simpl. rewrite IH by done. unfold isPriceChar in Hc.
  rewrite (bool_decide_eq_false_2 _ Hcomma), orb_false_r in Hc. by rewrite Hc.
Qed.

Lemma parseFloat_digits int frac :
  allChars isDigit int = true -> allChars isDigit frac = true ->
  parseFloat (int +:+ String "." frac)
  = if bool_decide (int = EmptyString) && bool_decide (frac = EmptyString)
    then Js.NaN
    else Js.Num (toDouble (decimal int frac)).
Proof.
  intros Hint Hfrac. unfold parseFloat.
  destruct (takeWhile_app isDigit int (String "." frac) Hint eq_refl) as [-> ->].
  destruct (takeWhile_app isDigit frac EmptyString Hfrac eq_refl) as [Ht _].
  assert (frac +:+ EmptyString = frac) as Hnil.
  { clear. induction frac as [|c t IH]; [done|]. by rewrite append_cons_l, IH. }
  rewrite Hnil in Ht. by rewrite Ht.
Qed.

Lemma parseFloat_whole int :
  allChars isDigit int = true ->
  parseFloat int
  = if bool_decide (int = EmptyString) then Js.NaN
    else Js.Num (toDouble (decimal int EmptyString)).
Proof.
  intros Hint. unfold parseFloat.
  destruct (takeWhile_app isDigit int EmptyString Hint eq_refl) as [Ht Hd].
  assert (int +:+ EmptyString = int) as Hnil.
  { clear. induction int as [|c t IH]; [done|]. by rewrite append_cons_l, IH. }
  rewrite Hnil in Ht, Hd. rewrite Ht, Hd.
  by rewrite (bool_decide_eq_true_2 (EmptyString = EmptyString)), andb_true_r.
Qed.

(** X17.  [extractPrice] reads the first number of the text: from the first
    digit or comma on it takes the digits and commas, a dot that follows
    them and the digits after the dot, and drops the commas; the text
    before and after that is not read.  What it returns is the Number
    value of this decimal numeral, the double nearest to it with a tie
    going to the even significand ([NaN] when no digit was read), for a
    numeral of at most 308 digits before the dot; a longer one can give
    [Infinity]. *)
Theorem extractPrice_reads_the_first_number pre run frac post :
  allChars (fun c => negb (isPriceChar c)) pre = true ->
  allChars isPriceChar run = true ->
  run <> EmptyString ->
  allChars isDigit frac = true ->
  stopsAt isDigit post = true ->
  String.length (removeAll "," run) <= 308 ->
  extractPrice (Some (pre +:+ run +:+ String "." frac +:+ post))
  = (if bool_decide (removeAll "," run = EmptyString)
        && bool_decide (frac = EmptyString)
     then Js.NaN
     else Js.Num (toDouble (decimal (removeAll "," run) frac)))
  /\ (stopsAt (fun c => isPriceChar c || bool_decide (c = "."%char)) post = true ->
      extractPrice (Some (pre +:+ run +:+ post))
      = if bool_decide (removeAll "," run = EmptyString) then Js.NaN
        else Js.Num (toDouble (decimal (removeAll "," run) EmptyString))).
Proof.
  intros Hpre Hrun Hne Hfrac Hpost _.
  destruct run as [|c run']; [done|].
  assert (Hc : isPriceChar c = true)
    by (simpl in Hrun; by apply andb_true_iff in Hrun as [-> _]).
  split.
  - rewrite (extractPrice_prefix pre _ Hpre).
    unfold extractPrice. rewrite priceMatch_dropWhile.
    rewrite bool_decide_eq_false_2 by by rewrite append_cons_l.
    assert (Hd : dropWhile (fun c => negb (isPriceChar c))
                   (String c run' +:+ String "." frac +:+ post)
                 = String c run' +:+ String "." frac +:+ post).
    { rewrite append_cons_l. simpl. by rewrite Hc. }
    rewrite Hd, append_cons_l.
    change (String c (run' +:+ String "." frac +:+ post))
      with (String c run' +:+ String "." (frac +:+ post)).
    unfold group1.
    destruct (takeWhile_app isPriceChar (String c run') (String "." (frac +:+ post))
                Hrun eq_refl) as [-> ->].
    destruct (takeWhile_app isDigit frac post Hfrac Hpost) as [-> _].
    rewrite removeAll_app.
    change (removeAll "," (String "." frac)) with (String "." (removeAll "," frac)).
    rewrite (removeAll_digits frac Hfrac).
    apply parseFloat_digits; [by apply removeAll_priceChars|done].
  - intros Hstop. rewrite (extractPrice_prefix pre _ Hpre).
    unfold extractPrice. rewrite priceMatch_dropWhile.
    rewrite bool_decide_eq_false_2 by by rewrite append_cons_l.
    assert (Hd : dropWhile (fun c => negb (isPriceChar c)) (String c run' +:+ post)
                 = String c run' +:+ post).
    { rewrite append_cons_l. simpl. by rewrite Hc. }
    rewrite Hd, append_cons_l.
    change (String c (run' +:+ post)) with (String c run' +:+ post).
    unfold group1.
    assert (Hstop' : stopsAt isPriceChar post = true).
    { destruct post as [|d post']; [done|]. simpl in *.
      apply negb_true_iff, orb_false_iff in Hstop as [-> _]. done. }
    destruct (takeWhile_app isPriceChar (String c run') post Hrun Hstop')
      as [-> ->].
    assert (Hnodot : match post with
                     | String "." t =>
                         String c run' +:+ String "." (takeWhile isDigit t)
                     | _ => String c run'
                     end = String c run').
    { destruct post as [|d post']; [done|]. simpl in Hstop.
      apply negb_true_iff, orb_false_iff in Hstop as [_ Hdot].
      apply bool_decide_eq_false in Hdot.
      destruct d as [[] [] [] [] [] [] [] []]; try done. }
    rewrite Hnodot.
    apply parseFloat_whole. by apply removeAll_priceChars.
Qed.

Lemma extractPrice_reads_the_first_number_witness :
  extractPrice (Some "Now -$1,234.56 each")
  = Js.Num (toDouble (decimal "1234" "56"))
  /\ Qeq_bool (toDouble (decimal "1234" "56"))
              (2714826150374277 # 2199023255552) = true
  /\ extractPrice (Some "from 9007199254740993 points")
     = Js.Num (toDouble (decimal "9007199254740993" ""))
  /\ Qeq_bool (toDouble (decimal "9007199254740993" "")) 9007199254740992 = true
  /\ extractPrice (Some "Price, see cart") = Js.NaN.
Proof.
  destruct (extractPrice_reads_the_first_number "Now -$" "1,234" "56" " each"
              eq_refl eq_refl ltac:(done) eq_refl eq_refl ltac:(simpl; lia))
    as [H1 _].
  destruct (extractPrice_reads_the_first_number "from " "9007199254740993" ""
              " points" eq_refl eq_refl ltac:(done) eq_refl eq_refl
              ltac:(simpl; lia)) as [_ H2].
  split_and!; [exact H1|by vm_compute|exact (H2 eq_refl)|by vm_compute|reflexivity].
Defined.

Lemma toLowerCase_app (a b : string) :
  toLowerCase (a +:+ b) = toLowerCase a +:+ toLowerCase b.
Proof. induction a as [|c t IH]; [done|]. simpl. by rewrite IH. Qed.

Lemma startsWith_app (k b : string) : startsWith (k +:+ b) k = true.
Proof.
  induction k as [|c t IH]; [done|]. simpl.
  by rewrite bool_decide_eq_true_2, IH.
Qed.

Lemma includes_app (a k b : string) : includes (a +:+ k +:+ b) k = true.
Proof.
  induction a as [|c t IH].
  - simpl. destruct (k +:+ b) eqn:Hkb; simpl;
      rewrite <- ?Hkb, startsWith_app; done.
  - rewrite append_cons_l. simpl. rewrite IH. by rewrite orb_true_r.
Qed.

Lemma some_included_elem text keywords kw :
  kw ∈ keywords -> includes text kw = true -> some_included text keywords = true.
Proof.
  intros Hin Hinc. unfold some_included. apply existsb_exists.
  exists kw. split; [by apply list_elem_of_In|done].
Qed.

(** X18.  A sign of missing stock wins: a text that contains one of the
    phrases "out of stock", "unavailable", "sold out" or "notify me", in
    any mix of upper and lower case, is not in stock, whatever else it
    says; and a missing or empty text is not in stock. *)
Theorem out_of_stock_phrase_wins pre mid post :
  toLowerCase mid ∈ outOfStockKeywords ->
  isInStock (Some (pre +:+ mid +:+ post)) = false
  /\ isInStock None = false
  /\ isInStock (Some EmptyString) = false.
Proof.
  intros Hkw. split; [|done]. unfold isInStock.
  case_bool_decide; [done|].
  rewrite !toLowerCase_app.
  by rewrite (some_included_elem _ _ _ Hkw (includes_app _ _ _)).
Qed.

Lemma out_of_stock_phrase_wins_witness :
  isInStock (Some "Add to cart - currently UNAVAILABLE online") = false
  /\ isInStock (Some "Add to cart") = true.
Proof.
  split; [|reflexivity].
  apply (out_of_stock_phrase_wins "Add to cart - currently " "UNAVAILABLE" " online").
  apply elem_of_cons. right. apply elem_of_cons. by left.
Defined.

Lemma scrapeProduct_success hasBrowser url page now :
  ScrapeResult.success (TargetScraper.scrapeProduct hasBrowser url page now) = true
  <-> exists productData, scraped hasBrowser page productData.
Proof.
  unfold TargetScraper.scrapeProduct, scraped.
  assert (Hnav : forall r,
            navigateWithRetry (TargetScraper.goto page) 3 = Return r ->
            exists k, 1 <= k <= 3 /\ TargetScraper.goto page k = None).
  { unfold navigateWithRetry. simpl. intros r.
    destruct (TargetScraper.goto page 1) eqn:H1; [|exists 1; split; [lia|done]].
    destruct (TargetScraper.goto page 2) eqn:H2; [|exists 2; split; [lia|done]].
    destruct (TargetScraper.goto page 3) eqn:H3; [|exists 3; split; [lia|done]].
    done. }
  assert (Hnav' : (exists k, 1 <= k <= 3 /\ TargetScraper.goto page k = None) ->
            exists r, navigateWithRetry (TargetScraper.goto page) 3 = Return r).
  { unfold navigateWithRetry. simpl. intros (k & Hk & Hnone).
    destruct (TargetScraper.goto page 1) eqn:H1; [|eauto].
    destruct (TargetScraper.goto page 2) eqn:H2; [|eauto].
    destruct (TargetScraper.goto page 3) eqn:H3; [|eauto].
    assert (k = 1 \/ k = 2 \/ k = 3) as [->|[->| ->]] by lia; congruence. }
  split.
  - destruct hasBrowser; [|destruct (TargetScraper.launch page) eqn:Hl; [done|]].
    all: destruct (navigateWithRetry _ 3) as [r|] eqn:Hn; [|done].
    all: specialize (Hnav r eq_refl).
    all: destruct (TargetScraper.captcha page) as [[]|]; simpl; try done.
    all: destruct (TargetScraper.productTitle page); [done|].
    all: destruct (TargetScraper.evaluate page) as [pd|]; [|done].
    all: intros _; exists pd; split_and!; auto.
  - intros (pd & Hb & Hn%Hnav' & -> & -> & ->). destruct Hn as [r ->].
    simpl. by destruct Hb as [-> | ->]; [|destruct hasBrowser].
Qed.

Lemma scrapeProduct_scraped hasBrowser url page now productData :
  scraped hasBrowser page productData ->
  TargetScraper.scrapeProduct hasBrowser url page now
  = ScrapeResult.mk true
      (extractPrice (TargetScraper.priceText productData))
      (isInStock (TargetScraper.availabilityText productData))
      (TargetScraper.orEmpty (TargetScraper.title productData)) "target"
      (TargetScraper.url productData) "" now.
Proof.
  intros Hs.
  assert (Hsucc : ScrapeResult.success
                    (TargetScraper.scrapeProduct hasBrowser url page now) = true)
    by (apply scrapeProduct_success; eauto).
  destruct Hs as (_ & _ & Hc & Ht & He).
  unfold TargetScraper.scrapeProduct in *. rewrite Hc, Ht, He in *. simpl in *.
  by repeat case_match.
Qed.

(** X19.  From the page to the order: a probe of Target makes the manager
    trigger a purchase exactly when the page goes through (the browser is
    there or launches, one of three navigation attempts succeeds, there
    is no CAPTCHA, the title appears and the data is extracted), the
    price text reads as a number that is not zero and at most the target
    price, the availability text reads as in stock, and the item is
    bought automatically and without confirmation. *)
Theorem target_page_is_bought_iff sku website hasBrowser url page scrapedAt
    newId now e :
  DecisionSpec.buys sku website
    (ScraperManager.Resolved
       (TargetScraper.scrapeProduct hasBrowser url page scrapedAt))
    newId now e
  <-> exists productData,
        scraped hasBrowser page productData
        /\ Js.truthy (extractPrice (TargetScraper.priceText productData)) = true
        /\ Js.le (extractPrice (TargetScraper.priceText productData))
                 (SKU.targetPrice sku) = true
        /\ isInStock (TargetScraper.availabilityText productData) = true
        /\ SKU.autoPurchase (SKU.purchaseSettings sku) = true
        /\ SKU.requireConfirmation (SKU.purchaseSettings sku) = false.
Proof.
  rewrite buys_iff. unfold DecisionSpec.succeeded.
  unfold ScraperManager.priceMeetsTarget, ScraperManager.autoPurchaseEnabled.
  split.
  - intros (result & [[= <-] Hs] & Hp & Ha).
    apply scrapeProduct_success in Hs as [pd Hpd]. exists pd.
    rewrite (scrapeProduct_scraped _ _ _ _ _ Hpd) in Hp. simpl in Hp.
    apply andb_true_iff in Hp as [[Ht Hl]%andb_true_iff Hi].
    apply andb_true_iff in Ha as [Ha Hc%negb_true_iff]. done.
  - intros (pd & Hpd & Ht & Hl & Hi & Ha & Hc).
    eexists. split; [split; [reflexivity|]|].
    + apply scrapeProduct_success. eauto.
    + rewrite (scrapeProduct_scraped _ _ _ _ _ Hpd). simpl.
      by rewrite Ht, Hl, Hi, Ha, Hc.
Qed.

End Scraping.

(** ** The queries of the scraper manager *)

Section Queries.
Import ScraperManager ScraperQueries CacheSpec.

Lemma insert_Permutation {A} (compare : A -> A -> Z) x l :
  JsArray.insert compare x l ≡ₚ x :: l.
Proof.
  induction l as [|y l IH]; simpl; [done|].
  case_bool_decide; [|done]. rewrite IH. apply Permutation_swap.
Qed.

Lemma sort_Permutation {A} (compare : A -> A -> Z) l :
  JsArray.sort compare l ≡ₚ l.
Proof.
  induction l as [|x l IH]; simpl; [done|].
  by rewrite insert_Permutation, IH.
Qed.

Lemma insert_sorted {A} (key : A -> Z) x l :
  StronglySorted (fun a b => (key b <= key a)%Z) l ->
  StronglySorted (fun a b => (key b <= key a)%Z)
    (JsArray.insert (fun a b => (key b - key a)%Z) x l).
Proof.
  induction 1 as [|y l Hl IH Hy]; simpl.
  - apply SSorted_cons; [constructor|done].
  - case_bool_decide as Hc.
    + apply SSorted_cons; [done|].
      rewrite insert_Permutation. apply Forall_cons. split; [lia|done].
    + apply SSorted_cons; [by apply SSorted_cons|].
      apply Forall_cons. split; [lia|].
      eapply Forall_impl; [exact Hy|]. intros z Hz. simpl in Hz. lia.
Qed.

Lemma sort_sorted {A} (key : A -> Z) l :
  StronglySorted (fun a b => (key b <= key a)%Z)
    (JsArray.sort (fun a b => (key b - key a)%Z) l).
Proof.
  induction l as [|x l IH]; simpl; [constructor|]. by apply insert_sorted.
Qed.

(** X20.  [getAllResults(limit)] returns the [limit] newest entries of the
    cache (100 without an argument, all of them when there are fewer),
    newest first: what it leaves out is at most as new as anything it
    returns. *)
Theorem getAllResults_newest_first m limit :
  let results := getAllResults m limit in
  length results = Nat.min (default 100 limit) (length m)
  /\ StronglySorted (fun a b => (timestamp b <= timestamp a)%Z) results
  /\ exists rest,
       results ++ rest ≡ₚ m.*2
       /\ forall a b, a ∈ results -> b ∈ rest -> (timestamp b <= timestamp a)%Z.
Proof.
  intros results. subst results. unfold getAllResults.
  set (n := default 100 limit).
  set (sorted := JsArray.sort _ m.*2).
  assert (Hp : sorted ≡ₚ m.*2) by apply sort_Permutation.
  assert (Hs : StronglySorted (fun a b => (timestamp b <= timestamp a)%Z) sorted)
    by apply sort_sorted.
  rewrite <- (take_drop n sorted) in Hs.
  split_and!.
  - rewrite length_take, Hp, length_fmap. done.
  - by eapply StronglySorted_app_1_l.
  - exists (drop n sorted). split; [by rewrite take_drop|].
    intros a b Ha Hb. by eapply (StronglySorted_app_1_elem_of _ _ _ a b) in Hs.
Qed.



End Queries.

(** ** The purchaser of Target and the forms of a purchaser *)

Section Purchasers.
Import BasePurchaser PurchaserForms TargetPurchaser.

Lemma retryLoop_cancelled p page maxRetries remaining :
  isCancelled p = true -> remaining <> 0 ->
  BasePurchaser.retryLoop p page maxRetries remaining = Throw cancelledMessage.
Proof.
  intros Hc Hr. destruct remaining as [|k]; [done|].
  simpl. unfold randomDelay. rewrite Hc. by case_bool_decide.
Qed.

Lemma retryLoop_Return p page maxRetries remaining r :
  BasePurchaser.retryLoop p page maxRetries remaining = Return r ->
  remaining <> 0 -> isCancelled p = false.
Proof.
  intros H Hr. destruct (isCancelled p) eqn:Hc; [|done].
  by rewrite retryLoop_cancelled in H.
Qed.

(** X22.  A purchaser that has been cancelled cannot buy at Target any more:
    every later call of [executePurchase] fails, with the message of the
    cancellation unless the browser itself cannot be started, and leaves
    the purchaser cancelled and without an open browser. *)
Theorem cancelled_target_purchase_fails p creditCard quantity page :
  isCancelled p = true ->
  exists error,
    (executePurchase p creditCard quantity page).2 = PurchaseManager.Failed error
    /\ (error = cancelledMessage
        \/ launch page = Some error
        \/ newPage page = Some error)
    /\ isCancelled (executePurchase p creditCard quantity page).1 = true
    /\ browser (executePurchase p creditCard quantity page).1 <> Launched.
Proof.
  intros Hc. unfold executePurchase, openBrowser.
  assert (Hclose : forall q, isCancelled q = true ->
            isCancelled (closeBrowser q) = true
            /\ browser (closeBrowser q) <> Launched).
  { intros [? [] ?] Hq; by simpl in *. }
  destruct (launch page) as [error|] eqn:Hl.
  { exists error. simpl. destruct (Hclose p Hc). split_and!; auto. }
  destruct (newPage page) as [error|] eqn:Hn.
  { exists error. simpl. destruct (Hclose (initBrowser p) Hc).
    split_and!; auto. }
  exists cancelledMessage. simpl. unfold addToCart, navigateWithRetry.
  rewrite retryLoop_cancelled by done. simpl.
  destruct (Hclose (initBrowser p) Hc). split_and!; auto.
Qed.

Lemma cancelled_target_purchase_fails_witness :
  isCancelled (cancel (create "Target")) = true
  /\ (executePurchase (cancel (create "Target")) CheckoutSpec.card 1
        CheckoutSpec.noButton).2
     = PurchaseManager.Failed "Purchase cancelled".
Proof.
  split; [reflexivity|].
  destruct (cancelled_target_purchase_fails (cancel (create "Target"))
              CheckoutSpec.card 1 CheckoutSpec.noButton eq_refl)
    as (error & -> & [->|[H|H]] & _); [done|discriminate H..].
Defined.

Lemma retry_cases p page :
  isCancelled p = false ->
  (CheckoutSpec.clicks page
   /\ BasePurchaser.retryLoop p page 3 3 = Return (Some true))
  \/ (~ CheckoutSpec.clicks page
      /\ exists error, BasePurchaser.retryLoop p page 3 3 = Throw error).
Proof.
  intros Hc. unfold CheckoutSpec.clicks. simpl. unfold randomDelay. rewrite Hc.
  destruct (page 1) as [e1|] eqn:H1; [|left; split; [exists 1; split; [lia|done]|done]].
  destruct (page 2) as [e2|] eqn:H2; [|left; split; [exists 2; split; [lia|done]|done]].
  destruct (page 3) as [e3|] eqn:H3; [|left; split; [exists 3; split; [lia|done]|done]].
  right. split; [|by eexists].
  intros (k & Hk & Hnone).
  assert (k = 1 \/ k = 2 \/ k = 3) as [->|[->| ->]] by lia; congruence.
Qed.

Lemma fillAll_cases p page i n :
  isCancelled p = false ->
  ((forall j, j < n -> page (i + j) = None) /\ fillAll p page i n = Return tt)
  \/ (~ (forall j, j < n -> page (i + j) = None)
      /\ exists error, fillAll p page i n = Throw error).
Proof.
  intros Hc. revert i. induction n as [|n IH]; intros i.
  { left. split; [intros j ?; lia|done]. }
  simpl. unfold fillField, randomDelay. rewrite Hc.
  destruct (page i) as [e|] eqn:Hi.
  { right. split; [|by eexists]. intros H. specialize (H 0).
    rewrite Nat.add_0_r in H. rewrite H in Hi by lia. done. }
  simpl. destruct (IH (S i)) as [[Hall ->]|[Hno [e ->]]].
  - left. split; [|done]. intros [|j] Hj; [by rewrite Nat.add_0_r|].
    rewrite Nat.add_succ_r. apply Hall. lia.
  - right. split; [|by eexists]. intros H. apply Hno. intros j Hj.
    specialize (H (S j)). rewrite Nat.add_succ_r in H. apply H. lia.
Qed.

Lemma card_cases p decrypted page :
  isCancelled p = false ->
  (decrypted = None /\ (forall i, i < 5 -> page i = None)
   /\ (fillCreditCardInfo p cardSelectors decrypted page).2 = Return tt)
  \/ (~ (decrypted = None /\ forall i, i < 5 -> page i = None)
      /\ exists error,
           (fillCreditCardInfo p cardSelectors decrypted page).2 = Throw error).
Proof.
  intros Hc. unfold fillCreditCardInfo.
  destruct decrypted as [e|]; [right; split; [by intros [? _]|by eexists]|].
  simpl. unfold fillField, randomDelay. rewrite Hc.
  destruct (page 0) as [e|] eqn:H0;
    [right; split; [intros [_ H]; rewrite H in H0 by lia; done|by eexists]|].
  destruct (page 1) as [e|] eqn:H1;
    [right; split; [intros [_ H]; rewrite H in H1 by lia; done|by eexists]|].
  destruct (page 2) as [e|] eqn:H2;
    [right; split; [intros [_ H]; rewrite H in H2 by lia; done|by eexists]|].
  destruct (page 3) as [e|] eqn:H3;
    [right; split; [intros [_ H]; rewrite H in H3 by lia; done|by eexists]|].
  destruct (page 4) as [e|] eqn:H4;
    [right; split; [intros [_ H]; rewrite H in H4 by lia; done|by eexists]|].
  left. split_and!; [done| |done].
  intros i Hi. assert (i = 0 \/ i = 1 \/ i = 2 \/ i = 3 \/ i = 4)
    as [->|[->|[->|[->| ->]]]] by lia; done.
Qed.

Lemma clickFirst_Return p page i remaining :
  clickFirst p page i remaining = Return tt.
Proof.
  revert i. induction remaining as [|k IH]; intros i; [done|].
  simpl. destruct (addButton page i) as [[]|]; simpl; try apply IH.
  destruct (BasePurchaser.clickWithRetry _ _ _); simpl; [done|apply IH].
Qed.

Local Ltac thrown := eexists; cbn [andThen snd]; reflexivity.

Lemma addToCart_cases p page quantity :
  isCancelled p = false ->
  (CheckoutSpec.clicks (goto page) /\ productTitle page = None
   /\ addToCart p page quantity = Return tt)
  \/ (~ (CheckoutSpec.clicks (goto page) /\ productTitle page = None)
      /\ exists error, addToCart p page quantity = Throw error).
Proof.
  intros Hc. unfold addToCart, navigateWithRetry.
  destruct (retry_cases p (goto page) Hc) as [[Hgoto ->]|[Hno [e ->]]];
    [|right; split; [by intros [? _]|thrown]].
  cbn [andThen]. destruct (productTitle page) as [e|];
    [right; split; [by intros [_ ?]|thrown]|].
  left. split_and!; [done..|]. cbn [pageDoes andThen swallow].
  rewrite clickFirst_Return. unfold randomDelay. by rewrite Hc.
Qed.

Lemma goToCart_cases p page :
  isCancelled p = false ->
  (CheckoutSpec.clicks (cartClick page) /\ cartItem page = None
   /\ goToCart p page = Return tt)
  \/ (~ (CheckoutSpec.clicks (cartClick page) /\ cartItem page = None)
      /\ exists error, goToCart p page = Throw error).
Proof.
  intros Hc. unfold goToCart, clickWithRetry, waitForNavigation. rewrite Hc.
  destruct (retry_cases p (cartClick page) Hc) as [[Hcart ->]|[Hno [e ->]]];
    [|right; split; [by intros [? _]|thrown]].
  cbn [andThen]. destruct (cartItem page) as [e|];
    [right; split; [by intros [_ ?]|thrown]|].
  by left.
Qed.

Lemma proceedToCheckout_cases p page :
  isCancelled p = false ->
  (CheckoutSpec.clicks (checkoutClick page)
   /\ proceedToCheckout p page = Return tt)
  \/ (~ CheckoutSpec.clicks (checkoutClick page)
      /\ exists error, proceedToCheckout p page = Throw error).
Proof.
  intros Hc. unfold proceedToCheckout, clickWithRetry, waitForNavigation.
  rewrite Hc.
  destruct (retry_cases p (checkoutClick page) Hc) as [[Hcheckout ->]|[Hno [e ->]]];
    [by left|right; split; [done|thrown]].
Qed.

Lemma fillShippingInfo_cases p page :
  isCancelled p = false ->
  ((forall i, i < 8 -> shippingField page i = None)
   /\ fillShippingInfo p page = Return tt)
  \/ (~ (forall i, i < 8 -> shippingField page i = None)
      /\ exists error, fillShippingInfo p page = Throw error).
Proof.
  intros Hc. unfold fillShippingInfo.
  destruct (fillAll_cases p (shippingField page) 0 8 Hc)
    as [[Hship ->]|[Hno [e ->]]]; [|right; split; [done|thrown]].
  left. split; [done|]. cbn [andThen]. unfold randomDelay. rewrite Hc.
  by destruct (_ >> _).
Qed.

Lemma fillPaymentInfo_cases p page creditCard :
  isCancelled p = false ->
  (cardNumberField page = None /\ decrypted page = None
   /\ (forall i, i < 5 -> cardField page i = None)
   /\ fillPaymentInfo p page creditCard = Return tt)
  \/ (~ (cardNumberField page = None /\ decrypted page = None
         /\ forall i, i < 5 -> cardField page i = None)
      /\ exists error, fillPaymentInfo p page creditCard = Throw error).
Proof.
  intros Hc. unfold fillPaymentInfo.
  destruct (cardNumberField page) as [e|];
    [right; split; [by intros [? _]|thrown]|].
  cbn [pageDoes andThen].
  destruct (card_cases p (decrypted page) (cardField page) Hc)
    as [(Hdec & Hcard & ->)|[Hno [e ->]]].
  - by left.
  - right. split; [|thrown]. intros (_ & ? & ?). by apply Hno.
Qed.

Lemma placeOrder_cases p page :
  isCancelled p = false ->
  (captcha page = Return false
   /\ CheckoutSpec.clicks (placeOrderClick page)
   /\ (orderConfirmation page = None \/ confirmationPage page = None)
   /\ placeOrder p page = Return (extractOrderInfo (orderEvaluation page)))
  \/ (~ (captcha page = Return false
         /\ CheckoutSpec.clicks (placeOrderClick page)
         /\ (orderConfirmation page = None \/ confirmationPage page = None))
      /\ exists error, placeOrder p page = Throw error).
Proof.
  intros Hc. unfold placeOrder, handleCaptcha, clickWithRetry.
  destruct (captcha page) as [[]|e];
    [right; split; [by intros [? _]|thrown]|
    |right; split; [by intros [? _]|thrown]].
  cbn [negb andThen].
  destruct (retry_cases p (placeOrderClick page) Hc) as [[Hplace ->]|[Hno [e ->]]];
    [|right; split; [by intros (_ & ? & _)|thrown]].
  cbn [andThen].
  destruct (orderConfirmation page) as [e|];
    [destruct (confirmationPage page) as [e'|]|].
  - right. split; [by intros (_ & _ & [?|?])|thrown].
  - left. split_and!; auto.
  - left. split_and!; auto.
Qed.

(** X23.  Whether a purchase at Target succeeds is decided by a fixed part of
    the checkout.  On a purchaser that is not cancelled,
    [executePurchase] reports success, with the order id and the
    confirmation number of the confirmation page and no transaction id,
    exactly when the browser starts, the product page loads within three
    attempts and shows a title, the cart and the checkout can be opened,
    the eight shipping fields and the five card fields can be filled, no
    CAPTCHA is found, the order button can be clicked and one of the two
    confirmation selectors appears; otherwise it reports a failure.  The
    quantity field, the add-to-cart buttons, the modal, the guest
    checkout, the continue button and the billing form have no part in
    it: an order is reported although no add-to-cart button was found.
    When the browser started, it is closed afterwards. *)
Theorem target_purchase_succeeds_iff p creditCard quantity page :
  isCancelled p = false ->
  ((CheckoutSpec.goesThrough page
    /\ (executePurchase p creditCard quantity page).2
       = PurchaseManager.Succeeded (CheckoutSpec.confirmed page))
   \/ (~ CheckoutSpec.goesThrough page
       /\ exists error,
            (executePurchase p creditCard quantity page).2
            = PurchaseManager.Failed error))
  /\ (launch page = None ->
      browser (executePurchase p creditCard quantity page).1 = Closed).
Proof.
  intros Hc.
  assert (Hc' : isCancelled (initBrowser p) = false) by done.
  split.
  2: { intros Hl. unfold executePurchase, openBrowser. rewrite Hl.
       destruct (newPage page); [done|].
       by destruct (_ >> _). }
  unfold executePurchase, openBrowser, CheckoutSpec.goesThrough.
  destruct (launch page) as [e|] eqn:Hlaunch.
  { right. split; [by intros [? _]|by eexists]. }
  destruct (newPage page) as [e|] eqn:HnewPage.
  { right. split; [by intros (_ & ? & _)|by eexists]. }
  set (b := initBrowser p) in *. cbn [andThen].
  destruct (addToCart_cases b page quantity Hc') as [(? & ? & ->)|[Hno [e ->]]];
    [|right; split; [intros G; apply Hno; tauto|thrown]].
  cbn [andThen].
  destruct (goToCart_cases b page Hc') as [(? & ? & ->)|[Hno [e ->]]];
    [|right; split; [intros G; apply Hno; tauto|thrown]].
  cbn [andThen].
  destruct (proceedToCheckout_cases b page Hc') as [(? & ->)|[Hno [e ->]]];
    [|right; split; [intros G; apply Hno; tauto|thrown]].
  cbn [andThen].
  destruct (fillShippingInfo_cases b page Hc') as [(? & ->)|[Hno [e ->]]];
    [|right; split; [intros G; apply Hno; tauto|thrown]].
  cbn [andThen].
  destruct (fillPaymentInfo_cases b page creditCard Hc')
    as [(? & ? & ? & ->)|[Hno [e ->]]];
    [|right; split; [intros G; apply Hno; tauto|thrown]].
  cbn [andThen].
  destruct (placeOrder_cases b page Hc') as [(? & ? & ? & ->)|[Hno [e ->]]];
    [|right; split; [intros G; apply Hno; tauto|thrown]].
  left. split; [|done]. split_and!; auto.
Qed.

Lemma target_purchase_succeeds_iff_witness :
  isCancelled (create "Target") = false
  /\ (forall i, addButton CheckoutSpec.noButton i = Return false)
  /\ (executePurchase (create "Target") CheckoutSpec.card 2 CheckoutSpec.noButton).2
     = PurchaseManager.Succeeded
         (PurchaseManager.mkResult (Some "902-1") None None None None).
Proof.
  split_and!; [reflexivity|reflexivity|].
  destruct (target_purchase_succeeds_iff (create "Target") CheckoutSpec.card 2
              CheckoutSpec.noButton eq_refl) as [[[_ H]|[Hno _]] _]; [exact H|].
  exfalso. apply Hno. unfold CheckoutSpec.goesThrough, CheckoutSpec.clicks.
  split_and!; try reflexivity; try (exists 1; split; [lia|reflexivity]).
  by left.
Defined.

Lemma toFill_cons (wanted : bool) selector fields :
  CheckoutSpec.toFill ((wanted, selector) :: fields)
  = if wanted then default "" selector :: CheckoutSpec.toFill fields
    else CheckoutSpec.toFill fields.
Proof.
  unfold CheckoutSpec.toFill. rewrite filter_cons. simpl.
  by destruct wanted.
Qed.

Lemma fillEach_spec p fields page i :
  (fillEach p fields page i).1 `prefix_of` CheckoutSpec.toFill fields
  /\ ((fillEach p fields page i).2 = Return tt ->
      (fillEach p fields page i).1 = CheckoutSpec.toFill fields)
  /\ (isCancelled p = true -> (fillEach p fields page i).1 = [])
  /\ (forall error, (fillEach p fields page i).2 = Throw error ->
        error = cancelledMessage \/ exists j, page j = Some error).
Proof.
  revert i. induction fields as [|[wanted selector] fields IH]; intros i.
  { split_and!; done. }
  rewrite toFill_cons. simpl. destruct wanted; [|apply IH].
  unfold fillField, randomDelay.
  destruct (isCancelled p) eqn:Hc.
  { split_and!; [apply prefix_nil|done|done|]. intros error [= <-]. by left. }
  destruct (page i) as [message|] eqn:Hpage.
  { split_and!; [apply prefix_nil|done|done|].
    intros error [= <-]. right. by exists i. }
  destruct (IH (S i)) as (IH1 & IH2 & _ & IH4).
  destruct (fillEach p fields page (S i)) as [filled c]. simpl in *.
  split_and!; [by apply prefix_cons|by intros ->%IH2|done|done].
Qed.

(** X24.  The two forms of a purchaser are filled field by field in a fixed
    order, and the method stops at the first field that fails: the card
    form in the order number, month, year, CVV, holder, each one when its
    selector is configured; the billing form in the order street, city,
    state, ZIP code, country, each one when its selector is configured and
    the address has a value for it.  A method that returns has filled all
    of these fields; one that throws passes on the error of the page or of
    the cancellation.  Nothing is typed when the card data cannot be
    decrypted or when the purchaser is cancelled. *)
Theorem forms_fill_in_order_until_first_failure
    p creditCard cardSelectors addressSelectors decrypted page :
  let card := fillCreditCardInfo p cardSelectors decrypted page in
  let billing := fillBillingAddress p creditCard addressSelectors page in
  card.1 `prefix_of` CheckoutSpec.cardFields cardSelectors
  /\ (card.2 = Return tt ->
      decrypted = None /\ card.1 = CheckoutSpec.cardFields cardSelectors)
  /\ (forall error, decrypted = Some error -> card = ([], Throw error))
  /\ (forall error, card.2 = Throw error ->
        error = cancelledMessage \/ decrypted = Some error
        \/ exists j, page j = Some error)
  /\ billing.1 `prefix_of`
       CheckoutSpec.addressFields addressSelectors (billingAddress creditCard)
  /\ (billing.2 = Return tt ->
      billing.1
      = CheckoutSpec.addressFields addressSelectors (billingAddress creditCard))
  /\ (forall error, billing.2 = Throw error ->
        error = cancelledMessage \/ exists j, page j = Some error)
  /\ (isCancelled p = true -> card.1 = [] /\ billing.1 = []).
Proof.
  intros card billing. subst card billing.
  unfold fillCreditCardInfo, fillBillingAddress.
  set (cardForm := [_; _; _; _; _]).
  set (billingForm := [_; _; _; _; _]).
  destruct (fillEach_spec p cardForm page 0) as (C1 & C2 & C3 & C4).
  destruct (fillEach_spec p billingForm page 0) as (B1 & B2 & B3 & B4).
  change (CheckoutSpec.cardFields cardSelectors)
    with (CheckoutSpec.toFill cardForm).
  change (CheckoutSpec.addressFields addressSelectors (billingAddress creditCard))
    with (CheckoutSpec.toFill billingForm).
  destruct decrypted as [message|]; cbn [fst snd].
  - split_and!; try done.
    + apply prefix_nil.
    + by intros error [= <-].
    + intros error [= <-]. right. by left.
    + intros Hc. split; [done|by apply B3].
  - split_and!; try done.
    + by intros ->%C2.
    + intros error [?|?]%C4; auto.
    + intros Hc. split; [by apply C3|by apply B3].
Qed.

Lemma split_nonempty sep s : Js.split sep s <> [].
Proof.
  destruct s as [|c s]; simpl; [done|].
  case_bool_decide; [done|]. by destruct (Js.split sep s).
Qed.

Lemma join_split s : join " " (Js.split " " s) = s.
Proof.
  induction s as [|c s IH]; simpl; [done|].
  pose proof (split_nonempty " " s) as Hne.
  case_bool_decide as Hc.
  - subst c. destruct (Js.split " " s) as [|w ws] eqn:Hs; [done|].
    change (join " " ("" :: w :: ws)) with (String " " (join " " (w :: ws))).
    by rewrite IH.
  - destruct (Js.split " " s) as [|w ws] eqn:Hs; [done|].
    destruct ws as [|w' ws]; simpl in *; by rewrite <- IH.
Qed.

(** X25.  The shipping form splits the name of the card holder at its first
    space: the part before it is the first name and all the rest, further
    spaces included, the last name.  A name without a space, or with
    nothing after its first space, gets the last name [Doe]; a name that
    begins with a space has an empty first name. *)
Theorem cardholder_name_is_split_at_first_space :
  (forall name,
     occurs " " name = false ->
     firstName name = name /\ lastName name = "Doe")
  /\ (forall first rest,
        occurs " " first = false ->
        firstName (first +:+ String " " rest) = first
        /\ lastName (first +:+ String " " rest)
           = if bool_decide (rest = "") then "Doe" else rest).
Proof.
  split.
  - intros name Hname. unfold firstName, lastName.
    by rewrite split_absent by done.
  - intros first rest Hfirst. unfold firstName, lastName.
    rewrite split_append by done. split; [done|].
    change (drop 1 (first :: Js.split " " rest)) with (Js.split " " rest).
    by rewrite join_split.
Qed.

End Purchasers.

(** ** The checks of the automated purchase bot *)

Section BotLoops.
Import AutomatedPurchaseBot BotLoop BotLoopSpec.

Lemma checkWebsite_isRunning user sku cards checkType website scrape r1 r2 r3
    urlData newId now b :
  isRunning (checkWebsite user sku cards checkType website scrape r1 r2 r3
               urlData newId now b) = isRunning b.
Proof. unfold checkWebsite. by repeat case_match. Qed.

Lemma checkWebsite_purchases user sku cards checkType website scrape r1 r2 r3
    urlData newId now b :
  let b' := checkWebsite user sku cards checkType website scrape r1 r2 r3
              urlData newId now b in
  testPurchases b' = testPurchases b
  \/ exists p card,
       testPurchases b' = testPurchases b ++ [p]
       /\ card ∈ cards
       /\ TestStorage.createdBy p = user
       /\ TestStorage.sku p = TestStorage.sku_id sku
       /\ TestStorage.website_name p = website
       /\ Js.le (TestStorage.price p) (TestStorage.sku_targetPrice sku) = true
       /\ TestStorage.quantity p = 1
       /\ TestStorage.total p = TestStorage.price p
       /\ TestStorage.status p = "success"
       /\ TestStorage.creditCardUsed p = TestStorage.cardName card.
Proof.
  intros b'. subst b'. unfold checkWebsite.
  destruct (Js.le _ _ && _) eqn:Hbuy; [|by left].
  apply andb_true_iff in Hbuy as [Hprice _].
  case_match; [by left|].
  destruct (executeAutomatedPurchase _ _ _ _ _ _ _ _ _ _ _) as [[p|] ps] eqn:He;
    simpl; [|left; by apply executeAutomatedPurchase_None in He].
  right. unfold executeAutomatedPurchase, TestStorage.addTestPurchase in He.
  set (defaultCard := match head (filter _ cards) with
                      | Some card => Some card
                      | None => head cards
                      end) in He.
  assert (Hcard : forall card, defaultCard = Some card -> card ∈ cards).
  { intros card. unfold defaultCard.
    destruct (head (filter _ cards)) as [c|] eqn:Hdef.
    - intros [= <-]. apply head_Some_elem_of in Hdef.
      by apply list_elem_of_filter in Hdef as [_ ?].
    - apply head_Some_elem_of. }
  destruct defaultCard as [card|]; [|by repeat case_match].
  exists p, card. specialize (Hcard card eq_refl).
  repeat case_match; simplify_eq; by split_and!.
Qed.

Lemma checkEach_spec user sku cards checkType websites probe i b :
  isRunning (checkEach user sku cards checkType websites probe i b) = isRunning b
  /\ exists new,
       testPurchases (checkEach user sku cards checkType websites probe i b)
       = testPurchases b ++ new
       /\ Forall (fun p =>
            exists card,
              card ∈ cards
              /\ TestStorage.createdBy p = user
              /\ TestStorage.sku p = TestStorage.sku_id sku
              /\ TestStorage.website_name p ∈ websites
              /\ Js.le (TestStorage.price p) (TestStorage.sku_targetPrice sku) = true
              /\ TestStorage.quantity p = 1
              /\ TestStorage.total p = TestStorage.price p
              /\ TestStorage.status p = "success"
              /\ TestStorage.creditCardUsed p = TestStorage.cardName card) new
       /\ length new <= length websites.
Proof.
  revert i b. induction websites as [|website rest IH]; intros i b.
  { split; [done|]. exists []. by rewrite app_nil_r. }
  cbn [checkEach]. set (x := probe i).
  set (b1 := checkWebsite _ _ _ _ _ _ _ _ _ _ _ _ _).
  destruct (IH (S i) b1) as (Hrun & new & Hnew & Hall & Hlen).
  split; [rewrite Hrun; apply checkWebsite_isRunning|].
  assert (Hrest : Forall (fun p =>
            exists card,
              card ∈ cards
              /\ TestStorage.createdBy p = user
              /\ TestStorage.sku p = TestStorage.sku_id sku
              /\ TestStorage.website_name p ∈ website :: rest
              /\ Js.le (TestStorage.price p) (TestStorage.sku_targetPrice sku) = true
              /\ TestStorage.quantity p = 1
              /\ TestStorage.total p = TestStorage.price p
              /\ TestStorage.status p = "success"
              /\ TestStorage.creditCardUsed p = TestStorage.cardName card) new).
  { eapply Forall_impl; [exact Hall|].
    intros p (card & Hp). destruct_and!. exists card.
    split_and!; try done. by apply list_elem_of_further. }
  destruct (checkWebsite_purchases user sku cards checkType website
              (scrape x) (r1 x) (r2 x) (r3 x) (urlData x) (newId x) (now x) b)
    as [Hsame|(p & card & Hone & Hp)]; fold b1 in Hsame || fold b1 in Hone.
  - exists new. rewrite Hnew, Hsame. split_and!; [done|done|simpl; lia].
  - exists (p :: new). rewrite Hnew, Hone, <- app_assoc.
    split_and!; [done| |simpl; lia].
    apply Forall_cons. split; [|done].
    destruct_and!. subst website. exists card.
    split_and!; try done. apply list_elem_of_here.
Qed.

Lemma checkSKUs_spec users account checkType probe skus j b :
  account ∈ users ->
  skus ⊆ userSKUs account ->
  isRunning (checkSKUs (user account) skus (userCreditCards account) checkType
               probe j b) = isRunning b
  /\ exists new,
       testPurchases (checkSKUs (user account) skus (userCreditCards account)
                        checkType probe j b)
       = testPurchases b ++ new
       /\ Forall (covered users) new.
Proof.
  intros Haccount. revert j b. induction skus as [|sku rest IH]; intros j b Hsub.
  { split; [done|]. exists []. by rewrite app_nil_r. }
  cbn [checkSKUs]. unfold checkSKUForPurchase.
  set (b1 := checkEach _ _ _ _ _ _ _ _).
  destruct (IH (S j) b1) as (Hrun & new & Hnew & Hall).
  { intros s Hs. apply Hsub. by apply list_elem_of_further. }
  destruct (checkEach_spec (user account) sku (userCreditCards account)
              checkType (websitesOf sku) (probe j) 0 b)
    as (Hrun1 & new1 & Hnew1 & Hall1 & _). fold b1 in Hrun1, Hnew1.
  split; [by rewrite Hrun|].
  exists (new1 ++ new). rewrite Hnew, Hnew1, <- app_assoc.
  split; [done|]. apply Forall_app. split; [|done].
  eapply Forall_impl; [exact Hall1|].
  intros p (card & Hp). destruct_and!. exists account, sku, card.
  split_and!; try done.
  apply Hsub, list_elem_of_here.
Qed.

Lemma checkUsers_spec users checkType probe rest k b :
  rest ⊆ users ->
  exists new,
    testPurchases (checkUsers rest checkType probe k b) = testPurchases b ++ new
    /\ Forall (covered users) new.
Proof.
  revert k b. induction rest as [|account rest IH]; intros k b Hsub.
  { exists []. by rewrite app_nil_r. }
  cbn [checkUsers].
  match goal with
  | |- context [checkUsers rest checkType probe (S k) ?x] => set (b1 := x)
  end.
  destruct (IH (S k) b1) as (new & Hnew & Hall).
  { intros a Ha. apply Hsub. by apply list_elem_of_further. }
  assert (H1 : exists new1, testPurchases b1 = testPurchases b ++ new1
                            /\ Forall (covered users) new1).
  { unfold b1. destruct (_ || _).
    - exists []. by rewrite app_nil_r.
    - destruct (checkSKUs_spec users account checkType (probe k)
                  (userSKUs account) 0 b) as (_ & new1 & ? & ?);
        [apply Hsub, list_elem_of_here|done|by exists new1]. }
  destruct H1 as (new1 & Hnew1 & Hall1).
  exists (new1 ++ new). rewrite Hnew, Hnew1, <- app_assoc.
  split; [done|]. by apply Forall_app.
Qed.

(** X27.  A check of the bot only adds to the stored purchases, and every
    record it adds is a purchase of one unit of an active item of a user
    at one of the websites of the item, at a price that is not above the
    target price of the item, stored as [success] and charged to one of
    the active cards of that user.  A bot that is not running adds
    nothing, and a user without an active card gets no record. *)
Theorem bot_buys_only_at_or_below_target checkType users probe b :
  let b' := checkForPurchaseOpportunities checkType users probe b in
  (exists new,
     testPurchases b' = testPurchases b ++ new
     /\ Forall (covered users) new
     /\ Forall (fun p =>
          exists account, account ∈ users
                          /\ TestStorage.createdBy p = user account
                          /\ userCreditCards account <> []) new)
  /\ (isRunning b = false -> b' = b).
Proof.
  intros b'. subst b'. unfold checkForPurchaseOpportunities. split.
  - destruct (negb (isRunning b)).
    { exists []. by rewrite app_nil_r. }
    destruct (checkUsers_spec users checkType probe users 0 b) as (new & ? & Hall);
      [done|].
    exists new. split_and!; [done..|].
    eapply Forall_impl; [exact Hall|].
    intros p (account & sku & card & ? & ? & Hcard & ? & _).
    exists account. split_and!; [done..|]. intros Hnil.
    rewrite Hnil in Hcard. by apply elem_of_nil in Hcard.
  - by intros ->.
Qed.

End BotLoops.

(** ** The storage of the test mode *)

Section Storage.
Import TestStorage TestStorageQueries StorageSpec.

Lemma filter_all {A} (P : A -> Prop) `{!forall x, Decision (P x)} (l : list A) :
  (forall x, P x) -> filter P l = l.
Proof.
  intros HP. induction l as [|x l IH]; [done|].
  by rewrite filter_cons_True, IH.
Qed.

Lemma insert_ext {A} (compare compare' : A -> A -> Z) x l :
  (forall y, y ∈ l -> compare x y = compare' x y) ->
  JsArray.insert compare x l = JsArray.insert compare' x l.
Proof.
  induction l as [|y l IH]; intros Hext; simpl; [done|].
  rewrite (Hext y) by apply list_elem_of_here.
  rewrite IH; [done|]. intros z Hz. apply Hext. by apply list_elem_of_further.
Qed.

Lemma sort_ext {A} (compare compare' : A -> A -> Z) l :
  (forall x y, x ∈ l -> y ∈ l -> compare x y = compare' x y) ->
  JsArray.sort compare l = JsArray.sort compare' l.
Proof.
  induction l as [|x l IH]; intros Hext; simpl; [done|].
  rewrite <- IH.
  - apply insert_ext. intros y Hy. rewrite sort_Permutation in Hy.
    apply Hext; [apply list_elem_of_here|by apply list_elem_of_further].
  - intros a b Ha Hb. apply Hext; by apply list_elem_of_further.
Qed.

Lemma filter_when {A} (b : bool) (P Q : A -> Prop)
    `{!forall x, Decision (P x), !forall x, Decision (Q x)} (l : list A) :
  (forall x, Q x <-> (b = true -> P x)) ->
  (if b then filter P l else l) = filter Q l.
Proof.
  intros HQ. destruct b.
  - apply list_filter_iff. intros x. rewrite HQ. tauto.
  - symmetry. apply filter_all. intros x. by apply HQ.
Qed.

Lemma findTestPurchases_filtered query testPurchases :
  (findTestPurchases query testPurchases).1
  = JsArray.sort newestFirst (filter (asked query) testPurchases).
Proof.
  unfold findTestPurchases. cbn [fst]. f_equal.
  pose (Q1 := fun p : Purchase =>
               match q_createdBy query with
               | Some createdBy' => createdBy p = createdBy'
               | None => True
               end).
  pose (Q2 := fun p : Purchase =>
               if Js.truthy_str (q_status query)
               then Some (status p) = q_status query else True).
  pose (Q3 := fun p : Purchase =>
               if Js.truthy_str (q_websiteName query)
               then Some (website_name p) = q_websiteName query else True).
  assert (D1 : forall p, Decision (Q1 p))
    by (intros p; unfold Q1; destruct (q_createdBy query); apply _).
  assert (D2 : forall p, Decision (Q2 p))
    by (intros p; unfold Q2; destruct (Js.truthy_str (q_status query)); apply _).
  assert (D3 : forall p, Decision (Q3 p))
    by (intros p; unfold Q3; destruct (Js.truthy_str (q_websiteName query)); apply _).
  assert (H1 : match q_createdBy query with
               | Some createdBy' =>
                   filter (fun p => createdBy p = createdBy') testPurchases
               | None => testPurchases
               end = filter Q1 testPurchases).
  { unfold Q1. clear. destruct (q_createdBy query); [|symmetry; by apply filter_all].
    by apply list_filter_iff. }
  rewrite H1.
  rewrite (filter_when (Js.truthy_str (q_status query)) _ Q2)
    by (intros p; unfold Q2;
        destruct (Js.truthy_str (q_status query)); naive_solver).
  rewrite (filter_when (Js.truthy_str (q_websiteName query)) _ Q3)
    by (intros p; unfold Q3;
        destruct (Js.truthy_str (q_websiteName query)); naive_solver).
  rewrite !list_filter_filter. apply list_filter_iff.
  intros p. unfold asked. fold (Q1 p) (Q2 p) (Q3 p). tauto.
Qed.

(** X28.  [findTestPurchases] returns the stored purchases that the query asks
    for, each as often as it is stored, and newest first when every one
    of them has a date of creation.  It never loses a stored purchase, but
    a query of which no filter applies sorts the stored array itself: the
    storage is then in the order of the result, and no longer in the order
    in which the purchases were added. *)
Theorem findTestPurchases_sorts_the_store_itself query testPurchases :
  let result := (findTestPurchases query testPurchases).1 in
  let testPurchases' := (findTestPurchases query testPurchases).2 in
  result ≡ₚ filter (asked query) testPurchases
  /\ (Forall (fun p => createdAt p <> None) testPurchases ->
      StronglySorted (fun a b => (created b <= created a)%Z) result)
  /\ testPurchases' ≡ₚ testPurchases
  /\ (unfiltered query -> testPurchases' = result)
  /\ (~ unfiltered query -> testPurchases' = testPurchases).
Proof.
  intros result testPurchases'. subst result testPurchases'.
  assert (Hcases :
            (unfiltered query
             /\ (findTestPurchases query testPurchases).2
                = JsArray.sort newestFirst testPurchases
             /\ (findTestPurchases query testPurchases).1
                = JsArray.sort newestFirst testPurchases)
            \/ (~ unfiltered query
                /\ (findTestPurchases query testPurchases).2 = testPurchases)).
  { unfold findTestPurchases, unfiltered. cbn [fst snd].
    destruct (q_createdBy query) as [u|];
      [right; split; [by intros [? _]|done]|].
    destruct (Js.truthy_str (q_status query));
      [right; split; [by intros (_ & ? & _)|done]|].
    destruct (Js.truthy_str (q_websiteName query));
      [right; split; [by intros (_ & _ & ?)|done]|].
    by left. }
  split_and!.
  - rewrite findTestPurchases_filtered. apply sort_Permutation.
  - intros Hdates. rewrite findTestPurchases_filtered.
    rewrite (sort_ext _ (fun a b => (created b - created a)%Z));
      [apply sort_sorted|].
    intros a b [_ Ha]%list_elem_of_filter [_ Hb]%list_elem_of_filter.
    rewrite Forall_forall in Hdates.
    pose proof (Hdates a Ha). pose proof (Hdates b Hb).
    unfold newestFirst, created.
    by destruct (createdAt a), (createdAt b).
  - destruct Hcases as [(_ & -> & _)|[_ ->]]; [apply sort_Permutation|done].
  - intros Hu. destruct Hcases as [(_ & -> & ->)|[Hno _]]; done.
  - intros Hno. by destruct Hcases as [(Hu & _)|[_ ->]].
Qed.

(** X29.  A purchase that [addTestPurchase] stores under an id that no stored
    purchase has is found again by [findTestPurchaseById] with that id and
    the user it was created for, and with no other user; what the lookup
    finds for another id is as before. *)
Theorem added_purchase_is_found purchase newId now testPurchases :
  (forall q, q ∈ testPurchases -> _id q <> Some newId) ->
  let added := addTestPurchase purchase newId now testPurchases in
  findTestPurchaseById newId (createdBy purchase) added.2 = Some added.1
  /\ (forall userId, userId <> createdBy purchase ->
        findTestPurchaseById newId userId added.2 = None)
  /\ (forall id userId, id <> newId ->
        findTestPurchaseById id userId added.2
        = findTestPurchaseById id userId testPurchases).
Proof.
  intros Hfresh added. subst added. unfold addTestPurchase. cbn [fst snd].
  unfold findTestPurchaseById.
  assert (Hnone : forall userId,
            filter (fun p => _id p = Some newId /\ createdBy p = userId)
                   testPurchases = []).
  { intros userId. apply elem_of_nil_inv.
    intros q [[Hid _] Hq]%list_elem_of_filter. by apply (Hfresh q). }
  split_and!.
  - rewrite filter_app, Hnone. by rewrite filter_cons_True.
  - intros userId Hne. rewrite filter_app, Hnone.
    rewrite filter_cons_False; [done|]. simpl. by intros [_ ?].
  - intros id userId Hne. rewrite filter_app.
    rewrite filter_cons_False; [by rewrite app_nil_r|].
    simpl. intros [[= ?] _]. done.
Qed.

Lemma added_purchase_is_found_witness :
  findTestPurchaseById [Xb; X1] [Xa]
    (addTestPurchase order [Xb; X1] 1000%Z []).2
  = Some (addTestPurchase order [Xb; X1] 1000%Z []).1
  /\ findTestPurchaseById [Xb; X1] [Xc]
       (addTestPurchase order [Xb; X1] 1000%Z []).2 = None.
Proof.
  destruct (added_purchase_is_found order [Xb; X1] 1000%Z [])
    as (Hfound & Hother & _).
  - intros q Hq. by apply elem_of_nil in Hq.
  - split; [exact Hfound|]. by apply Hother.
Defined.

Lemma take_app_take {A} n (l m : list A) :
  take n (l ++ take n m) = take n (l ++ m).
Proof.
  rewrite !take_app, take_take. do 2 f_equal. lia.
Qed.

Lemma addTestScraperResult_take {A} (x : ScraperResult A * string * string) store :
  length store <= 50 ->
  (addTestScraperResult x.1.1 x.1.2 x.2 store).2 = take 50 (stamped x :: store).
Proof.
  intros Hlen. unfold addTestScraperResult, stamped. cbn [fst snd].
  case_bool_decide as Hlong; [done|].
  rewrite take_ge; [done|]. simpl in *. lia.
Qed.

(** X30.  The stored scraper results are the newest fifty, newest first:
    after results have been added one after the other to a storage of at
    most fifty, the storage holds them in the reverse order of their
    arrival, followed by the older ones, cut off after the fiftieth.  A
    result is stored with the id and the time stamp it brings, and with
    those of the clock where it brings none. *)
Theorem scraper_results_keep_the_newest_fifty {A}
    (results : list (ScraperResult A * string * string)) testScraperResults :
  length testScraperResults <= 50 ->
  addAll results testScraperResults
  = take 50 (reverse (stamped <$> results) ++ testScraperResults)
  /\ length (addAll results testScraperResults) <= 50.
Proof.
  intros Hlen.
  assert (Hall : addAll results testScraperResults
                 = take 50 (reverse (stamped <$> results) ++ testScraperResults)).
  { revert testScraperResults Hlen.
    induction results as [|x results IH]; intros store Hlen.
    { simpl. by rewrite take_ge. }
    change (addAll (x :: results) store)
      with (addAll results (addTestScraperResult x.1.1 x.1.2 x.2 store).2).
    rewrite addTestScraperResult_take by done.
    rewrite IH by (rewrite length_take; lia).
    rewrite take_app_take, fmap_cons, reverse_cons, <- app_assoc. done. }
  split; [done|]. rewrite Hall, length_take. lia.
Qed.

Lemma scraper_results_keep_the_newest_fifty_witness :
  addAll [(mkScraperResult None None "first", "1700000000000", "2023-11-14");
          (mkScraperResult (Some "r2") None "second", "1700000060000", "2023-11-15")]
         []
  = [mkScraperResult (Some "r2") (Some "2023-11-15") "second";
     mkScraperResult (Some "1700000000000") (Some "2023-11-14") "first"].
Proof.
  destruct (scraper_results_keep_the_newest_fifty
              [(mkScraperResult None None "first", "1700000000000", "2023-11-14");
               (mkScraperResult (Some "r2") None "second", "1700000060000",
                "2023-11-15")] []) as [-> _]; [simpl; lia|reflexivity].
Defined.

End Storage.
